(** * Dependency-Parsing-Implementation: the parser class, its SQLite store
      and the tree-data builder of [0107.py]

    The development follows the Python source function by function:

    - [DependencyParser.load_models], [parse_with_spacy] and
      [parse_with_transformers] call third-party models; the models are
      parameters of the parser object (callables that return a value or
      raise), everything the repository does around the call is modelled.
    - [init_database], [save_to_database] and [get_statistics] issue fixed SQL
      statements through Python's [sqlite3]; the statements are given as
      abstract syntax and run against a small relational engine with the
      implicit-transaction behaviour of a [sqlite3] connection.
    - [create_visualization] builds node and edge dicts and serialises them
      with [json.dumps].

    Conventions.  A Python [str] is a Rocq [string], one character per code
    point below 256.  A Python [dict] with [str] keys is an insertion-ordered
    association list (the order is what [json.dumps] prints).  Python values
    are [None], [bool], [int], [str], [list], [tuple] and [dict]; floats are
    not part of the value universe.  Exceptions are instances of [Exception]
    subclasses (asynchronous [BaseException]s such as [KeyboardInterrupt] are
    outside the model). *)

From Stdlib Require Import Ascii.
From stdpp Require Import base option list strings gmap sorting pretty relations.

Set Warnings "-register-all".
Local Open Scope string_scope.
Local Open Scope list_scope.
Local Open Scope Z_scope.

(** ** Exceptions and outcomes *)

Inductive exn_class :=
| KeyError | TypeError | ValueError | OSError
| OperationalError | IntegrityError | ProgrammingError
(** a subclass of [OSError], such as [FileNotFoundError] or [PermissionError] *)
| OSError_subclass (name : string)
(** any other class; none of these is [OSError] or derives from it *)
| OtherError (name : string).

(** [issubclass(cls, OSError)]: what [except OSError] catches. *)
Definition is_OSError (cls : exn_class) : bool :=
  match cls with
  | OSError | OSError_subclass _ => true
  | _ => false
  end.

(** An exception object: its class and [str(e)]. *)
Record exn := Exn { exn_cls : exn_class; exn_str : string }.

Inductive outcome (A : Type) :=
| Return (a : A)
| Raise (e : exn).
Arguments Return {A} a.
Arguments Raise {A} e.

Global Instance outcome_ret : MRet outcome := λ A a, Return a.
Global Instance outcome_bind : MBind outcome := λ A B f m,
  match m with
  | Return a => f a
  | Raise e => Raise e
  end.

(** [try: m  except Exception as e: h e] *)
Definition try_except {A} (m : outcome A) (h : exn → outcome A) : outcome A :=
  match m with
  | Return a => Return a
  | Raise e => h e
  end.

Definition returns {A} (m : outcome A) : Prop := ∃ a, m = Return a.

(** [[f x for x in xs]] and [for x in xs: f x] with a body that may raise:
    the first exception ends the loop. *)
Fixpoint map_outcome {A B} (f : A → outcome B) (xs : list A) : outcome (list B) :=
  match xs with
  | [] => Return []
  | x :: xs' => y ← f x; ys ← map_outcome f xs'; Return (y :: ys)
  end.

(** ** Python values *)

Inductive pyval :=
| PyNone
| PyBool (b : bool)
| PyInt (n : Z)
| PyStr (s : string)
| PyList (xs : list pyval)
| PyTuple (xs : list pyval)
| PyDict (kvs : list (string * pyval)).

(** A dict with [str] keys, in insertion order. *)
Abbreviation pydict := (list (string * pyval)).

Fixpoint dict_get {V} (k : string) (d : list (string * V)) : option V :=
  match d with
  | [] => None
  | (k', v) :: d' => if decide (k' = k) then Some v else dict_get k d'
  end.

(** [k in d] *)
Definition dict_contains {V} (k : string) (d : list (string * V)) : bool :=
  bool_decide (is_Some (dict_get k d)).

Definition dict_keys {V} (d : list (string * V)) : list string := d.*1.

Definition squote : string := "'".
Definition dquote : string := String (ascii_of_nat 34) EmptyString.
Definition backslash : string := String (ascii_of_nat 92) EmptyString.

Definition hex_digit (n : nat) : ascii :=
  match n with
  | 0 => "0" | 1 => "1" | 2 => "2" | 3 => "3" | 4 => "4" | 5 => "5"
  | 6 => "6" | 7 => "7" | 8 => "8" | 9 => "9" | 10 => "a" | 11 => "b"
  | 12 => "c" | 13 => "d" | 14 => "e" | _ => "f"
  end%char%nat.

(** Two lower-case hexadecimal digits of a character code. *)
Definition hex2 (c : ascii) : string :=
  let n := nat_of_ascii c in
  String (hex_digit (n / 16)%nat) (String (hex_digit (n mod 16)%nat) EmptyString).

Fixpoint string_concat_map (f : ascii → string) (s : string) : string :=
  match s with
  | EmptyString => EmptyString
  | String c s' => f c +:+ string_concat_map f s'
  end.

Fixpoint string_mem (c : ascii) (s : string) : bool :=
  match s with
  | EmptyString => false
  | String c' s' => bool_decide (c' = c) || string_mem c s'
  end.

Fixpoint join (sep : string) (parts : list string) : string :=
  match parts with
  | [] => EmptyString
  | [p] => p
  | p :: ps => p +:+ sep +:+ join sep ps
  end.

(** [str.isprintable] on one character (code points below 256). *)
Definition isprintable (c : ascii) : bool :=
  let n := nat_of_ascii c in
  ((32 <=? n) && (n <=? 126) || (161 <=? n) && negb (n =? 173))%nat.

(** [repr(s)] for a [str]: single quotes unless the text has a single quote
    and no double quote. *)
Definition repr_str (s : string) : string :=
  let q : ascii :=
    if string_mem "'" s && negb (string_mem (ascii_of_nat 34) s)
    then ascii_of_nat 34 else "'"%char in
  let esc (c : ascii) : string :=
    if bool_decide (c = q) || bool_decide (c = ascii_of_nat 92)
    then backslash +:+ String c EmptyString
    else if bool_decide (c = ascii_of_nat 9) then backslash +:+ "t"
    else if bool_decide (c = ascii_of_nat 10) then backslash +:+ "n"
    else if bool_decide (c = ascii_of_nat 13) then backslash +:+ "r"
    else if isprintable c then String c EmptyString
    else backslash +:+ "x" +:+ hex2 c in
  String q EmptyString +:+ string_concat_map esc s +:+ String q EmptyString.

(** [repr(v)] *)
Fixpoint py_repr (v : pyval) : string :=
  match v with
  | PyNone => "None"
  | PyBool true => "True"
  | PyBool false => "False"
  | PyInt n => pretty n
  | PyStr s => repr_str s
  | PyList xs => "[" +:+ join ", " (map py_repr xs) +:+ "]"
  | PyTuple [x] => "(" +:+ py_repr x +:+ ",)"
  | PyTuple xs => "(" +:+ join ", " (map py_repr xs) +:+ ")"
  | PyDict kvs =>
      "{" +:+ join ", " (map (λ kv, repr_str kv.1 +:+ ": " +:+ py_repr kv.2) kvs) +:+ "}"
  end.

(** [str(v)], which is what an f-string field [{v}] inserts. *)
Definition py_str (v : pyval) : string :=
  match v with
  | PyStr s => s
  | _ => py_repr v
  end.

(** The number a [bool] or [int] stands for in comparisons. *)
Definition py_number (v : pyval) : option Z :=
  match v with
  | PyBool b => Some (Z.b2z b)
  | PyInt n => Some n
  | _ => None
  end.

(** [a == b] *)
Fixpoint py_eq (a b : pyval) {struct a} : bool :=
  match a, b with
  | PyNone, PyNone => true
  | (PyBool _ | PyInt _), (PyBool _ | PyInt _) =>
      bool_decide (py_number a = py_number b)
  | PyStr s, PyStr t => bool_decide (s = t)
  | PyList xs, PyList ys | PyTuple xs, PyTuple ys =>
      (fix go (xs ys : list pyval) : bool :=
         match xs, ys with
         | [], [] => true
         | x :: xs', y :: ys' => py_eq x y && go xs' ys'
         | _, _ => false
         end) xs ys
  | PyDict d1, PyDict d2 =>
      bool_decide (length d1 = length d2) &&
      (fix go (d : pydict) : bool :=
         match d with
         | [] => true
         | (k, v) :: d' =>
             match dict_get k d2 with
             | Some w => py_eq v w
             | None => false
             end && go d'
         end) d1
  | _, _ => false
  end.

(** [bool(v)] *)
Definition py_truthy (v : pyval) : bool :=
  match v with
  | PyNone => false
  | PyBool b => b
  | PyInt n => negb (n =? 0)%Z
  | PyStr s => negb (bool_decide (s = EmptyString))
  | PyList xs | PyTuple xs => negb (bool_decide (xs = []))
  | PyDict kvs => negb (bool_decide (kvs = []))
  end.

Definition type_name (v : pyval) : string :=
  match v with
  | PyNone => "NoneType" | PyBool _ => "bool" | PyInt _ => "int"
  | PyStr _ => "str" | PyList _ => "list" | PyTuple _ => "tuple"
  | PyDict _ => "dict"
  end.

(** [d[k]] on a dict. *)
Definition dict_getitem (d : pydict) (k : string) : outcome pyval :=
  match dict_get k d with
  | Some v => Return v
  | None => Raise (Exn KeyError (repr_str k))
  end.

(** [v[k]] with a [str] subscript [k]. *)
Definition py_getitem (v : pyval) (k : string) : outcome pyval :=
  match v with
  | PyDict d => dict_getitem d k
  | PyStr _ => Raise (Exn TypeError "string indices must be integers")
  | PyList _ => Raise (Exn TypeError "list indices must be integers or slices, not str")
  | PyTuple _ => Raise (Exn TypeError "tuple indices must be integers or slices, not str")
  | _ => Raise (Exn TypeError (squote +:+ type_name v +:+ "' object is not subscriptable"))
  end.

Fixpoint string_chars (s : string) : list pyval :=
  match s with
  | EmptyString => []
  | String c s' => PyStr (String c EmptyString) :: string_chars s'
  end.

(** The items a [for x in v] loop visits. *)
Definition py_iter (v : pyval) : outcome (list pyval) :=
  match v with
  | PyList xs | PyTuple xs => Return xs
  | PyDict kvs => Return (PyStr <$> kvs.*1)
  | PyStr s => Return (string_chars s)
  | _ => Raise (Exn TypeError (squote +:+ type_name v +:+ "' object is not iterable"))
  end.

(** [json.dumps(v)] with its defaults ([ensure_ascii=True], separators
    [", "] and [": "]). *)
Definition json_escape_char (c : ascii) : string :=
  let n := nat_of_ascii c in
  if bool_decide (n = 34%nat) then backslash +:+ dquote
  else if bool_decide (n = 92%nat) then backslash +:+ backslash
  else if bool_decide (n = 8%nat) then backslash +:+ "b"
  else if bool_decide (n = 12%nat) then backslash +:+ "f"
  else if bool_decide (n = 10%nat) then backslash +:+ "n"
  else if bool_decide (n = 13%nat) then backslash +:+ "r"
  else if bool_decide (n = 9%nat) then backslash +:+ "t"
  else if ((32 <=? n) && (n <=? 126))%nat then String c EmptyString
  else backslash +:+ "u00" +:+ hex2 c.

Definition json_string (s : string) : string :=
  dquote +:+ string_concat_map json_escape_char s +:+ dquote.

Fixpoint json_dumps (v : pyval) : string :=
  match v with
  | PyNone => "null"
  | PyBool true => "true"
  | PyBool false => "false"
  | PyInt n => pretty n
  | PyStr s => json_string s
  | PyList xs | PyTuple xs => "[" +:+ join ", " (map json_dumps xs) +:+ "]"
  | PyDict kvs =>
      "{" +:+ join ", " (map (λ kv, json_string kv.1 +:+ ": " +:+ json_dumps kv.2) kvs) +:+ "}"
  end.

(** ** The relational store

    SQLite as the program uses it: tables of rows, a key column declared
    [INTEGER PRIMARY KEY AUTOINCREMENT], column defaults, [NOT NULL], the
    storage classes NULL, INTEGER and TEXT, and the table [sqlite_sequence]
    that SQLite itself keeps for the AUTOINCREMENT keys.  INTEGER values,
    row ids among them, are unbounded: SQLite's 64-bit range, beyond which a
    table is full and [sqlite3] refuses a Python [int] with [OverflowError],
    is not modelled.  Names are compared as written (SQLite ignores their
    case; the program writes every name in one spelling). *)

Inductive sqlval :=
| NULL
| INTEGER (n : Z)
| TEXT (s : string).

Global Instance sqlval_eq_dec : EqDecision sqlval.
Proof. solve_decision. Defined.

Inductive affinity :=
| INTEGER_affinity | TEXT_affinity | REAL_affinity | NUMERIC_affinity
(** a column declared without a type *)
| BLOB_affinity.

Inductive default_expr :=
| DEFAULT_NULL
| DEFAULT (v : sqlval)
| CURRENT_TIMESTAMP.

Record column := Column {
  col_name : string;
  col_type : affinity;
  col_not_null : bool;
  col_default : default_expr;
  (** declared [INTEGER PRIMARY KEY AUTOINCREMENT] *)
  col_autoincrement : bool
}.

Global Instance affinity_eq_dec : EqDecision affinity.
Proof. solve_decision. Defined.
Global Instance default_expr_eq_dec : EqDecision default_expr.
Proof. solve_decision. Defined.
Global Instance column_eq_dec : EqDecision column.
Proof. solve_decision. Defined.

Record table := Table {
  tbl_columns : list column;
  tbl_rows : list (list sqlval);
  (** the largest row id the table has ever been given: the value SQLite
      reads from the table's row of [sqlite_sequence] when it inserts, and
      writes back to it *)
  tbl_seq : Z
}.

Global Instance table_eq_dec : EqDecision table.
Proof. solve_decision. Defined.

Abbreviation database := (gmap string table).

(** The fixed statement forms of the program; [?] placeholders are filled
    from the parameter tuple passed to [execute]. *)
Inductive stmt :=
(** [CREATE TABLE IF NOT EXISTS name (cols)] *)
| CREATE_TABLE_IF_NOT_EXISTS (name : string) (cols : list column)
(** [INSERT [OR IGNORE] INTO name (cols) VALUES (?, ..., ?)] *)
| INSERT_INTO (or_ignore : bool) (name : string) (cols : list string)
(** [SELECT COUNT( * ) FROM name] *)
| SELECT_COUNT (name : string)
(** [SELECT col, COUNT( * ) as count FROM name GROUP BY col
     ORDER BY count DESC LIMIT limit] *)
| SELECT_GROUP_COUNT (col name : string) (limit : nat).

(** Storing a value in a column applies the column's affinity: an integer
    stored in a TEXT column becomes its decimal text.  (Numeric-looking text
    stored in an INTEGER, REAL or NUMERIC column is left as text here; no
    statement of the program binds text to such a column.) *)
Definition apply_affinity (a : affinity) (v : sqlval) : sqlval :=
  match a, v with
  | TEXT_affinity, INTEGER n => TEXT (pretty n)
  | _, _ => v
  end.

Definition default_value (now : string) (d : default_expr) : sqlval :=
  match d with
  | DEFAULT_NULL => NULL
  | DEFAULT v => v
  | CURRENT_TIMESTAMP => TEXT now
  end.

Definition column_index (name : string) (cols : list column) : option nat :=
  fst <$> list_find (λ c, col_name c = name) cols.

Definition key_index (t : table) : option nat :=
  fst <$> list_find (λ c, col_autoincrement c = true) (tbl_columns t).

Definition has_autoincrement (cols : list column) : bool :=
  bool_decide (Exists (λ c, col_autoincrement c = true) cols).

(** The row ids stored in the key column. *)
Definition row_ids (t : table) : list Z :=
  match key_index t with
  | None => []
  | Some i =>
      omap (λ row, match row !! i with Some (INTEGER n) => Some n | _ => None end)
           (tbl_rows t)
  end.

(** AUTOINCREMENT: one more than the largest id the table ever held. *)
Definition next_rowid (t : table) : Z :=
  foldr Z.max (tbl_seq t) (row_ids t) + 1.

(** The value one column of the new row gets. *)
Definition new_cell (now : string) (rowid : Z) (supplied : list (string * sqlval))
    (c : column) : sqlval :=
  if col_autoincrement c then INTEGER rowid
  else match dict_get (col_name c) supplied with
       | Some v => apply_affinity (col_type c) v
       | None => default_value now (col_default c)
       end.

(** What an [INSERT] does to its table.  [OR IGNORE] drops a row that breaks
    a constraint, but the row id taken for it stays taken. *)
Inductive insert_result :=
| Inserted (t : table) (rowid : Z)
| Ignored (t : table).

Definition constraint_failed (or_ignore : bool) (t : table) (msg : string)
    : outcome insert_result :=
  if or_ignore then Return (Ignored t) else Raise (Exn IntegrityError msg).

(** One [INSERT] step on the table [name], whose listed columns exist: the
    row id (a text given for it is refused; numeric-looking text, which
    SQLite would convert, is not told apart), the row, then the NOT NULL
    constraints and the uniqueness of the key. *)
Definition insert_row (or_ignore : bool) (now : string) (name : string) (t : table)
    (supplied : list (string * sqlval)) : outcome insert_result :=
  let explicit :=
    i ← key_index t; c ← tbl_columns t !! i; dict_get (col_name c) supplied in
  match explicit with
  | Some (TEXT _) => Raise (Exn IntegrityError "datatype mismatch")
  | _ =>
      let rowid := match explicit with
                   | Some (INTEGER n) => n
                   | _ => next_rowid t
                   end in
      let row := new_cell now rowid supplied <$> tbl_columns t in
      let seq := Z.max (tbl_seq t) rowid in
      let skipped := Table (tbl_columns t) (tbl_rows t)
                           (if has_autoincrement (tbl_columns t) then seq else tbl_seq t) in
      match list_find (λ cv, col_not_null cv.1 = true ∧ cv.2 = NULL)
                      (zip (tbl_columns t) row) with
      | Some (_, (col, _)) =>
          constraint_failed or_ignore skipped
            ("NOT NULL constraint failed: " +:+ name +:+ "." +:+ col_name col)
      | None =>
          if bool_decide (rowid ∈ row_ids t)
          then constraint_failed or_ignore skipped
                 ("UNIQUE constraint failed: " +:+ name +:+ "."
                  +:+ from_option (col_name ∘ snd) EmptyString
                        (list_find (λ col, col_autoincrement col = true) (tbl_columns t)))
          else Return (Inserted (Table (tbl_columns t) (tbl_rows t ++ [row]) seq) rowid)
      end
  end.

(** The values of one column, row by row. *)
Definition column_values (i : nat) (rows : list (list sqlval)) : list sqlval :=
  (λ row, default NULL (row !! i)) <$> rows.

Definition occurrences (k : sqlval) (keys : list sqlval) : nat :=
  length (filter (λ k', k' = k) keys).

(** [GROUP BY]: one group per distinct value, with its row count. *)
Definition group_counts (keys : list sqlval) : list (sqlval * nat) :=
  (λ k, (k, occurrences k keys)) <$> remove_dups keys.

(** SQLite's order of the values of a column: NULL, then the integers, then
    the texts character by character. *)
Fixpoint string_le (s t : string) : bool :=
  match s, t with
  | EmptyString, _ => true
  | String _ _, EmptyString => false
  | String a s', String b t' =>
      (nat_of_ascii a <? nat_of_ascii b)%nat
      || ((nat_of_ascii a =? nat_of_ascii b)%nat && string_le s' t')
  end.

Definition sql_le (a b : sqlval) : bool :=
  match a, b with
  | NULL, _ => true
  | INTEGER _, NULL => false
  | INTEGER m, INTEGER n => m <=? n
  | INTEGER _, TEXT _ => true
  | TEXT _, (NULL | INTEGER _) => false
  | TEXT s, TEXT t => string_le s t
  end.

(** The group [g1] comes out before [g2]: it has the larger count or, with
    equal counts, the larger value. *)
Definition before : relation (sqlval * nat) :=
  λ g1 g2, (g2.2 < g1.2)%nat ∨ g2.2 = g1.2 ∧ sql_le g2.1 g1.1 = true.

Global Instance before_dec : RelDecision before.
Proof. intros g1 g2. unfold before. apply _. Defined.

(** [ORDER BY count DESC LIMIT limit] on the groups of a [GROUP BY].  SQL
    leaves the order of groups with equal counts open; SQLite, which has the
    groups sorted by value when it sorts them by count, returns them in
    descending order of the value. *)
Definition order_by_count_desc_limit (limit : nat) (groups : list (sqlval * nat))
    : list (sqlval * nat) :=
  take limit (merge_sort before groups).

(** ** A [sqlite3] connection

    With the module's default isolation level a connection opens a
    transaction implicitly before an [INSERT] and keeps it open until
    [commit()]; a [CREATE TABLE] outside a transaction is written through at
    once.  [committed] lists the successive contents of the database file,
    newest first; [working] is what statements on this connection see. *)

Record connection := Connection {
  committed : list database;
  working : database;
  in_transaction : bool;
  last_insert_rowid : Z;
  (** wall clock: the reading taken by the n-th statement *)
  clock : nat → string;
  ticks : nat
}.

Definition durable (c : connection) : database := default ∅ (head (committed c)).

(** [sqlite3.connect(file)] *)
Definition connect (file : database) (clk : nat → string) : connection :=
  Connection [file] file false 0 clk 0.

(** Effectful code on a connection; an exception keeps the state reached. *)
Definition db_m (A : Type) : Type := connection → outcome A * connection.

Global Instance db_ret : MRet db_m := λ A a c, (Return a, c).
Global Instance db_bind : MBind db_m := λ A B f m c,
  match m c with
  | (Return a, c') => f a c'
  | (Raise e, c') => (Raise e, c')
  end.

Definition db_raise {A} (e : exn) : db_m A := λ c, (Raise e, c).
Definition db_lift {A} (m : outcome A) : db_m A := λ c, (m, c).

(** [for x in xs: body x] *)
Fixpoint for_each {A} (xs : list A) (body : A → db_m ()) : db_m () :=
  match xs with
  | [] => mret ()
  | x :: xs' => _ ← body x; for_each xs' body
  end.

(** What the [sqlite3] module accepts as a statement parameter. *)
Definition sqlite_adapt (i : nat) (v : pyval) : outcome sqlval :=
  match v with
  | PyNone => Return NULL
  | PyBool b => Return (INTEGER (Z.b2z b))
  | PyInt n => Return (INTEGER n)
  | PyStr s => Return (TEXT s)
  | _ => Raise (Exn ProgrammingError
                  ("Error binding parameter " +:+ pretty i +:+ ": type '"
                   +:+ type_name v +:+ "' is not supported"))
  end.

Definition py_of_sql (v : sqlval) : pyval :=
  match v with
  | NULL => PyNone
  | INTEGER n => PyInt n
  | TEXT s => PyStr s
  end.

(** A cursor after [execute]: [lastrowid] (the row id of the connection's
    last INSERT, 0 before the first) and the rows waiting to be fetched. *)
Record cursor := Cursor {
  lastrowid : pyval;
  pending_rows : list (list sqlval)
}.

Definition no_such_table {A} (name : string) : outcome A :=
  Raise (Exn OperationalError ("no such table: " +:+ name)).

(** The parameters bound to the placeholders, the first as number [i]. *)
Fixpoint adapt_all (i : nat) (params : list pyval) : outcome (list sqlval) :=
  match params with
  | [] => Return []
  | v :: params' =>
      x ← sqlite_adapt i v; xs ← adapt_all (S i) params'; Return (x :: xs)
  end.

Definition bindings (n : nat) (params : list pyval) : outcome (list sqlval) :=
  if bool_decide (length params = n) then adapt_all 1 params
  else Raise (Exn ProgrammingError
                ("Incorrect number of bindings supplied. The current statement uses "
                 +:+ pretty n +:+ ", and there are " +:+ pretty (length params)
                 +:+ " supplied.")).

Definition set_working (w : database) (c : connection) : connection :=
  Connection (committed c) w (in_transaction c) (last_insert_rowid c) (clock c) (ticks c).

(** A schema change: pending inside a transaction, written through otherwise. *)
Definition write_ddl (w : database) (c : connection) : connection :=
  Connection (if in_transaction c then committed c else w :: committed c)
             w (in_transaction c) (last_insert_rowid c) (clock c) (ticks c).

Definition begin (c : connection) : connection :=
  Connection (committed c) (working c) true (last_insert_rowid c) (clock c) (ticks c).

Definition tick (c : connection) : connection :=
  Connection (committed c) (working c) (in_transaction c) (last_insert_rowid c)
             (clock c) (S (ticks c)).

(** [sqlite_sequence(name, seq)], the table SQLite creates with the first
    table that has an AUTOINCREMENT key, and in which it keeps, for each
    such table, the largest row id the table has been given. *)
Definition sqlite_sequence_columns : list column :=
  [ Column "name" BLOB_affinity false DEFAULT_NULL false;
    Column "seq" BLOB_affinity false DEFAULT_NULL false ].

(** The database with the new, empty table [name]. *)
Definition created (name : string) (cols : list column) (w : database) : database :=
  let w' := <[name := Table cols [] 0]> w in
  if has_autoincrement cols then
    match w !! "sqlite_sequence" with
    | Some _ => w'
    | None => <["sqlite_sequence" := Table sqlite_sequence_columns [] 0]> w'
    end
  else w'.

(** The rows of [sqlite_sequence] with [seq] in the row of [name], which is
    added at the end when there is none. *)
Fixpoint set_sequence (name : string) (seq : Z) (rows : list (list sqlval))
    : list (list sqlval) :=
  match rows with
  | [] => [[TEXT name; INTEGER seq]]
  | row :: rows' =>
      if bool_decide (row !! 0%nat = Some (TEXT name))
      then [TEXT name; INTEGER seq] :: rows'
      else row :: set_sequence name seq rows'
  end.

(** The database after an INSERT has left the table [name] as [t]: for a
    table with an AUTOINCREMENT key its row of [sqlite_sequence] is written
    too.  (A file with such a table has [sqlite_sequence]; a database value
    without it is left without.  The statements of the program never write
    to [sqlite_sequence] themselves, and the model does not follow such
    writes back into [tbl_seq].) *)
Definition stored (name : string) (t : table) (w : database) : database :=
  let w' := <[name := t]> w in
  if has_autoincrement (tbl_columns t) then
    match w !! "sqlite_sequence" with
    | Some s =>
        <["sqlite_sequence" :=
            Table (tbl_columns s) (set_sequence name (tbl_seq t) (tbl_rows s)) (tbl_seq s)]> w'
    | None => w'
    end
  else w'.

Definition inserted (name : string) (t : table) (rowid : Z) (c : connection) : connection :=
  Connection (committed c) (stored name t (working c)) (in_transaction c) rowid
             (clock c) (ticks c).

(** [cursor.execute(stmt, params)]: prepare, open the implicit transaction
    (for an INSERT), bind the parameters, run. *)
Definition execute (s : stmt) (params : list pyval) : db_m cursor := λ c0,
  let now := clock c0 (ticks c0) in
  let c := tick c0 in
  let done rows := Return (Cursor (PyInt (last_insert_rowid c)) rows) in
  match s with
  | CREATE_TABLE_IF_NOT_EXISTS name cols =>
      if String.prefix "sqlite_" name
      then (Raise (Exn OperationalError
                     ("object name reserved for internal use: " +:+ name)), c)
      else
        match bindings 0 params with
        | Raise e => (Raise e, c)
        | Return _ =>
            match working c !! name with
            | Some _ => (done [], c)
            | None => (done [], write_ddl (created name cols (working c)) c)
            end
        end
  | INSERT_INTO or_ignore name cols =>
      match working c !! name with
      | None => (no_such_table name, c)
      | Some t =>
          match list_find (λ k, column_index k (tbl_columns t) = None) cols with
          | Some (_, k) =>
              (Raise (Exn OperationalError
                        ("table " +:+ name +:+ " has no column named " +:+ k)), c)
          | None =>
              let c := begin c in
              match bindings (length cols) params with
              | Raise e => (Raise e, c)
              | Return vals =>
                  match insert_row or_ignore now name t (zip cols vals) with
                  | Raise e => (Raise e, c)
                  | Return (Ignored t') =>
                      (done [], set_working (stored name t' (working c)) c)
                  | Return (Inserted t' rowid) =>
                      (Return (Cursor (PyInt rowid) []), inserted name t' rowid c)
                  end
              end
          end
      end
  | SELECT_COUNT name =>
      match working c !! name with
      | None => (no_such_table name, c)
      | Some t =>
          match bindings 0 params with
          | Raise e => (Raise e, c)
          | Return _ =>
              (done [[INTEGER (Z.of_nat (length (tbl_rows t)))]], c)
          end
      end
  | SELECT_GROUP_COUNT col name limit =>
      match working c !! name with
      | None => (no_such_table name, c)
      | Some t =>
          match column_index col (tbl_columns t) with
          | None => (Raise (Exn OperationalError ("no such column: " +:+ col)), c)
          | Some i =>
              match bindings 0 params with
              | Raise e => (Raise e, c)
              | Return _ =>
                  let groups := order_by_count_desc_limit limit
                                  (group_counts (column_values i (tbl_rows t))) in
                  (done ((λ g, [g.1; INTEGER (Z.of_nat g.2)]) <$> groups), c)
              end
          end
      end
  end.

(** [conn.commit()] *)
Definition commit : db_m () := λ c,
  if in_transaction c
  then (Return (), Connection (working c :: committed c) (working c) false
                              (last_insert_rowid c) (clock c) (ticks c))
  else (Return (), c).

(** [cursor.fetchone()] and [cursor.fetchall()] right after [execute]. *)
Definition fetchone (cur : cursor) : pyval :=
  match pending_rows cur with
  | [] => PyNone
  | row :: _ => PyTuple (py_of_sql <$> row)
  end.

Definition fetchall (cur : cursor) : pyval :=
  PyList ((λ row, PyTuple (py_of_sql <$> row)) <$> pending_rows cur).

(** [v[0]] *)
Definition py_first (v : pyval) : outcome pyval :=
  match v with
  | PyList (x :: _) | PyTuple (x :: _) => Return x
  | PyList [] => Raise (Exn (OtherError "IndexError") "list index out of range")
  | PyTuple [] => Raise (Exn (OtherError "IndexError") "tuple index out of range")
  | PyStr (String ch _) => Return (PyStr (String ch EmptyString))
  | PyStr EmptyString => Raise (Exn (OtherError "IndexError") "string index out of range")
  | PyDict _ => Raise (Exn KeyError "0")
  | _ => Raise (Exn TypeError (squote +:+ type_name v +:+ "' object is not subscriptable"))
  end.

(** ** spaCy's objects, as far as the program reads them *)

Module spacy.

Record Token := {
  text : string;
  pos_ : string;
  dep_ : string;
  (** position in the doc of the token's syntactic head *)
  head_i : nat;
  lemma_ : string;
  is_punct : bool;
  is_space : bool
}.

Record Span := { span_text : string; label_ : string }.

Record Doc := {
  tokens : list Token;
  sents : list Span;
  ents : list Span
}.

(** [token.head] *)
Definition head (doc : Doc) (token : Token) : Token :=
  default token (tokens doc !! head_i token).

End spacy.

(** ** [class DependencyParser] *)

(** The object's attributes.  [nlp] and [transformer_parser] are [None] or a
    loaded model: a callable on a text that returns or raises. *)
Record DependencyParser := {
  nlp : option (string → outcome spacy.Doc);
  transformer_parser : option (string → outcome pyval);
  conn : connection
}.

Definition sentences_columns : list column :=
  [ Column "id" INTEGER_affinity false DEFAULT_NULL true;
    Column "text" TEXT_affinity true DEFAULT_NULL false;
    Column "language" TEXT_affinity false (DEFAULT (TEXT "en")) false;
    Column "created_at" NUMERIC_affinity false CURRENT_TIMESTAMP false ].

Definition dependencies_columns : list column :=
  [ Column "id" INTEGER_affinity false DEFAULT_NULL true;
    Column "sentence_id" INTEGER_affinity false DEFAULT_NULL false;
    Column "token_text" TEXT_affinity false DEFAULT_NULL false;
    Column "token_pos" TEXT_affinity false DEFAULT_NULL false;
    Column "dependency_label" TEXT_affinity false DEFAULT_NULL false;
    Column "head_text" TEXT_affinity false DEFAULT_NULL false;
    Column "head_pos" TEXT_affinity false DEFAULT_NULL false;
    Column "model_type" TEXT_affinity false DEFAULT_NULL false;
    Column "confidence" REAL_affinity false DEFAULT_NULL false ].

Definition CREATE_SENTENCES : stmt :=
  CREATE_TABLE_IF_NOT_EXISTS "sentences" sentences_columns.

Definition CREATE_DEPENDENCIES : stmt :=
  CREATE_TABLE_IF_NOT_EXISTS "dependencies" dependencies_columns.

(** [INSERT OR IGNORE INTO sentences (text) VALUES (?)] *)
Definition INSERT_SAMPLE : stmt := INSERT_INTO true "sentences" ["text"].

(** [INSERT INTO sentences (text) VALUES (?)] *)
Definition INSERT_SENTENCE : stmt := INSERT_INTO false "sentences" ["text"].

(** [INSERT INTO dependencies (sentence_id, token_text, token_pos,
     dependency_label, head_text, head_pos, model_type)
     VALUES (?, ?, ?, ?, ?, ?, ?)] *)
Definition INSERT_DEPENDENCY : stmt :=
  INSERT_INTO false "dependencies"
    ["sentence_id"; "token_text"; "token_pos"; "dependency_label";
     "head_text"; "head_pos"; "model_type"].

Definition sample_sentences : list string :=
  [ "The quick brown fox jumps over the lazy dog.";
    "Natural language processing is a fascinating field of artificial intelligence.";
    "Machine learning models can understand complex linguistic patterns.";
    "Dependency parsing reveals the grammatical structure of sentences.";
    "The beautiful sunset painted the sky with vibrant colors." ].

(** The methods below that touch only [self.conn] are programs of [db_m]:
    the monad's state is [self.conn]. *)

(** [self.conn = sqlite3.connect(...)]: the new connection sees the database
    file as it was last committed, and nothing pending on a connection the
    object had before.  ([__init__], the program's only caller of
    [init_database], runs it on an object that has no connection yet, and
    so do the theorems below.  What SQLite's file lock does to the new
    connection while an old one is still open inside a transaction is not
    modelled.) *)
Definition reconnect : db_m () := λ c,
  (Return (), Connection (committed c) (durable c) false 0 (clock c) (ticks c)).

Definition init_database : db_m () :=
  _ ← reconnect;
  _ ← execute CREATE_SENTENCES [];
  _ ← execute CREATE_DEPENDENCIES [];
  _ ← for_each sample_sentences (λ sentence,
        _ ← execute INSERT_SAMPLE [PyStr sentence]; mret ());
  commit.

Definition parse_with_spacy (self : DependencyParser) (text : string) : outcome pydict :=
  match nlp self with
  | None => Return [("error", PyStr "spaCy model not loaded")]
  | Some model =>
      doc ← model text;
      let dependencies :=
        (λ token,
           PyDict [ ("token", PyStr (spacy.text token));
                    ("pos", PyStr (spacy.pos_ token));
                    ("dep", PyStr (spacy.dep_ token));
                    ("head", PyStr (spacy.text (spacy.head doc token)));
                    ("head_pos", PyStr (spacy.pos_ (spacy.head doc token)));
                    ("lemma", PyStr (spacy.lemma_ token));
                    ("is_punct", PyBool (spacy.is_punct token));
                    ("is_space", PyBool (spacy.is_space token)) ])
        <$> spacy.tokens doc in
      Return [ ("model", PyStr "spaCy");
               ("dependencies", PyList dependencies);
               ("sentences", PyList ((λ sent, PyStr (spacy.span_text sent)) <$> spacy.sents doc));
               ("entities", PyList ((λ ent, PyTuple [PyStr (spacy.span_text ent);
                                                     PyStr (spacy.label_ ent)])
                                    <$> spacy.ents doc)) ]
  end.

Definition save_to_database (text : string) (results : pydict) : db_m pyval :=
  cur ← execute INSERT_SENTENCE [PyStr text];
  let sentence_id := lastrowid cur in
  _ ← (if dict_contains "dependencies" results then
         deps ← db_lift (dict_getitem results "dependencies" ≫= py_iter);
         for_each deps (λ dep,
           params ← db_lift (
             token ← py_getitem dep "token";
             pos ← py_getitem dep "pos";
             label ← py_getitem dep "dep";
             head ← py_getitem dep "head";
             head_pos ← py_getitem dep "head_pos";
             model ← dict_getitem results "model";
             Return [sentence_id; token; pos; label; head; head_pos; model]);
           _ ← execute INSERT_DEPENDENCY params;
           mret ())
       else mret ());
  _ ← commit;
  mret sentence_id.

Definition get_statistics : db_m pydict :=
  cur ← execute (SELECT_COUNT "sentences") [];
  sentence_count ← db_lift (py_first (fetchone cur));
  cur ← execute (SELECT_COUNT "dependencies") [];
  dep_count ← db_lift (py_first (fetchone cur));
  cur ← execute (SELECT_GROUP_COUNT "dependency_label" "dependencies" 10) [];
  let common_deps := fetchall cur in
  cur ← execute (SELECT_GROUP_COUNT "token_pos" "dependencies" 10) [];
  let common_pos := fetchall cur in
  mret [ ("sentence_count", sentence_count);
         ("dependency_count", dep_count);
         ("common_dependencies", common_deps);
         ("common_pos_tags", common_pos) ].

Section third_party.

(** Third-party entry points the module calls. *)
Variable spacy_load : string → outcome (string → outcome spacy.Doc).
Variable TRANSFORMERS_AVAILABLE : bool.
Variable pipeline : string → string → string → outcome (string → outcome pyval).
Variable np_mean : list pyval → outcome pyval.
Variable displacy_render : spacy.Doc → outcome string.

(** [load_models]: the values of [self.nlp] and [self.transformer_parser]
    it leaves (both start as [None]).  From [spacy.load] only [OSError] and
    its subclasses are caught; the status messages sent to the UI are not
    modelled. *)
Definition load_models
    : outcome (option (string → outcome spacy.Doc) * option (string → outcome pyval)) :=
  match spacy_load "en_core_web_sm" with
  | Raise e => if is_OSError (exn_cls e) then Return (None, None) else Raise e
  | Return model =>
      if TRANSFORMERS_AVAILABLE then
        match pipeline "token-classification"
                       "dbmdz/bert-large-cased-finetuned-conll03-english" "simple" with
        | Return p => Return (Some model, Some p)
        | Raise _ => Return (Some model, None)
        end
      else Return (Some model, None)
  end.

(** [DependencyParser()] on the database file [file]. *)
Definition __init__ (file : database) (clk : nat → string) : outcome DependencyParser :=
  models ← load_models;
  let '(r, c) := init_database (connect file clk) in
  _ ← r;
  Return {| nlp := models.1; transformer_parser := models.2; conn := c |}.

Definition parse_with_transformers (self : DependencyParser) (text : string)
    : outcome pydict :=
  match transformer_parser self with
  | None => Return [("error", PyStr "Transformer model not loaded")]
  | Some model =>
      try_except
        (results ← model text;
         confidence ←
           (if py_truthy results then
              scores ← py_iter results ≫= map_outcome (λ r, py_getitem r "score");
              np_mean scores
            else Return (PyInt 0));
         Return [ ("model", PyStr "Transformers");
                  ("results", results);
                  ("confidence", confidence) ])
        (λ e, Return [("error", PyStr ("Transformer parsing failed: " +:+ exn_str e))])
  end.

(** What [main] shows under "Dependency Tree Visualization". *)
Inductive shown :=
| components_html (html : string)
| st_error (message : string).

Definition call_model {A} (model : option (string → outcome A)) (text : string) : outcome A :=
  match model with
  | Some f => f text
  | None => Raise (Exn TypeError "'NoneType' object is not callable")
  end.

(** The visualization block of [main]:
    [doc = parser.nlp(last_text); html = displacy.render(doc, style="dep",
    page=True); st.components.v1.html(html, ...)], with any exception
    reported by [st.error]. *)
Definition main_visualization (parser : DependencyParser) (last_text : string) : shown :=
  match (doc ← call_model (nlp parser) last_text; displacy_render doc) with
  | Return html => components_html html
  | Raise e => st_error ("Visualization error: " +:+ exn_str e)
  end.

End third_party.

(** ** [create_visualization] *)

(** [next((j for j, d in enumerate(dependencies) if d['token'] == dep['head']),
     None)], scanning from position [j]. *)
Fixpoint head_index (j : nat) (dependencies : list pyval) (dep : pyval)
    : outcome (option nat) :=
  match dependencies with
  | [] => Return None
  | d :: rest =>
      token ← py_getitem d "token";
      head ← py_getitem dep "head";
      if py_eq token head then Return (Some j) else head_index (S j) rest dep
  end.

Definition newline : string := String (ascii_of_nat 10) EmptyString.

(** The body of the loop [for i, dep in enumerate(dependencies)], run over
    the records from position [i] on, appending to [nodes] and [edges]. *)
Fixpoint build_tree (dependencies : list pyval) (i : nat) (todo : list pyval)
    (nodes edges : list pyval) : outcome (list pyval * list pyval) :=
  match todo with
  | [] => Return (nodes, edges)
  | dep :: todo' =>
      token ← py_getitem dep "token";
      pos ← py_getitem dep "pos";
      pos' ← py_getitem dep "pos";
      label ← py_getitem dep "dep";
      let node := PyDict [ ("id", PyInt (Z.of_nat i));
                           ("label", PyStr (py_str token +:+ newline +:+ "(" +:+ py_str pos +:+ ")"));
                           ("pos", pos');
                           ("dep", label) ] in
      head_idx ← head_index 0 dependencies dep;
      match head_idx with
      | Some j =>
          label' ← py_getitem dep "dep";
          build_tree dependencies (S i) todo' (nodes ++ [node])
            (edges ++ [PyDict [ ("from", PyInt (Z.of_nat j));
                                ("to", PyInt (Z.of_nat i));
                                ("label", label') ]])
      | None => build_tree dependencies (S i) todo' (nodes ++ [node]) edges
      end
  end.

Definition create_visualization (dependencies : list pyval) : outcome string :=
  if bool_decide (dependencies = []) then Return "No dependencies to visualize"
  else
    '(nodes, edges) ← build_tree dependencies 0 dependencies [] [];
    Return (json_dumps (PyDict [("nodes", PyList nodes); ("edges", PyList edges)])).

(** ** The lookup of [test_save_to_database] *)

(** [SELECT col FROM name WHERE key = ?] run through [cursor.execute].  The
    bound value is compared under the affinity of the [key] column; NULL
    matches nothing.  (As in [apply_affinity], numeric-looking text bound
    against a numeric column, which SQLite would convert to the number, is
    compared as the text it is; the lookup below binds the [int] that
    [save_to_database] returned.) *)
Definition select_where (col name key : string) (params : list pyval) : db_m cursor := λ c0,
  let c := tick c0 in
  match working c !! name with
  | None => (no_such_table name, c)
  | Some t =>
      match column_index col (tbl_columns t), list_find (λ k, col_name k = key) (tbl_columns t) with
      | None, _ => (Raise (Exn OperationalError ("no such column: " +:+ col)), c)
      | _, None => (Raise (Exn OperationalError ("no such column: " +:+ key)), c)
      | Some i, Some (k, kc) =>
          match bindings 1 params with
          | Raise e => (Raise e, c)
          | Return vals =>
              let wanted := apply_affinity (col_type kc) (default NULL (head vals)) in
              let found :=
                filter (λ row, wanted ≠ NULL ∧ row !! k = Some wanted) (tbl_rows t) in
              (Return (Cursor (PyInt (last_insert_rowid c))
                              ((λ row, [default NULL (row !! i)]) <$> found)), c)
          end
      end
  end.

(** The check of [test_save_to_database]:
    [cursor.execute("SELECT text FROM sentences WHERE id = ?", (sentence_id,))]
    and [saved_text = cursor.fetchone()[0]].  (The test module imports the
    parser by [from 0107 import DependencyParser], which Python's parser
    rejects; the statements of the test are modelled as written.) *)
Definition saved_text (sentence_id : pyval) : db_m pyval :=
  cur ← select_where "text" "sentences" "id" [sentence_id];
  db_lift (py_first (fetchone cur)).

(** ** More builtins: [str.strip], formatting, slices, unpacking *)

(** [str.isspace] on one character (code points below 256). *)
Definition isspace (c : ascii) : bool :=
  let n := nat_of_ascii c in
  ((9 <=? n) && (n <=? 13) || (28 <=? n) && (n <=? 32) || (n =? 133) || (n =? 160))%nat.

Fixpoint lstrip (s : string) : string :=
  match s with
  | EmptyString => EmptyString
  | String c s' => if isspace c then lstrip s' else s
  end.

Fixpoint rstrip (s : string) : string :=
  match s with
  | EmptyString => EmptyString
  | String c s' =>
      let r := rstrip s' in
      if isspace c && bool_decide (r = EmptyString) then EmptyString else String c r
  end.

(** [s.strip()] *)
Definition strip (s : string) : string := rstrip (lstrip s).

Fixpoint spaces (n : nat) : string :=
  match n with
  | O => EmptyString
  | S n' => String " " (spaces n')
  end.

(** [s.ljust(width)] *)
Definition ljust (width : nat) (s : string) : string :=
  s +:+ spaces (width - String.length s).

(** [format(v, '<width')], which is what an f-string field [{v:<width}]
    inserts; a [bool] is formatted as the [int] it is. *)
Definition format_left (width : nat) (v : pyval) : outcome string :=
  match v with
  | PyStr s => Return (ljust width s)
  | PyInt n => Return (ljust width (pretty n))
  | PyBool b => Return (ljust width (if b then "1" else "0"))
  | _ => Raise (Exn TypeError ("unsupported format string passed to "
                               +:+ type_name v +:+ ".__format__"))
  end.

(** [v[:n]]; a dict rejects the slice as a key (a [TypeError] up to
    Python 3.11). *)
Definition py_take (n : nat) (v : pyval) : outcome pyval :=
  match v with
  | PyList xs => Return (PyList (take n xs))
  | PyTuple xs => Return (PyTuple (take n xs))
  | PyStr s => Return (PyStr (String.substring 0 n s))
  | PyDict _ => Raise (Exn TypeError "unhashable type: 'slice'")
  | _ => Raise (Exn TypeError (squote +:+ type_name v +:+ "' object is not subscriptable"))
  end.

(** [a, b = v] *)
Definition py_unpack2 (v : pyval) : outcome (pyval * pyval) :=
  match v with
  | PyNone | PyBool _ | PyInt _ =>
      Raise (Exn TypeError ("cannot unpack non-iterable " +:+ type_name v +:+ " object"))
  | _ =>
      xs ← py_iter v;
      match xs with
      | [a; b] => Return (a, b)
      | [] | [_] =>
          Raise (Exn ValueError ("not enough values to unpack (expected 2, got "
                                 +:+ pretty (length xs) +:+ ")"))
      | _ => Raise (Exn ValueError "too many values to unpack (expected 2)")
      end
  end.

(** * [demo.py]

    The script's [main], as written.  Its line 8, [from 0107 import
    DependencyParser], is not accepted by Python's parser (a module name
    cannot start with a digit), so the script runs only once this import is
    repaired; the model takes [DependencyParser] to be the class of
    [0107.py]. *)

Module demo.

(** [--model], one of the three [choices]. *)
Inductive choices := model_spacy | model_transformers | model_both.

Definition model_name (m : choices) : string :=
  match m with
  | model_spacy => "spacy"
  | model_transformers => "transformers"
  | model_both => "both"
  end.

(** What [parse_args] returns; [text] is [None] when the argument is left
    out. *)
Record Namespace := {
  text : option string;
  model : choices;
  save : bool;
  stats : bool
}.

(** The lines [main] prints, one constructor for each [print] of the source
    with the texts its f-string inserts. *)
Inductive line :=
| initializing
| statistics_header
| total_sentences (count : string)
| total_dependencies (count : string)
| common_dependencies_header
| common_pos_tags_header
| count_line (name count : string)
| prompt
| no_text_provided
| parsing (text : string)
| model_line (model : string)
| using_spacy
| spacy_completed
| spacy_error (message : string)
| using_transformers
| transformer_completed
| transformer_error (message : string)
| results_header
| rule (c : ascii) (width : nat)
| model_header (model_name : string)
| table_header
| table_row (token pos dep head : string)
| entities_header
| entity_line (entity label : string)
| transformer_results_header
| item_line (item : string)
| saving
| saved_line (model_name sentence_id : string)
| no_results.

(** The program's state: what it has printed and the parser's connection. *)
Record world := World {
  stdout : list line;
  db : connection
}.

Definition io (A : Type) : Type := world → outcome A * world.

#[global] Instance io_ret : MRet io := λ A a w, (Return a, w).
#[global] Instance io_bind : MBind io := λ A B f m w,
  match m w with
  | (Return a, w') => f a w'
  | (Raise e, w') => (Raise e, w')
  end.

Definition print (l : line) : io () :=
  λ w, (Return (), World (stdout w ++ [l]) (db w)).

Definition lift {A} (m : outcome A) : io A := λ w, (m, w).

(** A method of [dep_parser] that uses its connection. *)
Definition on_db {A} (m : db_m A) : io A :=
  λ w, let '(r, c) := m (db w) in (r, World (stdout w) c).

(** [for x in xs: body x] *)
Fixpoint for_ {A} (xs : list A) (body : A → io ()) : io () :=
  match xs with
  | [] => mret ()
  | x :: xs' => _ ← body x; for_ xs' body
  end.

(** [if stats[key]: print(header); for name, count in stats[key][:5]:
    print(f"  {name}: {count}")] *)
Definition show_counts (header : line) (stats : pydict) (key : string) : io () :=
  counts ← lift (dict_getitem stats key);
  if py_truthy counts then
    _ ← print header;
    counts ← lift (dict_getitem stats key);
    top ← lift (py_take 5 counts);
    items ← lift (py_iter top);
    for_ items (λ item,
      '(name, count) ← lift (py_unpack2 item);
      print (count_line (py_str name) (py_str count)))
  else mret ().

(** The branch [if args.stats:]. *)
Definition show_statistics : io () :=
  _ ← print statistics_header;
  stats ← on_db get_statistics;
  count ← lift (dict_getitem stats "sentence_count");
  _ ← print (total_sentences (py_str count));
  count ← lift (dict_getitem stats "dependency_count");
  _ ← print (total_dependencies (py_str count));
  _ ← show_counts common_dependencies_header stats "common_dependencies";
  show_counts common_pos_tags_header stats "common_pos_tags".

(** The body of [for model_name, result in results.items()] under
    "Display results", after the two header lines. *)
Definition show_result (result : pydict) : io () :=
  if dict_contains "dependencies" result then
    _ ← print table_header;
    _ ← print (rule "-" 60);
    dependencies ← lift (dict_getitem result "dependencies");
    dependencies ← lift (py_iter dependencies);
    _ ← for_ dependencies (λ dep,
          token ← lift (py_getitem dep "token");
          token ← lift (format_left 15 token);
          pos ← lift (py_getitem dep "pos");
          pos ← lift (format_left 8 pos);
          label ← lift (py_getitem dep "dep");
          label ← lift (format_left 12 label);
          head ← lift (py_getitem dep "head");
          head ← lift (format_left 15 head);
          print (table_row token pos label head));
    entities ← (if dict_contains "entities" result
                then entities ← lift (dict_getitem result "entities");
                     mret (py_truthy entities)
                else mret false);
    if (entities : bool) then
      _ ← print entities_header;
      entities ← lift (dict_getitem result "entities");
      entities ← lift (py_iter entities);
      for_ entities (λ item,
        '(entity, label) ← lift (py_unpack2 item);
        print (entity_line (py_str entity) (py_str label)))
    else mret ()
  else if dict_contains "results" result then
    _ ← print transformer_results_header;
    items ← lift (dict_getitem result "results");
    items ← lift (py_iter items);
    for_ items (λ item, print (item_line (py_str item)))
  else mret ().

Section main.

Variable spacy_load : string → outcome (string → outcome spacy.Doc).
Variable TRANSFORMERS_AVAILABLE : bool.
Variable pipeline : string → string → string → outcome (string → outcome pyval).
Variable np_mean : list pyval → outcome pyval.
(** What [input()] returns, or raises at the end of the input. *)
Variable input : outcome string.

(** "Parse text": the dict [results], filled by the models [args.model]
    names. *)
Definition parse (dep_parser : DependencyParser) (args : Namespace) (text : string)
    : io (list (string * pydict)) :=
  results ←
    match args.(model) with
    | model_spacy | model_both =>
        _ ← print using_spacy;
        spacy_results ← lift (parse_with_spacy dep_parser text);
        if negb (dict_contains "error" spacy_results) then
          _ ← print spacy_completed;
          mret [("spaCy", spacy_results)]
        else
          message ← lift (dict_getitem spacy_results "error");
          _ ← print (spacy_error (py_str message));
          mret []
    | model_transformers => mret []
    end;
  match args.(model) with
  | model_transformers | model_both =>
      _ ← print using_transformers;
      transformer_results ← lift (parse_with_transformers np_mean dep_parser text);
      if negb (dict_contains "error" transformer_results) then
        _ ← print transformer_completed;
        mret (results ++ [("Transformers", transformer_results)])
      else
        message ← lift (dict_getitem transformer_results "error");
        _ ← print (transformer_error (py_str message));
        mret results
  | model_spacy => mret results
  end.

(** [main] from the construction of the parser on. *)
Definition run (dep_parser : DependencyParser) (args : Namespace) : io () :=
  if args.(stats) then show_statistics
  else
    text ← match args.(text) with
           | Some text =>
               if py_truthy (PyStr text) then mret text
               else (_ ← print prompt; lift input)
           | None => _ ← print prompt; lift input
           end;
    if negb (py_truthy (PyStr (strip text))) then print no_text_provided
    else
      _ ← print (parsing text);
      _ ← print (model_line (model_name args.(model)));
      results ← parse dep_parser args text;
      if negb (bool_decide (results = [])) then
        _ ← print results_header;
        _ ← print (rule "=" 60);
        _ ← for_ results (λ '(name, result),
              _ ← print (model_header name);
              _ ← print (rule "-" 40);
              show_result result);
        if args.(save) then
          _ ← print saving;
          for_ results (λ '(name, result),
            sentence_id ← on_db (save_to_database text result);
            print (saved_line name (py_str sentence_id)))
        else mret ()
      else print no_results.

(** [main()] on the database file [file]: how it ends, what it has printed,
    and the connection it leaves (none when the parser could not be
    constructed). *)
Definition main (file : database) (clk : nat → string) (args : Namespace)
    : outcome () * list line * option connection :=
  match __init__ spacy_load TRANSFORMERS_AVAILABLE pipeline file clk with
  | Raise e => (Raise e, [initializing], None)
  | Return dep_parser =>
      let '(r, w) := run dep_parser args (World [initializing] (conn dep_parser)) in
      (r, stdout w, Some (db w))
  end.

End main.

End demo.

(** * The Streamlit page ([main]): the "Parse Text" button *)

(** [st.sidebar.selectbox("Select Parsing Model", ...)] *)
Inductive model_choice := choice_spaCy | choice_Transformers | choice_Both.

(** What the block writes of [st.session_state]. *)
Record session_state := {
  last_results : option (list (string * pydict));
  last_text : option string
}.

(** What the block reports: [st.success("Results saved to database")],
    [st.error("No models available for parsing")],
    [st.warning("Please enter some text to parse")]. *)
Inductive notice := results_saved | no_models_available | please_enter_text.

Section parse_text.

Variable TRANSFORMERS_AVAILABLE : bool.
Variable np_mean : list pyval → outcome pyval.

(** The dict [results] the block fills. *)
Definition main_parse_results (parser : DependencyParser) (model_choice : model_choice)
    (text_input : string) : outcome (list (string * pydict)) :=
  results ←
    match model_choice with
    | choice_spaCy | choice_Both =>
        spacy_results ← parse_with_spacy parser text_input;
        Return (if negb (dict_contains "error" spacy_results)
                then [("spaCy", spacy_results)] else [])
    | choice_Transformers => Return []
    end;
  if match model_choice with
     | choice_Transformers | choice_Both => true
     | choice_spaCy => false
     end && TRANSFORMERS_AVAILABLE
  then
    transformer_results ← parse_with_transformers np_mean parser text_input;
    Return (if negb (dict_contains "error" transformer_results)
            then results ++ [("Transformers", transformer_results)] else results)
  else Return results.

(** The block under [if st.button("Parse Text")]: what it reports or raises,
    the session state and the parser's connection it leaves. *)
Definition main_parse_text (parser : DependencyParser) (model_choice : model_choice)
    (save_to_db : bool) (text_input : string) (state : session_state) (c : connection)
    : outcome (option notice) * session_state * connection :=
  if py_truthy (PyStr (strip text_input)) then
    match main_parse_results parser model_choice text_input with
    | Raise e => (Raise e, state, c)
    | Return results =>
        if negb (bool_decide (results = [])) then
          let state' := {| last_results := Some results; last_text := Some text_input |} in
          if save_to_db then
            let '(saved, c') :=
              for_each results (λ '(_, result),
                _ ← save_to_database text_input result; mret ()) c in
            (_ ← saved; Return (Some results_saved), state', c')
          else (Return None, state', c)
        else (Return (Some no_models_available), state, c)
    end
  else (Return (Some please_enter_text), state, c).

End parse_text.

(** * [setup.py] *)

Module setup.

(** How [subprocess.run(command, shell=True, check=True, capture_output=True,
    text=True)] ends: with a completed process, with [CalledProcessError]
    (a non-zero exit status; [e.stderr] is the captured text), or with
    another exception. *)
Inductive process :=
| CompletedProcess
| CalledProcessError (stderr : string)
| failed (e : exn).

(** What the script does to its surroundings, in order: a constructor for
    each [print] (one, [print_complete], for the five closing lines), for
    the call of [subprocess.run] and for each call of [os.makedirs]. *)
Inductive event :=
| print_setting_up
| print_python_required
| print_python_detected (major minor : string)
| print_installing
| print_downloading
| print_ok (command : string)
| print_not_ok (command : string)
| print_error (stderr : string)
| print_failed_requirements
| print_failed_download
| print_creating_directories
| print_complete
| subprocess_run (command : string)
| os_makedirs (name : string).

(** How [main] ends: it returns, [sys.exit(code)] ends the program, or an
    exception leaves it. *)
Inductive ending :=
| returned
| sys_exit (code : Z)
| raised (e : exn).

Section setup.

(** The interpreter's [sys.version_info]; the outcome of a shell command and
    of [os.makedirs(name, exist_ok=True)]. *)
Variable version_info : Z * Z.
Variable shell : string → process.
Variable makedirs : string → outcome ().

(** [run_command(command)]: its events and, unless it raises, its result. *)
Definition run_command (command : string) : list event * outcome bool :=
  match shell command with
  | CompletedProcess => ([subprocess_run command; print_ok command], Return true)
  | CalledProcessError stderr =>
      ([subprocess_run command; print_not_ok command; print_error stderr], Return false)
  | failed e => ([subprocess_run command], Raise e)
  end.

(** [sys.version_info < (3, 8)] *)
Definition too_old (v : Z * Z) : bool :=
  (v.1 <? 3) || ((v.1 =? 3) && (v.2 <? 8)).

Definition main : list event * ending :=
  if too_old version_info then ([print_setting_up; print_python_required], sys_exit 1)
  else
    let start := [ print_setting_up;
                   print_python_detected (pretty version_info.1) (pretty version_info.2);
                   print_installing ] in
    match run_command "pip install -r requirements.txt" with
    | (events, Raise e) => (start ++ events, raised e)
    | (events, Return false) => (start ++ events ++ [print_failed_requirements], sys_exit 1)
    | (events, Return true) =>
        let start := start ++ events ++ [print_downloading] in
        match run_command "python -m spacy download en_core_web_sm" with
        | (events, Raise e) => (start ++ events, raised e)
        | (events, Return false) => (start ++ events ++ [print_failed_download], sys_exit 1)
        | (events, Return true) =>
            let start := start ++ events ++ [print_creating_directories; os_makedirs "tests"] in
            match makedirs "tests" with
            | Raise e => (start, raised e)
            | Return _ =>
                match makedirs "data" with
                | Raise e => (start ++ [os_makedirs "data"], raised e)
                | Return _ => (start ++ [os_makedirs "data"; print_complete], returned)
                end
            end
        end
    end.

End setup.

End setup.

(** * Verification *)

(** ** Views of a database used in the statements *)

Definition table_rows (name : string) (db : database) : list (list sqlval) :=
  from_option tbl_rows [] (db !! name).

Definition table_columns (name : string) (db : database) : option (list column) :=
  tbl_columns <$> db !! name.

(** The next row id of a table of the database. *)
Definition next_id (name : string) (db : database) : Z :=
  from_option next_rowid 1 (db !! name).

(** The parser's tables exist with the columns [init_database] declares. *)
Definition initialized (c : connection) : Prop :=
  table_columns "sentences" (working c) = Some sentences_columns ∧
  table_columns "dependencies" (working c) = Some dependencies_columns.

(** ** Row ids *)

Lemma foldr_max_le (a : Z) (l : list Z) : a ≤ foldr Z.max a l.
Proof. induction l as [|x l IH]; simpl; lia. Qed.

Lemma foldr_max_elem (a x : Z) (l : list Z) : x ∈ l → x ≤ foldr Z.max a l.
Proof.
  induction l as [|y l IH]; intros Hx; simpl.
  - by apply elem_of_nil in Hx.
  - apply elem_of_cons in Hx as [->|Hx]; [lia|]. specialize (IH Hx). lia.
Qed.

Lemma foldr_max_absorb (a b : Z) (l : list Z) :
  foldr Z.max a l ≤ b → foldr Z.max b l = b.
Proof.
  induction l as [|x l IH]; simpl; intros H; [done|].
  rewrite IH by lia. lia.
Qed.

Lemma next_rowid_fresh (t : table) : next_rowid t ∉ row_ids t.
Proof.
  intros H. apply (foldr_max_elem (tbl_seq t)) in H. unfold next_rowid in H. lia.
Qed.

Lemma next_rowid_seq (t : table) : Z.max (tbl_seq t) (next_rowid t) = next_rowid t.
Proof. unfold next_rowid. pose proof (foldr_max_le (tbl_seq t) (row_ids t)). lia. Qed.

(** Appending a row that carries the next id moves the next id on by one. *)
Lemma next_rowid_append (t : table) (cells : list sqlval) :
  key_index t = Some 0%nat →
  next_rowid (Table (tbl_columns t)
                    (tbl_rows t ++ [INTEGER (next_rowid t) :: cells])
                    (next_rowid t))
  = next_rowid t + 1.
Proof.
  intros Hk. unfold next_rowid at 1. unfold row_ids.
  assert (key_index (Table (tbl_columns t)
            (tbl_rows t ++ [INTEGER (next_rowid t) :: cells]) (next_rowid t))
          = Some 0%nat) as -> by exact Hk.
  simpl. rewrite omap_app. simpl. rewrite foldr_app. simpl.
  rewrite Z.max_id. f_equal. apply (foldr_max_absorb (tbl_seq t)).
  unfold next_rowid, row_ids. rewrite Hk. lia.
Qed.

(** ** Single statements on the parser's tables *)

Definition sentence_row (rowid : Z) (text now : string) : list sqlval :=
  [INTEGER rowid; TEXT text; TEXT "en"; TEXT now].

(** The row [INSERT_DEPENDENCY] stores for the bound values [vals]
    (sentence_id, token_text, token_pos, dependency_label, head_text,
    head_pos, model_type): the key first, the unlisted [confidence] last. *)
Definition dependency_row (rowid : Z) (vals : list sqlval) : list sqlval :=
  INTEGER rowid
  :: zip_with apply_affinity
       [INTEGER_affinity; TEXT_affinity; TEXT_affinity; TEXT_affinity;
        TEXT_affinity; TEXT_affinity; TEXT_affinity] vals
  ++ [NULL].

Definition add_row (t : table) (cells : list sqlval) : table :=
  Table (tbl_columns t) (tbl_rows t ++ [INTEGER (next_rowid t) :: cells]) (next_rowid t).

Lemma length_7 {A} (l : list A) :
  length l = 7%nat → ∃ a b c d e f g, l = [a; b; c; d; e; f; g].
Proof.
  intros H. do 7 (destruct l as [|? l]; [done|]). destruct l; [|done].
  by do 7 eexists.
Qed.

Lemma adapt_all_length (i : nat) (params : list pyval) (vals : list sqlval) :
  adapt_all i params = Return vals → length vals = length params.
Proof.
  revert i vals. induction params as [|v params IH]; simpl; intros i vals H.
  - by inversion H.
  - destruct (sqlite_adapt i v); [|done]. simpl in H.
    destruct (adapt_all (S i) params) as [ys|] eqn:Hys; [|done]. simpl in H.
    inversion H; subst. simpl. f_equal. by apply (IH (S i)).
Qed.

Lemma bindings_length (n : nat) (params : list pyval) (vals : list sqlval) :
  bindings n params = Return vals → length vals = n.
Proof.
  unfold bindings. case_bool_decide as Hn; [|done].
  intros H. apply adapt_all_length in H. congruence.
Qed.

Lemma sentences_key (t : table) :
  tbl_columns t = sentences_columns → key_index t = Some 0%nat.
Proof. unfold key_index. by intros ->. Qed.

Lemma dependencies_key (t : table) :
  tbl_columns t = dependencies_columns → key_index t = Some 0%nat.
Proof. unfold key_index. by intros ->. Qed.

Lemma insert_row_sentences (or_ignore : bool) (now text : string) (t : table) :
  tbl_columns t = sentences_columns →
  insert_row or_ignore now "sentences" t [("text", TEXT text)]
  = Return (Inserted (add_row t [TEXT text; TEXT "en"; TEXT now]) (next_rowid t)).
Proof.
  intros Hc. unfold insert_row. rewrite (sentences_key t Hc), Hc. simpl.
  rewrite bool_decide_eq_false_2 by apply next_rowid_fresh.
  unfold add_row. by rewrite next_rowid_seq, Hc.
Qed.

Lemma insert_row_dependencies (now : string) (t : table) (v1 v2 v3 v4 v5 v6 v7 : sqlval) :
  tbl_columns t = dependencies_columns →
  insert_row false now "dependencies" t
    [("sentence_id", v1); ("token_text", v2); ("token_pos", v3);
     ("dependency_label", v4); ("head_text", v5); ("head_pos", v6);
     ("model_type", v7)]
  = Return (Inserted (add_row t (tail (dependency_row 0 [v1; v2; v3; v4; v5; v6; v7])))
                     (next_rowid t)).
Proof.
  intros Hc. unfold insert_row. rewrite (dependencies_key t Hc), Hc. simpl.
  rewrite bool_decide_eq_false_2 by apply next_rowid_fresh.
  unfold add_row. by rewrite next_rowid_seq, Hc.
Qed.

Lemma execute_insert_sentence (or_ignore : bool) (text : string) (c : connection) (t : table) :
  working c !! "sentences" = Some t →
  tbl_columns t = sentences_columns →
  execute (INSERT_INTO or_ignore "sentences" ["text"]) [PyStr text] c
  = (Return (Cursor (PyInt (next_rowid t)) []),
     inserted "sentences" (add_row t [TEXT text; TEXT "en"; TEXT (clock c (ticks c))])
              (next_rowid t) (begin (tick c))).
Proof.
  intros Ht Hc. unfold execute. simpl. rewrite Ht, Hc. simpl.
  by rewrite insert_row_sentences.
Qed.

Lemma execute_insert_dependency (params : list pyval) (c : connection) (t : table) :
  working c !! "dependencies" = Some t →
  tbl_columns t = dependencies_columns →
  execute INSERT_DEPENDENCY params c
  = match bindings 7 params with
    | Raise e => (Raise e, begin (tick c))
    | Return vals =>
        (Return (Cursor (PyInt (next_rowid t)) []),
         inserted "dependencies" (add_row t (tail (dependency_row 0 vals)))
                  (next_rowid t) (begin (tick c)))
    end.
Proof.
  intros Ht Hc. unfold execute, INSERT_DEPENDENCY. simpl. rewrite Ht, Hc. simpl.
  destruct (bindings 7 params) as [vals|e] eqn:Hb; [|done].
  destruct (length_7 vals (bindings_length _ _ _ Hb))
    as (v1 & v2 & v3 & v4 & v5 & v6 & v7 & ->).
  by rewrite insert_row_dependencies.
Qed.

(** ** The loop of [save_to_database] *)

(** The parameter tuple built for one dependency record. *)
Definition dependency_params (results : pydict) (sentence_id dep : pyval)
    : outcome (list pyval) :=
  token ← py_getitem dep "token";
  pos ← py_getitem dep "pos";
  label ← py_getitem dep "dep";
  head ← py_getitem dep "head";
  head_pos ← py_getitem dep "head_pos";
  model ← dict_getitem results "model";
  Return [sentence_id; token; pos; label; head; head_pos; model].

(** The values bound for one record, or the exception that stops the loop. *)
Definition dependency_values (results : pydict) (sentence_id dep : pyval)
    : outcome (list sqlval) :=
  dependency_params results sentence_id dep ≫= bindings 7.

(** The records stored before the loop ends, and how it ends. *)
Fixpoint loop_spec (f : pyval → outcome (list sqlval)) (deps : list pyval)
    : list (list sqlval) * outcome () :=
  match deps with
  | [] => ([], Return ())
  | dep :: deps' =>
      match f dep with
      | Return vals => let '(vs, r) := loop_spec f deps' in (vals :: vs, r)
      | Raise e => ([], Raise e)
      end
  end.

Definition add_dependency_rows (t : table) (vs : list (list sqlval)) : table :=
  foldl (λ t vals, add_row t (tail (dependency_row 0 vals))) t vs.

Lemma add_dependency_rows_columns (t : table) (vs : list (list sqlval)) :
  tbl_columns (add_dependency_rows t vs) = tbl_columns t.
Proof.
  revert t. induction vs as [|vals vs IH]; intros t; simpl; [done|].
  unfold add_dependency_rows in IH. by rewrite IH.
Qed.

Lemma add_dependency_rows_rows (t : table) (vs : list (list sqlval)) :
  tbl_columns t = dependencies_columns →
  tbl_rows (add_dependency_rows t vs)
  = tbl_rows t ++ imap (λ k vals, dependency_row (next_rowid t + Z.of_nat k) vals) vs.
Proof.
  revert t. induction vs as [|vals vs IH]; intros t Hc.
  - cbn. by rewrite app_nil_r.
  - unfold add_dependency_rows. cbn [foldl].
    fold (add_dependency_rows (add_row t (tail (dependency_row 0 vals))) vs).
    rewrite IH by done. rewrite imap_cons.
    change (tbl_rows (add_row t (tail (dependency_row 0 vals))))
      with (tbl_rows t ++ [INTEGER (next_rowid t) :: tail (dependency_row 0 vals)]).
    rewrite <- app_assoc. f_equal. cbn [app]. f_equal.
    + unfold dependency_row. cbn [tail]. by rewrite Z.add_0_r.
    + apply imap_ext. intros k vals' _. cbn [compose].
      unfold add_row. rewrite next_rowid_append by by apply dependencies_key.
      f_equal. lia.
Qed.

Lemma db_bind_run {A B} (m : db_m A) (f : A → db_m B) (c : connection) :
  (m ≫= f) c = match m c with
               | (Return a, c') => f a c'
               | (Raise e, c') => (Raise e, c')
               end.
Proof. done. Qed.

Lemma for_each_cons {A} (x : A) (xs : list A) (body : A → db_m ()) (c : connection) :
  for_each (x :: xs) body c
  = match body x c with
    | (Return _, c') => for_each xs body c'
    | (Raise e, c') => (Raise e, c')
    end.
Proof. done. Qed.

(** One turn of the loop. *)
Definition insert_dependency (results : pydict) (sid dep : pyval) : db_m () :=
  params ← db_lift (dependency_params results sid dep);
  _ ← execute INSERT_DEPENDENCY params;
  mret ().

Lemma insert_dependency_run (results : pydict) (sid dep : pyval) (c : connection) (t : table) :
  working c !! "dependencies" = Some t →
  tbl_columns t = dependencies_columns →
  match dependency_values results sid dep with
  | Return vals =>
      insert_dependency results sid dep c
      = (Return (), inserted "dependencies" (add_row t (tail (dependency_row 0 vals)))
                             (next_rowid t) (begin (tick c)))
  | Raise e =>
      ∃ c', insert_dependency results sid dep c = (Raise e, c') ∧
            working c' = working c ∧ committed c' = committed c ∧
            clock c' = clock c ∧ (in_transaction c = true → in_transaction c' = true)
  end.
Proof.
  intros Ht Hc. unfold dependency_values, insert_dependency.
  rewrite db_bind_run. unfold db_lift.
  destruct (dependency_params results sid dep) as [params|e]; cbn [mbind outcome_bind].
  - rewrite db_bind_run, (execute_insert_dependency params c t Ht Hc).
    destruct (bindings 7 params) as [vals|e]; [done|]. by eexists.
  - by exists c.
Qed.

(** ** The database after an INSERT *)

Lemma set_sequence_twice (name : string) (seq1 seq2 : Z) (rows : list (list sqlval)) :
  set_sequence name seq2 (set_sequence name seq1 rows) = set_sequence name seq2 rows.
Proof.
  induction rows as [|row rows IH]; simpl.
  - by rewrite bool_decide_eq_true_2.
  - case_bool_decide as Hrow; simpl.
    + by rewrite bool_decide_eq_true_2.
    + by rewrite bool_decide_eq_false_2, IH.
Qed.

Lemma stored_lookup (name : string) (t : table) (w : database) :
  name ≠ "sqlite_sequence" → stored name t w !! name = Some t.
Proof.
  intros Hn. unfold stored.
  destruct (has_autoincrement (tbl_columns t)), (w !! "sqlite_sequence");
    by rewrite ?(lookup_insert_ne _ "sqlite_sequence"), lookup_insert_eq.
Qed.

Lemma stored_lookup_ne (name name' : string) (t : table) (w : database) :
  name' ≠ name → name' ≠ "sqlite_sequence" → stored name t w !! name' = w !! name'.
Proof.
  intros Hn Hs. unfold stored.
  destruct (has_autoincrement (tbl_columns t)), (w !! "sqlite_sequence");
    by rewrite !lookup_insert_ne.
Qed.

(** Only the last of successive INSERTs into one table shows. *)
Lemma stored_stored (name : string) (t1 t2 : table) (w : database) :
  name ≠ "sqlite_sequence" →
  tbl_columns t1 = tbl_columns t2 →
  stored name t2 (stored name t1 w) = stored name t2 w.
Proof.
  intros Hn Hc. unfold stored. rewrite Hc.
  destruct (has_autoincrement (tbl_columns t2)); [|by rewrite insert_insert_eq].
  destruct (w !! "sqlite_sequence") as [s|] eqn:Hs.
  - rewrite (lookup_insert_eq _ "sqlite_sequence").
    cbn [tbl_columns tbl_rows tbl_seq]. rewrite set_sequence_twice.
    rewrite (insert_insert_ne _ "sqlite_sequence" name) by done.
    rewrite insert_insert_eq.
    rewrite (insert_insert_ne _ name "sqlite_sequence") by done.
    by rewrite insert_insert_eq.
  - rewrite lookup_insert_ne, Hs by done. by rewrite insert_insert_eq.
Qed.

(** The database after the loop has stored the value lists [vs] in the
    table [t] of dependencies: untouched when there are none. *)
Definition dependencies_stored (t : table) (vs : list (list sqlval)) (w : database)
    : database :=
  match vs with
  | [] => w
  | _ => stored "dependencies" (add_dependency_rows t vs) w
  end.

Lemma dependencies_stored_lookup (t : table) (vs : list (list sqlval)) (w : database) :
  w !! "dependencies" = Some t →
  dependencies_stored t vs w !! "dependencies" = Some (add_dependency_rows t vs).
Proof. intros Ht. destruct vs; [done|]. by apply stored_lookup. Qed.

Lemma dependencies_stored_lookup_ne (name : string) (t : table) (vs : list (list sqlval))
    (w : database) :
  name ≠ "dependencies" → name ≠ "sqlite_sequence" →
  dependencies_stored t vs w !! name = w !! name.
Proof. intros ? ?. destruct vs; [done|]. by apply stored_lookup_ne. Qed.

Lemma for_each_insert_dependency (results : pydict) (sid : pyval) (deps : list pyval)
    (c : connection) (t : table) :
  working c !! "dependencies" = Some t →
  tbl_columns t = dependencies_columns →
  ∃ c',
    for_each deps (insert_dependency results sid) c
    = ((loop_spec (dependency_values results sid) deps).2, c') ∧
    working c'
    = dependencies_stored t (loop_spec (dependency_values results sid) deps).1
        (working c) ∧
    committed c' = committed c ∧
    clock c' = clock c ∧
    (in_transaction c = true → in_transaction c' = true).
Proof.
  revert c t. induction deps as [|dep deps IH]; intros c t Ht Hc.
  - by exists c.
  - rewrite for_each_cons. cbn [loop_spec].
    pose proof (insert_dependency_run results sid dep c t Ht Hc) as Hrun.
    destruct (dependency_values results sid dep) as [vals|e].
    + rewrite Hrun.
      set (t2 := add_row t (tail (dependency_row 0 vals))).
      destruct (IH (inserted "dependencies" t2 (next_rowid t) (begin (tick c))) t2)
        as (c' & Hloop & Hw & Hcm & Hck & Htx).
      { by apply stored_lookup. }
      { done. }
      exists c'.
      destruct (loop_spec (dependency_values results sid) deps) as [vs r].
      cbn [fst snd] in *. rewrite Hloop, Hw, Hcm, Hck. cbn [inserted working committed clock begin tick].
      repeat split; try done; [|intros _; by apply Htx].
      destruct vs as [|v vs]; [done|]. unfold dependencies_stored.
      rewrite stored_stored; [done|done|].
      by rewrite add_dependency_rows_columns.
    + destruct Hrun as (c' & -> & Hw & Hcm & Hck & Htx). by exists c'.
Qed.

(** ** [save_to_database], step by step *)

(** The records the loop is run over ([[]] when there is no such key). *)
Definition records_to_save (results : pydict) : outcome (list pyval) :=
  if dict_contains "dependencies" results
  then dict_getitem results "dependencies" ≫= py_iter
  else Return [].

(** The value lists stored and the way the statements before [commit] end. *)
Definition save_spec (results : pydict) (sid : pyval) : list (list sqlval) * outcome () :=
  match records_to_save results with
  | Raise e => ([], Raise e)
  | Return deps => loop_spec (dependency_values results sid) deps
  end.

Definition get_table (name : string) (db : database) : table :=
  match db !! name with
  | Some t => t
  | None => Table [] [] 0
  end.

(** The database after the statements of [save_to_database]. *)
Definition saved (text : string) (results : pydict) (c : connection) : database :=
  let ts := get_table "sentences" (working c) in
  let td := get_table "dependencies" (working c) in
  dependencies_stored td (save_spec results (PyInt (next_rowid ts))).1
    (stored "sentences" (add_row ts [TEXT text; TEXT "en"; TEXT (clock c (ticks c))])
       (working c)).

Lemma save_to_database_run (text : string) (results : pydict) (c : connection) :
  initialized c →
  let sid := PyInt (next_id "sentences" (working c)) in
  ∃ c',
    save_to_database text results c
    = ((save_spec results sid).2 ≫= λ _, Return sid, c') ∧
    working c' = saved text results c ∧
    committed c'
    = match (save_spec results sid).2 with
      | Return _ => working c' :: committed c
      | Raise _ => committed c
      end ∧
    clock c' = clock c.
Proof.
  intros [Hs Hd]. cbv zeta. unfold table_columns in Hs, Hd.
  destruct (working c !! "sentences") as [ts|] eqn:Hts; [|done].
  destruct (working c !! "dependencies") as [td|] eqn:Htd; [|done].
  injection Hs as Hs. injection Hd as Hd.
  unfold next_id, saved, get_table. rewrite Hts, Htd. cbn [from_option].
  set (ts' := add_row ts [TEXT text; TEXT "en"; TEXT (clock c (ticks c))]).
  set (c1 := inserted "sentences" ts' (next_rowid ts) (begin (tick c))).
  assert (working c1 !! "dependencies" = Some td) as Htd1.
  { unfold c1. cbn [inserted working]. by rewrite stored_lookup_ne. }
  unfold save_to_database, INSERT_SENTENCE. rewrite db_bind_run.
  rewrite (execute_insert_sentence false text c ts Hts Hs). fold ts' c1.
  cbn [lastrowid]. rewrite db_bind_run.
  unfold save_spec, records_to_save.
  destruct (dict_contains "dependencies" results).
  - rewrite db_bind_run. unfold db_lift.
    destruct (dict_getitem results "dependencies" ≫= py_iter) as [deps|e];
      cbv beta iota.
    + destruct (for_each_insert_dependency results (PyInt (next_rowid ts)) deps c1 td
                  Htd1 Hd) as (c2 & Hloop & Hw & Hcm & Hck & Htx).
      change (for_each deps _ c1)
        with (for_each deps (insert_dependency results (PyInt (next_rowid ts))) c1).
      rewrite Hloop.
      destruct (loop_spec (dependency_values results (PyInt (next_rowid ts))) deps)
        as [vs [[]|e]] eqn:Hls; cbn [fst snd] in *.
      * rewrite db_bind_run. unfold commit. rewrite Htx by done.
        eexists. split; [done|]. cbn. by rewrite Hw, Hcm, Hck.
      * exists c2. by rewrite Hw, Hcm, Hck.
    + by exists c1.
  - cbn. eexists. split; [done|]. done.
Qed.

(** ** What [save_to_database] stores *)

(** A dependency record as [save_to_database] reads it: a dict with the five
    keys below, each holding text. *)
Definition saved_keys : list string := ["token"; "pos"; "dep"; "head"; "head_pos"].

Definition dependency_record (dep : pyval) : Prop :=
  ∀ k, k ∈ saved_keys → ∃ s, py_getitem dep k = Return (PyStr s).

(** The text a record holds under a key. *)
Definition field_text (k : string) (dep : pyval) : string :=
  match py_getitem dep k with
  | Return (PyStr s) => s
  | _ => EmptyString
  end.


(** The values bound for it. *)
Definition bound_values (sid : Z) (model : string) (dep : pyval) : list sqlval :=
  [ INTEGER sid;
    TEXT (field_text "token" dep); TEXT (field_text "pos" dep);
    TEXT (field_text "dep" dep); TEXT (field_text "head" dep);
    TEXT (field_text "head_pos" dep); TEXT model ].

Lemma dependency_values_record (results : pydict) (model : string) (sid : Z) (dep : pyval) :
  dict_get "model" results = Some (PyStr model) →
  dependency_record dep →
  dependency_values results (PyInt sid) dep = Return (bound_values sid model dep).
Proof.
  intros Hm Hdep.
  unfold dependency_values, dependency_params, bound_values, field_text, dict_getitem.
  rewrite Hm.
  destruct (Hdep "token") as [s1 ->]; [by repeat constructor|].
  destruct (Hdep "pos") as [s2 ->]; [by repeat constructor|].
  destruct (Hdep "dep") as [s3 ->]; [by repeat constructor|].
  destruct (Hdep "head") as [s4 ->]; [by repeat constructor|].
  destruct (Hdep "head_pos") as [s5 ->]; [by repeat constructor|].
  done.
Qed.

Lemma loop_spec_records (results : pydict) (model : string) (sid : Z) (deps : list pyval) :
  dict_get "model" results = Some (PyStr model) →
  Forall dependency_record deps →
  loop_spec (dependency_values results (PyInt sid)) deps
  = (bound_values sid model <$> deps, Return ()).
Proof.
  intros Hm Hdeps. induction Hdeps as [|dep deps Hdep _ IH]; [done|].
  cbn [loop_spec]. rewrite (dependency_values_record results model sid dep Hm Hdep).
  rewrite IH. reflexivity.
Qed.

Lemma loop_spec_lengths (results : pydict) (sid : pyval) (deps : list pyval) :
  Forall (λ vals, length vals = 7%nat)
         (loop_spec (dependency_values results sid) deps).1.
Proof.
  induction deps as [|dep deps IH]; cbn [loop_spec]; [by constructor|].
  destruct (dependency_values results sid dep) as [vals|e] eqn:Hv; [|by constructor].
  destruct (loop_spec (dependency_values results sid) deps) as [vs r].
  cbn [fst] in *. constructor; [|done]. unfold dependency_values in Hv.
  destruct (dependency_params results sid dep); [|done].
  by apply bindings_length in Hv.
Qed.

Lemma dependency_row_confidence (rowid : Z) (vals : list sqlval) :
  length vals = 7%nat → dependency_row rowid vals !! 8%nat = Some NULL.
Proof.
  intros H. by destruct (length_7 vals H) as (? & ? & ? & ? & ? & ? & ? & ->).
Qed.

Lemma table_rows_saved_sentences (text : string) (results : pydict) (c : connection) :
  table_rows "sentences" (saved text results c)
  = tbl_rows (get_table "sentences" (working c))
    ++ [sentence_row (next_rowid (get_table "sentences" (working c)))
                     text (clock c (ticks c))].
Proof.
  unfold table_rows, saved. rewrite dependencies_stored_lookup_ne by done.
  by rewrite stored_lookup.
Qed.

Lemma table_rows_saved_dependencies (text : string) (results : pydict) (c : connection) :
  table_columns "dependencies" (working c) = Some dependencies_columns →
  table_rows "dependencies" (saved text results c)
  = table_rows "dependencies" (working c)
    ++ imap (λ k vals, dependency_row (next_id "dependencies" (working c) + Z.of_nat k) vals)
            (save_spec results (PyInt (next_rowid (get_table "sentences" (working c))))).1.
Proof.
  unfold table_rows, table_columns, next_id, saved, get_table.
  destruct (working c !! "dependencies") as [td|] eqn:Htd; [|done].
  intros [= Hd]. rewrite (dependencies_stored_lookup td).
  - cbn [from_option]. by apply add_dependency_rows_rows.
  - by rewrite stored_lookup_ne.
Qed.

Lemma initialized_get_table (name : string) (cols : list column) (db : database) :
  table_columns name db = Some cols →
  tbl_rows (get_table name db) = table_rows name db ∧
  next_rowid (get_table name db) = next_id name db.
Proof.
  unfold table_columns, get_table, table_rows, next_id.
  by destruct (db !! name).
Qed.




Lemma confidence_column : column_index "confidence" dependencies_columns = Some 8%nat.
Proof. done. Qed.

(** C9, as the code has it.  Every call on an initialized store inserts
    exactly one [sentences] row, holding [text] under a new id, and every
    [dependencies] row it adds has NULL in the [confidence] column.  The
    call returns that id, and then has committed, when [results] has no
    'dependencies' key (no [dependencies] row is added) and when the
    'dependencies' list holds dependency records and 'model' text (one row
    per record); it returns nothing else.  When it raises, which takes a
    'dependencies' key, no id is returned and nothing of the call is
    committed. *)
Theorem save_to_database_sentence_only (text : string) (results : pydict) (c : connection) :
  initialized c →
  let sid := next_id "sentences" (working c) in
  ∃ r c' new,
    save_to_database text results c = (r, c') ∧
    table_rows "sentences" (working c')
    = table_rows "sentences" (working c)
      ++ [[INTEGER sid; TEXT text; TEXT "en"; TEXT (clock c (ticks c))]] ∧
    table_rows "dependencies" (working c')
    = table_rows "dependencies" (working c) ++ new ∧
    column_index "confidence" dependencies_columns = Some 8%nat ∧
    Forall (λ row, row !! 8%nat = Some NULL) new ∧
    (dict_contains "dependencies" results = false →
     r = Return (PyInt sid) ∧ new = [] ∧ durable c' = working c') ∧
    (∀ deps model,
       dict_get "dependencies" results = Some (PyList deps) →
       Forall dependency_record deps →
       dict_get "model" results = Some (PyStr model) →
       r = Return (PyInt sid) ∧ length new = length deps ∧ durable c' = working c') ∧
    (∀ v, r = Return v → v = PyInt sid ∧ durable c' = working c') ∧
    (∀ e, r = Raise e →
          dict_contains "dependencies" results = true ∧ committed c' = committed c).
Proof.
  intros Hinit sid.
  destruct (save_to_database_run text results c Hinit) as (c' & Hrun & Hw & Hcm & _).
  destruct Hinit as [Hs Hd].
  destruct (initialized_get_table _ _ _ Hs) as [Hrows Hnext].
  fold sid in Hrun, Hcm.
  eexists _, c', _. split; [exact Hrun|]. rewrite Hw.
  split; [|split; [|split; [|split; [|split; [|split; [|split]]]]]].
  - by rewrite table_rows_saved_sentences, Hrows, Hnext.
  - rewrite table_rows_saved_dependencies by done. by rewrite Hnext.
  - done.
  - fold sid.
    assert (Forall (λ vals, length vals = 7%nat) (save_spec results (PyInt sid)).1) as Hlen.
    { unfold save_spec. destruct (records_to_save results); [|by constructor].
      apply loop_spec_lengths. }
    apply Forall_lookup. intros i row Hi.
    apply list_lookup_imap_Some in Hi as (vals & Hvals & ->).
    apply dependency_row_confidence.
    by eapply (Forall_lookup_1 _ _ _ _ Hlen).
  - intros Hno. fold sid. unfold save_spec, records_to_save in *. rewrite Hno in *.
    cbn in *. split; [done|]. split; [done|]. unfold durable. by rewrite Hcm, <- Hw.
  - intros deps model Hdeps Hrec Hmodel. fold sid.
    assert (save_spec results (PyInt sid)
            = (bound_values sid model <$> deps, Return ())) as Hspec.
    { unfold save_spec, records_to_save, dict_contains, dict_getitem.
      rewrite Hdeps, bool_decide_eq_true_2 by by eexists.
      cbn [mbind outcome_bind py_iter]. by apply loop_spec_records. }
    rewrite Hspec in Hcm. rewrite Hspec. cbn [fst snd] in *.
    split; [done|]. split; [by rewrite length_imap, length_fmap|].
    unfold durable. by rewrite Hcm, <- Hw.
  - intros v Hv. destruct (save_spec results (PyInt sid)).2 as [[]|e]; [|done].
    cbn in Hv. injection Hv as <-. split; [done|]. unfold durable. by rewrite Hcm, <- Hw.
  - intros e He. destruct (dict_contains "dependencies" results) eqn:Hin.
    + split; [done|]. by destruct (save_spec results (PyInt sid)).2 as [[]|e'].
    + unfold save_spec, records_to_save in He. by rewrite Hin in He.
Qed.

(** ** Commit units *)

Definition add_sentences (now : nat → string) (t : table) (texts : list string) : table :=
  foldl (λ t kt, add_row t [TEXT kt.2; TEXT "en"; TEXT (now kt.1)]) t
        (imap (λ k text, (k, text)) texts).

(** The loop of [init_database] over the sample sentences: INSERT OR IGNORE
    finds no conflict, [text] being no key. *)
Lemma for_each_insert_sample (texts : list string) (c : connection) (t : table) :
  working c !! "sentences" = Some t →
  tbl_columns t = sentences_columns →
  ∃ t' c',
    for_each texts (λ sentence, _ ← execute INSERT_SAMPLE [PyStr sentence]; mret ()) c
    = (Return (), c') ∧
    working c' = match texts with
                 | [] => working c
                 | _ => stored "sentences" t' (working c)
                 end ∧
    (texts = [] → t' = t) ∧
    tbl_columns t' = sentences_columns ∧
    tbl_rows t'
    = tbl_rows t
      ++ imap (λ k text, sentence_row (next_rowid t + Z.of_nat k) text
                                      (clock c (ticks c + k)%nat)) texts ∧
    next_rowid t' = next_rowid t + Z.of_nat (length texts) ∧
    (texts ≠ [] → tbl_seq t' = next_rowid t' - 1) ∧
    committed c' = committed c ∧
    (texts ≠ [] ∨ in_transaction c = true → in_transaction c' = true).
Proof.
  revert c t. induction texts as [|text texts IH]; intros c t Ht Hc.
  - exists t, c. cbn. rewrite app_nil_r, Z.add_0_r.
    repeat split; try done. by intros [|].
  - rewrite for_each_cons, db_bind_run.
    rewrite (execute_insert_sentence true text c t Ht Hc
             : execute INSERT_SAMPLE [PyStr text] c = _).
    set (t1 := add_row t _). set (c1 := inserted _ _ _ _).
    assert (next_rowid t1 = next_rowid t + 1) as Hnext1.
    { unfold t1, add_row. apply next_rowid_append. by apply sentences_key. }
    destruct (IH c1 t1) as (t' & c' & Hrun & Hw & Hnil & Hc' & Hrows & Hnext & Hseq & Hcm & Htx).
    { by apply stored_lookup. }
    { done. }
    exists t', c'. cbn [mret db_ret]. rewrite Hrun, Hw, Hc', Hrows, Hcm.
    change (working c1) with (stored "sentences" t1 (working c)).
    repeat split; try done.
    + destruct texts as [|text' texts]; [by rewrite Hnil|].
      apply stored_stored; [done|]. by rewrite Hc'.
    + change (tbl_rows t1)
        with (tbl_rows t ++ [INTEGER (next_rowid t) :: [TEXT text; TEXT "en";
                                                       TEXT (clock c (ticks c))]]).
      rewrite <- app_assoc. f_equal. rewrite imap_cons. cbn [app]. f_equal.
      * unfold sentence_row. by rewrite Z.add_0_r, Nat.add_0_r.
      * apply imap_ext. intros k text' _. cbn [compose]. rewrite Hnext1.
        change (clock c1) with (clock c). change (ticks c1) with (S (ticks c)).
        f_equal; [lia|]. f_equal. lia.
    + rewrite Hnext, Hnext1. cbn [length]. lia.
    + intros _. destruct texts as [|text' texts].
      * rewrite Hnil by done. rewrite Hnext1. unfold t1, add_row. cbn [tbl_seq]. lia.
      * by apply Hseq.
    + intros _. apply Htx. by right.
Qed.

Lemma execute_create (name : string) (cols : list column) (c : connection) :
  String.prefix "sqlite_" name = false →
  execute (CREATE_TABLE_IF_NOT_EXISTS name cols) [] c
  = (Return (Cursor (PyInt (last_insert_rowid c)) []),
     match working c !! name with
     | Some _ => tick c
     | None => write_ddl (created name cols (working c)) (tick c)
     end).
Proof. intros Hp. unfold execute. rewrite Hp. cbn. by destruct (working c !! name). Qed.

Lemma created_lookup (name : string) (cols : list column) (w : database) :
  name ≠ "sqlite_sequence" → created name cols w !! name = Some (Table cols [] 0).
Proof.
  intros Hn. unfold created.
  destruct (has_autoincrement cols), (w !! "sqlite_sequence");
    by rewrite ?(lookup_insert_ne _ "sqlite_sequence"), lookup_insert_eq.
Qed.

Lemma created_lookup_ne (name name' : string) (cols : list column) (w : database) :
  name' ≠ name → name' ≠ "sqlite_sequence" → created name cols w !! name' = w !! name'.
Proof.
  intros Hn Hs. unfold created.
  destruct (has_autoincrement cols), (w !! "sqlite_sequence"); by rewrite !lookup_insert_ne.
Qed.

Lemma created_sequence (name : string) (cols : list column) (w : database) :
  name ≠ "sqlite_sequence" →
  has_autoincrement cols = true →
  created name cols w !! "sqlite_sequence"
  = Some (default (Table sqlite_sequence_columns [] 0) (w !! "sqlite_sequence")).
Proof.
  intros Hn Hauto. unfold created. rewrite Hauto.
  destruct (w !! "sqlite_sequence") eqn:Hs.
  - by rewrite lookup_insert_ne, Hs.
  - by rewrite lookup_insert_eq.
Qed.

(** [init_database] on a connection to a file that has neither table: each
    [CREATE TABLE] is written through on its own, the five sample rows are
    committed together. *)
Lemma init_database_fresh (file : database) (clk : nat → string) :
  file !! "sentences" = None →
  file !! "dependencies" = None →
  let w1 := created "sentences" sentences_columns file in
  let w2 := created "dependencies" dependencies_columns w1 in
  ∃ c',
    init_database (connect file clk) = (Return (), c') ∧
    committed c' = [working c'; w2; w1; file] ∧
    initialized c' ∧
    table_rows "dependencies" (working c') = [] ∧
    table_rows "sentences" (working c')
    = imap (λ k text, sentence_row (1 + Z.of_nat k) text (clk (2 + k)%nat))
           sample_sentences.
Proof.
  intros Hs Hd w1 w2. unfold init_database, CREATE_SENTENCES, CREATE_DEPENDENCIES.
  rewrite db_bind_run. cbn [reconnect]. change (durable (connect file clk)) with file.
  change (Connection _ file false 0 _ _) with (connect file clk).
  rewrite db_bind_run, execute_create by done.
  change (working (connect file clk)) with file. rewrite Hs.
  rewrite db_bind_run, execute_create by done.
  change (working (write_ddl _ _)) with w1.
  unfold w1 at 1. rewrite created_lookup_ne, Hd by done. fold w1 w2.
  rewrite db_bind_run.
  set (c2 := write_ddl w2 _).
  destruct (for_each_insert_sample sample_sentences c2 (Table sentences_columns [] 0))
    as (t' & c' & Hrun & Hw & _ & Hc' & Hrows & _ & _ & Hcm & Htx).
  { change (working c2) with w2. unfold w2.
    rewrite created_lookup_ne by done. by apply created_lookup. }
  { done. }
  rewrite Hrun. unfold commit. rewrite Htx by by left.
  eexists. split; [done|]. cbn [committed working]. rewrite Hw, Hcm.
  change (working c2) with w2. change (committed c2) with [w2; w1; file].
  split; [done|].
  unfold initialized, table_columns, table_rows. cbn [working sample_sentences].
  rewrite stored_lookup, !stored_lookup_ne by done. unfold w2.
  rewrite !created_lookup by done. cbn [fmap option_fmap option_map from_option].
  rewrite Hc', Hrows. done.
Qed.

(** C4, as the code has it.  [save_to_database] on an initialized store runs
    all its INSERTs inside one transaction: when it returns, a single commit
    has made the sentence row and every dependency row durable together, and
    when it raises nothing of the call is durable.  [init_database] on a
    file without the tables writes each CREATE TABLE through on its own and
    commits its five sample rows together. *)
Theorem writes_committed_together :
  (∀ (text : string) (results : pydict) (c : connection),
     initialized c →
     ∃ r c',
       save_to_database text results c = (r, c') ∧
       working c' = saved text results c ∧
       ((returns r ∧ committed c' = working c' :: committed c) ∨
        ((∃ e, r = Raise e) ∧ committed c' = committed c))) ∧
  (∀ (file : database) (clk : nat → string),
     file !! "sentences" = None →
     file !! "dependencies" = None →
     let w1 := created "sentences" sentences_columns file in
     let w2 := created "dependencies" dependencies_columns w1 in
     ∃ c',
       init_database (connect file clk) = (Return (), c') ∧
       committed c' = [working c'; w2; w1; file] ∧
       length (table_rows "sentences" w2) = 0%nat ∧
       length (table_rows "sentences" (working c')) = 5%nat).
Proof.
  split.
  - intros text results c Hinit.
    destruct (save_to_database_run text results c Hinit) as (c' & Hrun & Hw & Hcm & _).
    eexists _, c'. split; [exact Hrun|]. split; [done|].
    destruct (save_spec results _).2 as [[]|e].
    + left. split; [by eexists|done].
    + right. split; [by eexists|done].
  - intros file clk Hs Hd w1 w2.
    destruct (init_database_fresh file clk Hs Hd) as (c' & Hrun & Hcm & _ & _ & Hrows).
    exists c'. repeat split; try done.
    + unfold table_rows, w2, w1.
      by rewrite created_lookup_ne, created_lookup by done.
    + by rewrite Hrows.
Qed.

(** ** The set of tables *)

(** No table appears, disappears or changes its columns, and tables other
    than the parser's two and SQLite's [sqlite_sequence] are untouched. *)
Definition same_tables (c c' : connection) : Prop :=
  (∀ name, table_columns name (working c') = table_columns name (working c)) ∧
  (∀ name, name ≠ "sentences" → name ≠ "dependencies" → name ≠ "sqlite_sequence" →
           working c' !! name = working c !! name).

Global Instance same_tables_preorder : PreOrder same_tables.
Proof.
  split.
  - by intros c.
  - intros c1 c2 c3 [H1 H1'] [H2 H2']. split.
    + intros name. by rewrite H2, H1.
    + intros name ? ? ?. by rewrite H2', H1'.
Qed.

Definition keeps_tables {A} (m : db_m A) : Prop := ∀ c, same_tables c (m c).2.

Lemma keeps_ret {A} (a : A) : keeps_tables (mret a : db_m A).
Proof. by intros c. Qed.

Lemma keeps_lift {A} (m : outcome A) : keeps_tables (db_lift m).
Proof. by intros c. Qed.

Lemma keeps_bind {A B} (m : db_m A) (f : A → db_m B) :
  keeps_tables m → (∀ a, keeps_tables (f a)) → keeps_tables (m ≫= f).
Proof.
  intros Hm Hf c. rewrite db_bind_run. specialize (Hm c).
  destruct (m c) as [[a|e] c1]; [|done].
  by etrans; [exact Hm|apply Hf].
Qed.

Lemma keeps_for_each {A} (xs : list A) (body : A → db_m ()) :
  (∀ x, keeps_tables (body x)) → keeps_tables (for_each xs body).
Proof.
  intros Hbody. induction xs as [|x xs IH]; [apply keeps_ret|].
  apply keeps_bind; [apply Hbody|by intros _].
Qed.

Lemma keeps_commit : keeps_tables commit.
Proof. intros c. unfold commit. by destruct (in_transaction c). Qed.

Definition result_table (r : insert_result) : table :=
  match r with
  | Inserted t _ | Ignored t => t
  end.

Lemma insert_row_columns (or_ignore : bool) (now name : string) (t : table)
    (supplied : list (string * sqlval)) (r : insert_result) :
  insert_row or_ignore now name t supplied = Return r →
  tbl_columns (result_table r) = tbl_columns t.
Proof.
  unfold insert_row, constraint_failed. intros H.
  repeat case_match; by simplify_eq.
Qed.

Lemma stored_columns (name name' : string) (t t' : table) (w : database) :
  name ≠ "sqlite_sequence" →
  w !! name = Some t →
  tbl_columns t' = tbl_columns t →
  table_columns name' (stored name t' w) = table_columns name' w.
Proof.
  intros Hn Ht Hc. unfold table_columns.
  destruct (decide (name' = name)) as [->|Hne].
  { rewrite stored_lookup, Ht by done. cbn. by rewrite Hc. }
  destruct (decide (name' = "sqlite_sequence")) as [->|Hns];
    [|by rewrite stored_lookup_ne].
  unfold stored. destruct (has_autoincrement (tbl_columns t'));
    [|by rewrite lookup_insert_ne].
  destruct (w !! "sqlite_sequence") as [s|] eqn:Hs.
  - by rewrite lookup_insert_eq.
  - by rewrite lookup_insert_ne, Hs.
Qed.

(** The statements that are not a [CREATE TABLE] and write, if at all, to one
    of the parser's two tables. *)
Definition plain_statement (s : stmt) : Prop :=
  match s with
  | CREATE_TABLE_IF_NOT_EXISTS _ _ => False
  | INSERT_INTO _ name _ => name = "sentences" ∨ name = "dependencies"
  | SELECT_COUNT _ | SELECT_GROUP_COUNT _ _ _ => True
  end.

Lemma execute_keeps (s : stmt) (params : list pyval) :
  plain_statement s → keeps_tables (execute s params).
Proof.
  intros Hs c. destruct s as [|or_ignore name cols| |]; [done| |..].
  - assert (name ≠ "sqlite_sequence") as Hn by by destruct Hs as [->| ->].
    unfold execute.
    destruct (working (tick c) !! name) as [t|] eqn:Ht; [|done].
    destruct (list_find _ cols) as [[]|]; [done|].
    destruct (bindings _ _); [|done].
    destruct (insert_row _ _ _ _ _) as [r|] eqn:Hins; [|done].
    apply insert_row_columns in Hins.
    assert (same_tables c (set_working (stored name (result_table r) (working c)) c))
      as Hsame.
    { split; cbn [working set_working].
      - intros name'. by apply (stored_columns name name' t).
      - intros name' ? ? ?. apply stored_lookup_ne; [|done]. by destruct Hs as [->| ->]. }
    by destruct r.
  - unfold execute. by repeat case_match.
  - unfold execute. by repeat case_match.
Qed.

Lemma save_to_database_keeps (text : string) (results : pydict) :
  keeps_tables (save_to_database text results).
Proof.
  unfold save_to_database.
  apply keeps_bind; [apply execute_keeps; by left|]. intros cur.
  apply keeps_bind; [|intros _; apply keeps_bind; [apply keeps_commit|intros; apply keeps_ret]].
  destruct (dict_contains _ _); [|apply keeps_ret].
  apply keeps_bind; [apply keeps_lift|]. intros deps.
  apply keeps_for_each. intros dep.
  apply keeps_bind; [apply keeps_lift|]. intros params.
  apply keeps_bind; [apply execute_keeps; by right|]. intros; apply keeps_ret.
Qed.

Lemma get_statistics_keeps : keeps_tables get_statistics.
Proof.
  unfold get_statistics.
  repeat (apply keeps_bind;
          [first [by apply execute_keeps | apply keeps_lift]|intros ?]).
  apply keeps_ret.
Qed.

(** What a parser does with its store after [__init__]. *)
Definition parser_op (c c' : connection) : Prop :=
  (∃ text results, c' = (save_to_database text results c).2) ∨
  c' = (get_statistics c).2.

Lemma parser_ops_keep (c c' : connection) : rtc parser_op c c' → same_tables c c'.
Proof.
  induction 1 as [|c1 c2 c3 Hop _ IH]; [done|].
  etrans; [|exact IH].
  destruct Hop as [(text & results & ->)| ->].
  - apply save_to_database_keeps.
  - apply get_statistics_keeps.
Qed.

(** The columns a table has after [init_database]: its own if it was there,
    the declared ones otherwise. *)
Definition ensured (cols : list column) (name : string) (db : database)
    : option (list column) :=
  Some (default cols (table_columns name db)).

Definition parser_tables : gset string :=
  {["sentences"; "dependencies"; "sqlite_sequence"]}.

(** Whether [init_database] has a table to create in the file. *)
Definition creates_table (file : database) : bool :=
  bool_decide (file !! "sentences" = None ∨ file !! "dependencies" = None).

Lemma created_if_missing (name : string) (cols : list column) (c c' : connection) :
  name ≠ "sqlite_sequence" →
  has_autoincrement cols = true →
  c' = match working c !! name with
       | Some _ => tick c
       | None => write_ddl (created name cols (working c)) (tick c)
       end →
  table_columns name (working c') = ensured cols name (working c) ∧
  table_columns "sqlite_sequence" (working c')
  = match working c !! name with
    | Some _ => table_columns "sqlite_sequence" (working c)
    | None => ensured sqlite_sequence_columns "sqlite_sequence" (working c)
    end ∧
  (∀ name', name' ≠ name → name' ≠ "sqlite_sequence" →
            working c' !! name' = working c !! name').
Proof.
  intros Hn Hauto ->. unfold ensured, table_columns.
  destruct (working c !! name) as [t|] eqn:Ht; cbn [working tick write_ddl].
  - by rewrite Ht.
  - rewrite created_lookup, created_sequence by done.
    split; [done|]. split; [by destruct (working c !! "sqlite_sequence")|].
    intros name' ? ?. by apply created_lookup_ne.
Qed.

Lemma init_database_tables (file : database) (clk : nat → string) :
  let c' := (init_database (connect file clk)).2 in
  table_columns "sentences" (working c') = ensured sentences_columns "sentences" file ∧
  table_columns "dependencies" (working c')
  = ensured dependencies_columns "dependencies" file ∧
  table_columns "sqlite_sequence" (working c')
  = (if creates_table file
     then ensured sqlite_sequence_columns "sqlite_sequence" file
     else table_columns "sqlite_sequence" file) ∧
  (∀ name, name ∉ parser_tables → working c' !! name = file !! name).
Proof.
  cbv zeta. unfold init_database, CREATE_SENTENCES, CREATE_DEPENDENCIES.
  rewrite db_bind_run. cbn [reconnect]. change (durable (connect file clk)) with file.
  change (Connection _ file false 0 _ _) with (connect file clk).
  rewrite db_bind_run, execute_create by done.
  set (c1 := match working (connect file clk) !! "sentences" with
             | Some _ => _ | None => _ end).
  rewrite db_bind_run, execute_create by done.
  set (c2 := match working c1 !! "dependencies" with Some _ => _ | None => _ end).
  assert (same_tables c2
            ((for_each sample_sentences
                (λ sentence, _ ← execute INSERT_SAMPLE [PyStr sentence]; mret ())
              ≫= λ _, commit) c2).2) as [Hcols Hothers].
  { apply keeps_bind; [|intros; apply keeps_commit].
    apply keeps_for_each. intros sentence.
    apply keeps_bind; [apply execute_keeps; by left|intros; apply keeps_ret]. }
  rewrite !Hcols.
  destruct (created_if_missing "sentences" sentences_columns (connect file clk) c1)
    as (Hs1 & Hq1 & Ho1); [done..|].
  destruct (created_if_missing "dependencies" dependencies_columns c1 c2)
    as (Hd2 & Hq2 & Ho2); [done..|].
  change (working (connect file clk)) with file in *.
  assert (working c1 !! "dependencies" = file !! "dependencies") as Hd1 by by apply Ho1.
  split; [|split; [|split]].
  - unfold table_columns. rewrite Ho2 by done. exact Hs1.
  - rewrite Hd2. unfold ensured, table_columns. by rewrite Hd1.
  - rewrite Hq2, Hd1. unfold creates_table, ensured in *. rewrite !Hq1.
    destruct (file !! "sentences") as [ts|], (file !! "dependencies") as [td|].
    + rewrite bool_decide_eq_false_2; [done|]. by intros [|].
    + by rewrite bool_decide_eq_true_2 by by right.
    + by rewrite bool_decide_eq_true_2 by by left.
    + by rewrite bool_decide_eq_true_2 by by left.
  - intros name Hname. unfold parser_tables in Hname.
    rewrite !not_elem_of_union, !not_elem_of_singleton in Hname.
    destruct Hname as [[? ?] ?]. by rewrite Hothers, Ho2, Ho1.
Qed.

(** C3, as the code has it.  On the database file of a new parser,
    [init_database] makes sure of the tables [sentences] and [dependencies],
    with the declared columns where it creates them, and SQLite adds its
    own table [sqlite_sequence] with the first table it creates that has an
    AUTOINCREMENT key.  Whatever the parser does afterwards, no table is
    created, dropped or altered: the set of tables and every table's columns
    stay as they are, and tables other than these three are not touched at
    all. *)
Theorem tables_fixed (file : database) (clk : nat → string) (c' : connection) :
  let c := (init_database (connect file clk)).2 in
  rtc parser_op c c' →
  dom (working c)
  = dom file ∪ {["sentences"; "dependencies"]}
    ∪ (if creates_table file then {["sqlite_sequence"]} else ∅) ∧
  table_columns "sentences" (working c) = ensured sentences_columns "sentences" file ∧
  table_columns "dependencies" (working c)
  = ensured dependencies_columns "dependencies" file ∧
  (creates_table file = true →
   table_columns "sqlite_sequence" (working c)
   = ensured sqlite_sequence_columns "sqlite_sequence" file) ∧
  dom (working c') = dom (working c) ∧
  (∀ name, table_columns name (working c') = table_columns name (working c)) ∧
  (∀ name, name ∉ parser_tables → working c' !! name = file !! name).
Proof.
  intros c Hops. apply parser_ops_keep in Hops as [Hcols Hothers].
  destruct (init_database_tables file clk) as (Hs & Hd & Hq & Hinit). fold c in Hs, Hd, Hq, Hinit.
  assert (∀ (w w' : database),
            (∀ name, table_columns name w' = table_columns name w) → dom w' = dom w)
    as Hdom.
  { intros w w' Hsame. apply set_eq. intros name. rewrite !elem_of_dom.
    specialize (Hsame name). unfold table_columns in Hsame.
    destruct (w' !! name), (w !! name); try done; split; by intros [? [=]] || eauto. }
  split; [|split; [done|split; [done|split; [|split; [by apply Hdom|split; [done|]]]]]].
  - apply set_eq. intros name.
    rewrite !elem_of_union, !elem_of_dom, !elem_of_singleton.
    destruct (decide (name = "sentences")) as [->|Hns];
      [|destruct (decide (name = "dependencies")) as [->|Hnd];
        [|destruct (decide (name = "sqlite_sequence")) as [->|Hnq]]].
    + unfold table_columns, ensured in Hs.
      split; [naive_solver|]. intros _. by destruct (working c !! "sentences").
    + unfold table_columns, ensured in Hd.
      split; [naive_solver|]. intros _. by destruct (working c !! "dependencies").
    + unfold table_columns, ensured in Hq.
      destruct (creates_table file).
      * rewrite elem_of_singleton. split; [naive_solver|]. intros _.
        by destruct (working c !! "sqlite_sequence").
      * rewrite elem_of_empty.
        destruct (working c !! "sqlite_sequence"), (file !! "sqlite_sequence");
          try done; naive_solver.
    + rewrite Hinit.
      * destruct (creates_table file); rewrite ?elem_of_singleton, ?elem_of_empty;
          naive_solver.
      * unfold parser_tables. rewrite !not_elem_of_union, !not_elem_of_singleton. done.
  - intros Hcreates. by rewrite Hq, Hcreates.
  - intros name Hname. rewrite Hothers, Hinit; [done..| | |]; unfold parser_tables in Hname;
      rewrite !not_elem_of_union, !not_elem_of_singleton in Hname; naive_solver.
Qed.

(** ** [get_statistics] *)





(** The order of the values is a total preorder, and so is [before]. *)
Lemma string_le_total (s t : string) : string_le s t = true ∨ string_le t s = true.
Proof.
  revert t. induction s as [|a s IH]; intros [|b t]; simpl; auto.
  destruct (IH t) as [H|H]; rewrite H;
    destruct (Nat.ltb_spec (nat_of_ascii a) (nat_of_ascii b)),
             (Nat.ltb_spec (nat_of_ascii b) (nat_of_ascii a)),
             (Nat.eqb_spec (nat_of_ascii a) (nat_of_ascii b)),
             (Nat.eqb_spec (nat_of_ascii b) (nat_of_ascii a)); simpl; auto; lia.
Qed.

Lemma string_le_trans (s t u : string) :
  string_le s t = true → string_le t u = true → string_le s u = true.
Proof.
  revert t u. induction s as [|a s IH]; intros [|b t] [|c u]; simpl; try done.
  rewrite !orb_true_iff, !andb_true_iff, !Nat.ltb_lt, !Nat.eqb_eq.
  intros [?|[? ?]] [?|[? ?]]; eauto with lia.
Qed.

Lemma sql_le_total (a b : sqlval) : sql_le a b = true ∨ sql_le b a = true.
Proof.
  destruct a as [|m|s], b as [|n|t]; simpl; auto.
  - destruct (Z.leb_spec m n), (Z.leb_spec n m); auto; lia.
  - apply string_le_total.
Qed.

Lemma sql_le_trans (a b c : sqlval) :
  sql_le a b = true → sql_le b c = true → sql_le a c = true.
Proof.
  destruct a as [|m|s], b as [|n|t], c as [|o|u]; simpl; try done.
  - rewrite !Z.leb_le. lia.
  - apply string_le_trans.
Qed.

Global Instance before_trans : Transitive before.
Proof.
  intros g1 g2 g3. unfold before. intros [?|[? ?]] [?|[? ?]]; [left; lia..|].
  right. split; [lia|]. by eapply sql_le_trans.
Qed.

Global Instance before_total : Total before.
Proof.
  intros g1 g2. unfold before.
  destruct (sql_le_total g1.1 g2.1); destruct (lt_eq_lt_dec g1.2 g2.2) as [[?|?]|?];
    auto with lia.
Qed.



Lemma execute_select_count (name : string) (c : connection) (t : table) :
  working c !! name = Some t →
  execute (SELECT_COUNT name) [] c
  = (Return (Cursor (PyInt (last_insert_rowid c))
               [[INTEGER (Z.of_nat (length (tbl_rows t)))]]), tick c).
Proof. intros Ht. unfold execute. cbn. by rewrite Ht. Qed.

Lemma execute_select_group_count (col name : string) (limit i : nat)
    (c : connection) (t : table) :
  working c !! name = Some t →
  column_index col (tbl_columns t) = Some i →
  execute (SELECT_GROUP_COUNT col name limit) [] c
  = (Return (Cursor (PyInt (last_insert_rowid c))
               ((λ g, [g.1; INTEGER (Z.of_nat g.2)])
                <$> order_by_count_desc_limit limit
                      (group_counts (column_values i (tbl_rows t))))),
     tick c).
Proof. intros Ht Hi. unfold execute. cbn [working tick]. by rewrite Ht, Hi. Qed.

(** A row of a "most common" result as Python receives it. *)
Definition count_tuple (g : sqlval * nat) : pyval :=
  PyTuple [py_of_sql g.1; PyInt (Z.of_nat g.2)].


(** ** The parsing methods *)

(** The keys of a per-token record, in the order the dict is built. *)
Definition token_fields : list string :=
  ["token"; "pos"; "dep"; "head"; "head_pos"; "lemma"; "is_punct"; "is_space"].

(** [record] is a dict with exactly the eight keys, each holding the
    attribute of [token] it is named after. *)
Definition mirrors (doc : spacy.Doc) (token : spacy.Token) (record : pyval) : Prop :=
  ∃ d, record = PyDict d ∧
       dict_keys d = token_fields ∧
       dict_get "token" d = Some (PyStr (spacy.text token)) ∧
       dict_get "pos" d = Some (PyStr (spacy.pos_ token)) ∧
       dict_get "dep" d = Some (PyStr (spacy.dep_ token)) ∧
       dict_get "head" d = Some (PyStr (spacy.text (spacy.head doc token))) ∧
       dict_get "head_pos" d = Some (PyStr (spacy.pos_ (spacy.head doc token))) ∧
       dict_get "lemma" d = Some (PyStr (spacy.lemma_ token)) ∧
       dict_get "is_punct" d = Some (PyBool (spacy.is_punct token)) ∧
       dict_get "is_space" d = Some (PyBool (spacy.is_space token)).

(** C2.  Whenever the spaCy model returns a doc for the text,
    [parse_with_spacy] returns a result whose 'dependencies' list has one
    record per token of the doc, in order, and each record has exactly the
    keys token, pos, dep, head, head_pos, lemma, is_punct and is_space with
    the values of the token's attributes text, pos_, dep_, head.text,
    head.pos_, lemma_, is_punct and is_space. *)
Theorem parse_with_spacy_mirrors (self : DependencyParser) (text : string)
    (model : string → outcome spacy.Doc) (doc : spacy.Doc) :
  nlp self = Some model →
  model text = Return doc →
  ∃ records sentences entities,
    parse_with_spacy self text
    = Return [ ("model", PyStr "spaCy"); ("dependencies", PyList records);
               ("sentences", sentences); ("entities", entities) ] ∧
    Forall2 (mirrors doc) (spacy.tokens doc) records.
Proof.
  intros Hnlp Hdoc. unfold parse_with_spacy. rewrite Hnlp, Hdoc.
  eexists _, _, _. split; [reflexivity|].
  apply Forall2_fmap_r, Forall_Forall2_diag, Forall_forall. intros token _.
  eexists. split; [reflexivity|]. by repeat split.
Qed.


(** How a parser comes to have no transformer pipeline while spaCy is
    loaded: the transformers library is missing, or loading the pipeline
    raises. *)
Lemma load_models_without_pipeline
    (spacy_load : string → outcome (string → outcome spacy.Doc))
    (available : bool)
    (pipeline : string → string → string → outcome (string → outcome pyval))
    (model : string → outcome spacy.Doc) :
  spacy_load "en_core_web_sm" = Return model →
  available = false ∨
  (∃ e, pipeline "token-classification"
                 "dbmdz/bert-large-cased-finetuned-conll03-english" "simple" = Raise e) →
  load_models spacy_load available pipeline = Return (Some model, None).
Proof.
  intros Hload Hwhy. unfold load_models. rewrite Hload.
  destruct Hwhy as [->|[e He]]; [done|]. rewrite He. by destruct available.
Qed.

(** Without the spaCy model [load_models] returns early: neither is loaded. *)
Lemma load_models_without_spacy
    (spacy_load : string → outcome (string → outcome spacy.Doc))
    (available : bool)
    (pipeline : string → string → string → outcome (string → outcome pyval))
    (message : string) :
  spacy_load "en_core_web_sm" = Raise (Exn OSError message) →
  load_models spacy_load available pipeline = Return (None, None).
Proof. intros Hload. unfold load_models. by rewrite Hload. Qed.

(** A result dict of [parse_with_transformers]. *)
Definition transformer_result (d : pydict) : Prop :=
  dict_keys d = ["model"; "results"; "confidence"] ∧
  dict_get "model" d = Some (PyStr "Transformers").

Definition error_dict (d : pydict) : Prop := ∃ message, d = [("error", PyStr message)].

(** C8, as the code has it.  [parse_with_transformers] always returns, and
    what it returns is a result dict or an error dict: the error dict when no
    pipeline is loaded and when the pipeline call or the averaging raises.
    [parse_with_spacy] returns the error dict when no model is loaded and a
    result dict whenever the model call returns. *)
Theorem parse_error_dicts (np_mean : list pyval → outcome pyval)
    (self : DependencyParser) (text : string) :
  (∃ d, parse_with_transformers np_mean self text = Return d ∧
        (transformer_result d ∨ error_dict d)) ∧
  (transformer_parser self = None →
   parse_with_transformers np_mean self text
   = Return [("error", PyStr "Transformer model not loaded")]) ∧
  (∀ pipe e, transformer_parser self = Some pipe → pipe text = Raise e →
     parse_with_transformers np_mean self text
     = Return [("error", PyStr ("Transformer parsing failed: " +:+ exn_str e))]) ∧
  (nlp self = None →
   parse_with_spacy self text = Return [("error", PyStr "spaCy model not loaded")]) ∧
  (∀ model doc, nlp self = Some model → model text = Return doc →
     ∃ d, parse_with_spacy self text = Return d ∧
          dict_keys d = ["model"; "dependencies"; "sentences"; "entities"] ∧
          dict_get "model" d = Some (PyStr "spaCy")).
Proof.
  split; [|split; [|split; [|split]]].
  - unfold parse_with_transformers.
    destruct (transformer_parser self) as [pipe|].
    2: { eexists. split; [done|]. right. by eexists. }
    destruct (pipe text) as [results|e]; cbn.
    2: { eexists. split; [done|]. right. by eexists. }
    destruct (py_truthy results).
    + destruct (py_iter results ≫= _) as [scores|e]; cbn.
      2: { eexists. split; [done|]. right. by eexists. }
      destruct (np_mean scores) as [confidence|e]; cbn.
      * eexists. split; [done|]. by left.
      * eexists. split; [done|]. right. by eexists.
    + cbn. eexists. split; [done|]. by left.
  - intros Hnone. unfold parse_with_transformers. by rewrite Hnone.
  - intros pipe e Hpipe Hraise. unfold parse_with_transformers.
    by rewrite Hpipe, Hraise.
  - intros Hnone. unfold parse_with_spacy. by rewrite Hnone.
  - intros model doc Hnlp Hdoc. unfold parse_with_spacy. rewrite Hnlp, Hdoc.
    eexists. by split.
Qed.

(** ** [create_visualization] *)

(** A record as [create_visualization] reads it: a dict with values under
    'token', 'pos', 'dep' and 'head'. *)
Definition tree_keys : list string := ["token"; "pos"; "dep"; "head"].

Definition tree_record (dep : pyval) : Prop :=
  ∀ k, k ∈ tree_keys → returns (py_getitem dep k).

(** The value a record holds under a key. *)
Definition field (k : string) (dep : pyval) : pyval :=
  match py_getitem dep k with
  | Return v => v
  | Raise _ => PyNone
  end.

Definition node_of (i : nat) (dep : pyval) : pyval :=
  PyDict [ ("id", PyInt (Z.of_nat i));
           ("label", PyStr (py_str (field "token" dep) +:+ newline +:+ "("
                            +:+ py_str (field "pos" dep) +:+ ")"));
           ("pos", field "pos" dep);
           ("dep", field "dep" dep) ].

(** [d]'s token equals [dep]'s head. *)
Definition heads (dep d : pyval) : Prop :=
  py_eq (field "token" d) (field "head" dep) = true.

Global Instance heads_dec (dep d : pyval) : Decision (heads dep d).
Proof. unfold heads. apply _. Defined.

(** The position of the earliest record whose token equals [dep]'s head. *)
Definition first_head (dependencies : list pyval) (dep : pyval) : option nat :=
  fst <$> list_find (heads dep) dependencies.

Definition edge_of (dependencies : list pyval) (i : nat) (dep : pyval) : option pyval :=
  (λ j, PyDict [ ("from", PyInt (Z.of_nat j));
                 ("to", PyInt (Z.of_nat i));
                 ("label", field "dep" dep) ])
  <$> first_head dependencies dep.

Lemma tree_record_field (k : string) (dep : pyval) :
  tree_record dep → k ∈ tree_keys → py_getitem dep k = Return (field k dep).
Proof.
  intros Hdep Hk. destruct (Hdep k Hk) as [v Hv]. unfold field. by rewrite Hv.
Qed.

Lemma head_index_first (j : nat) (dependencies : list pyval) (dep : pyval) :
  Forall tree_record dependencies →
  tree_record dep →
  head_index j dependencies dep
  = Return ((λ i, (j + i)%nat) <$> first_head dependencies dep).
Proof.
  intros Hall Hdep. revert j. unfold first_head.
  induction Hall as [|d rest Hd _ IH]; intros j; [done|].
  cbn [head_index list_find].
  rewrite (tree_record_field "token" d Hd) by by repeat constructor.
  rewrite (tree_record_field "head" dep Hdep) by by repeat constructor.
  cbn [mbind outcome_bind].
  destruct (decide (heads dep d)) as [Hh|Hh].
  - unfold heads in Hh. rewrite Hh. cbn. by rewrite Nat.add_0_r.
  - unfold heads in Hh. apply not_true_is_false in Hh. rewrite Hh, IH.
    destruct (list_find (heads dep) rest) as [[i d']|]; cbn; [|done].
    do 2 f_equal. lia.
Qed.

Lemma build_tree_run (dependencies todo nodes edges : list pyval) (i : nat) :
  Forall tree_record dependencies →
  Forall tree_record todo →
  build_tree dependencies i todo nodes edges
  = Return (nodes ++ imap (λ k dep, node_of (i + k) dep) todo,
            edges ++ omap id (imap (λ k dep, edge_of dependencies (i + k) dep) todo)).
Proof.
  intros Hall Htodo. revert i nodes edges.
  induction Htodo as [|dep todo Hdep _ IH]; intros i nodes edges.
  - cbn. by rewrite !app_nil_r.
  - cbn [build_tree].
    rewrite (tree_record_field "token" dep Hdep) by by repeat constructor.
    rewrite (tree_record_field "pos" dep Hdep) by by repeat constructor.
    rewrite (tree_record_field "dep" dep Hdep) by by repeat constructor.
    cbn [mbind outcome_bind].
    rewrite (head_index_first 0 dependencies dep Hall Hdep).
    rewrite !imap_cons, Nat.add_0_r.
    assert (imap ((λ k d, node_of (i + k) d) ∘ S) todo
            = imap (λ k d, node_of (S i + k) d) todo) as ->.
    { apply imap_ext. intros k d _. cbn. f_equal. lia. }
    assert (imap ((λ k d, edge_of dependencies (i + k) d) ∘ S) todo
            = imap (λ k d, edge_of dependencies (S i + k) d) todo) as ->.
    { apply imap_ext. intros k d _. cbn. f_equal. lia. }
    change (omap id (?x :: ?l))
      with (match x with Some y => y :: omap id l | None => omap id l end).
    unfold edge_of at 1.
    destruct (first_head dependencies dep) as [j|];
      cbn [fmap option_fmap option_map mbind outcome_bind Nat.add];
      rewrite IH, <- !app_assoc; reflexivity.
Qed.

Lemma create_visualization_run (dependencies : list pyval) :
  dependencies ≠ [] →
  Forall tree_record dependencies →
  create_visualization dependencies
  = Return (json_dumps
              (PyDict [ ("nodes", PyList (imap node_of dependencies));
                        ("edges", PyList (omap id (imap (edge_of dependencies)
                                                         dependencies))) ])).
Proof.
  intros Hne Hall. unfold create_visualization.
  rewrite bool_decide_eq_false_2 by done.
  by rewrite (build_tree_run dependencies dependencies [] [] 0 Hall Hall).
Qed.

(** [j] is the earliest position whose record's token equals [dep]'s head. *)
Definition earliest_head (dependencies : list pyval) (dep : pyval) (j : nat) : Prop :=
  ∃ d, dependencies !! j = Some d ∧ heads dep d ∧
       ∀ j' d', dependencies !! j' = Some d' → (j' < j)%nat → ¬ heads dep d'.

Lemma first_head_Some (dependencies : list pyval) (dep : pyval) (j : nat) :
  first_head dependencies dep = Some j ↔ earliest_head dependencies dep j.
Proof.
  unfold first_head, earliest_head. split.
  - destruct (list_find _ _) as [[j' d]|] eqn:Hfind; [|done].
    intros [= ->]. apply list_find_Some in Hfind. by exists d.
  - intros (d & Hd & Hh & Hfirst).
    by rewrite (proj2 (list_find_Some (heads dep) dependencies j d)).
Qed.

Lemma first_head_None (dependencies : list pyval) (dep : pyval) :
  first_head dependencies dep = None ↔ Forall (λ d, ¬ heads dep d) dependencies.
Proof.
  unfold first_head. split.
  - intros Hnone. apply (list_find_None (heads dep)).
    by destruct (list_find (heads dep) dependencies).
  - intros Hall. apply (list_find_None (heads dep)) in Hall. by rewrite Hall.
Qed.

Lemma edge_of_Some (dependencies : list pyval) (i j : nat) (dep : pyval) :
  edge_of dependencies i dep
  = Some (PyDict [ ("from", PyInt (Z.of_nat j)); ("to", PyInt (Z.of_nat i));
                   ("label", field "dep" dep) ])
  ↔ earliest_head dependencies dep j.
Proof.
  rewrite <- first_head_Some. unfold edge_of.
  destruct (first_head dependencies dep) as [j'|]; cbn; [|done].
  split.
  - intros [= Hj]. f_equal. lia.
  - by intros [= ->].
Qed.

Lemma elem_of_edges (dependencies : list pyval) (edge : pyval) :
  edge ∈ omap id (imap (edge_of dependencies) dependencies) ↔
  ∃ i dep, dependencies !! i = Some dep ∧ edge_of dependencies i dep = Some edge.
Proof.
  rewrite list_elem_of_omap. split.
  - intros (o & Ho & Hedge). apply list_elem_of_lookup in Ho as [i Hi].
    apply list_lookup_imap_Some in Hi as (dep & Hdep & ->). by exists i, dep.
  - intros (i & dep & Hdep & Hedge). exists (Some edge). split; [|done].
    apply list_elem_of_lookup. exists i. rewrite list_lookup_imap, Hdep. cbn.
    by rewrite Hedge.
Qed.

(** C10.  For the empty list the message is returned.  For a non-empty list
    of dependency records the result is the JSON text of a dict with one
    node per record, whose id is the record's position, and with the edges
    of the records in order: a record whose head equals the token of some
    record contributes exactly one edge, from the earliest such position to
    its own; a record whose head equals no token contributes none; so both
    ends of every edge are positions of the list. *)
Theorem create_visualization_tree :
  create_visualization [] = Return "No dependencies to visualize" ∧
  ∀ dependencies : list pyval,
    dependencies ≠ [] →
    Forall tree_record dependencies →
    ∃ nodes edges,
      create_visualization dependencies
      = Return (json_dumps (PyDict [("nodes", PyList nodes); ("edges", PyList edges)])) ∧
      length nodes = length dependencies ∧
      (∀ i dep, dependencies !! i = Some dep → nodes !! i = Some (node_of i dep)) ∧
      edges = omap id (imap (edge_of dependencies) dependencies) ∧
      (∀ i j dep,
         edge_of dependencies i dep
         = Some (PyDict [ ("from", PyInt (Z.of_nat j)); ("to", PyInt (Z.of_nat i));
                          ("label", field "dep" dep) ])
         ↔ earliest_head dependencies dep j) ∧
      (∀ i dep, edge_of dependencies i dep = None
                ↔ Forall (λ d, ¬ heads dep d) dependencies) ∧
      (∀ edge, edge ∈ edges →
         ∃ i j label,
           edge = PyDict [ ("from", PyInt (Z.of_nat j)); ("to", PyInt (Z.of_nat i));
                           ("label", label) ] ∧
           (i < length dependencies)%nat ∧ (j < length dependencies)%nat).
Proof.
  split; [done|]. intros dependencies Hne Hall.
  eexists _, _. split; [by apply create_visualization_run|].
  split; [by rewrite length_imap|].
  split; [intros i dep Hdep; by rewrite list_lookup_imap, Hdep|].
  split; [done|].
  split; [intros; apply edge_of_Some|].
  split.
  - intros i dep. rewrite <- first_head_None. unfold edge_of.
    by destruct (first_head dependencies dep).
  - intros edge Hedge. apply elem_of_edges in Hedge as (i & dep & Hdep & Hedge).
    unfold edge_of in Hedge.
    destruct (first_head dependencies dep) as [j|] eqn:Hj; [|done].
    injection Hedge as <-. exists i, j, (field "dep" dep). split; [done|].
    apply first_head_Some in Hj as (d & Hd & _).
    split; by eapply lookup_lt_Some.
Qed.

(** C6, as the code has it.  What [main] shows as the dependency tree is the
    HTML [displacy.render] returns for the doc, unchanged, and nothing else
    is ever shown as a tree; the module's own [create_visualization] does
    build a graph, one node per record. *)
Theorem visualization_sources (displacy_render : spacy.Doc → outcome string)
    (parser : DependencyParser) (last_text : string) :
  (∀ model doc html,
     nlp parser = Some model → model last_text = Return doc →
     displacy_render doc = Return html →
     main_visualization displacy_render parser last_text = components_html html) ∧
  (∀ html,
     main_visualization displacy_render parser last_text = components_html html →
     ∃ model doc, nlp parser = Some model ∧ model last_text = Return doc ∧
                  displacy_render doc = Return html) ∧
  (∀ dependencies : list pyval,
     dependencies ≠ [] → Forall tree_record dependencies →
     ∃ nodes edges,
       create_visualization dependencies
       = Return (json_dumps (PyDict [("nodes", PyList nodes); ("edges", PyList edges)])) ∧
       length nodes = length dependencies).
Proof.
  split; [|split].
  - intros model doc html Hnlp Hdoc Hhtml. unfold main_visualization, call_model.
    rewrite Hnlp, Hdoc. cbn. by rewrite Hhtml.
  - intros html. unfold main_visualization, call_model.
    destruct (nlp parser) as [model|]; [|done].
    destruct (model last_text) as [doc|] eqn:Hdoc; [|done]. cbn.
    destruct (displacy_render doc) as [html'|] eqn:Hhtml; [|done].
    intros [= ->]. by exists model, doc.
  - intros dependencies Hne Hall. eexists _, _.
    split; [by apply create_visualization_run|]. by rewrite length_imap.
Qed.

(** * Concrete runs *)

Definition example_clock : nat → string := λ _, "2024-01-01 00:00:00".

(** The connection of a parser created on an empty database file. *)
Definition example_conn : connection :=
  (init_database (connect ∅ example_clock)).2.

(** Two records as [parse_with_spacy] builds them (the keys that
    [save_to_database] reads). *)
Definition example_records : list pyval :=
  [ PyDict [ ("token", PyStr "The"); ("pos", PyStr "DET"); ("dep", PyStr "det");
             ("head", PyStr "fox"); ("head_pos", PyStr "NOUN") ];
    PyDict [ ("token", PyStr "fox"); ("pos", PyStr "NOUN"); ("dep", PyStr "ROOT");
             ("head", PyStr "fox"); ("head_pos", PyStr "NOUN") ] ].

Definition example_results : pydict :=
  [ ("model", PyStr "spaCy"); ("dependencies", PyList example_records) ].

(** A transformer result: no 'dependencies' key. *)
Definition example_transformer_results : pydict :=
  [ ("model", PyStr "Transformers"); ("results", PyList []); ("confidence", PyInt 0) ].

(** [sample_deps] of [test_create_visualization]. *)
Definition test_dependencies : list pyval :=
  [ PyDict [ ("token", PyStr "The"); ("pos", PyStr "DET"); ("dep", PyStr "det");
             ("head", PyStr "fox") ];
    PyDict [ ("token", PyStr "fox"); ("pos", PyStr "NOUN"); ("dep", PyStr "nsubj");
             ("head", PyStr "jumps") ] ].

Definition example_doc : spacy.Doc :=
  {| spacy.tokens :=
       [ {| spacy.text := "The"; spacy.pos_ := "DET"; spacy.dep_ := "det";
            spacy.head_i := 1; spacy.lemma_ := "the";
            spacy.is_punct := false; spacy.is_space := false |};
         {| spacy.text := "fox"; spacy.pos_ := "NOUN"; spacy.dep_ := "ROOT";
            spacy.head_i := 1; spacy.lemma_ := "fox";
            spacy.is_punct := false; spacy.is_space := false |} ];
     spacy.sents := [ {| spacy.span_text := "The fox"; spacy.label_ := EmptyString |} ];
     spacy.ents := [] |}.

(** A model with a length limit, as spaCy's [nlp.max_length]: longer texts
    make the call raise [ValueError]. *)
Definition limited_model (max_length : nat) : string → outcome spacy.Doc :=
  λ text,
    if (max_length <? String.length text)%nat
    then Raise (Exn ValueError "[E088] Text exceeds maximum length")
    else Return example_doc.

Definition example_parser : DependencyParser :=
  {| nlp := Some (limited_model 10); transformer_parser := None; conn := example_conn |}.

Definition example_np_mean : list pyval → outcome pyval := λ _, Return (PyInt 1).

Definition example_render : spacy.Doc → outcome string := λ _, Return "<html>tree</html>".

Lemma example_conn_initialized : initialized example_conn.
Proof. split; reflexivity. Qed.


Lemma test_dependencies_wf : Forall tree_record test_dependencies.
Proof.
  repeat constructor; intros k Hk; unfold tree_keys in Hk;
    repeat (apply elem_of_cons in Hk as [->|Hk]; [by eexists|]);
    by apply elem_of_nil in Hk.
Qed.


(** C2 on the example parser. *)
Lemma parse_with_spacy_mirrors_witness :
  ∃ records sentences entities,
    parse_with_spacy example_parser "The fox"
    = Return [ ("model", PyStr "spaCy"); ("dependencies", PyList records);
               ("sentences", sentences); ("entities", entities) ] ∧
    Forall2 (mirrors example_doc) (spacy.tokens example_doc) records.
Proof.
  apply (parse_with_spacy_mirrors example_parser "The fox" (limited_model 10) example_doc);
    reflexivity.
Defined.

(** C3: on an empty file [init_database] leaves three tables, not two: the
    third is [sqlite_sequence], which holds the largest id given so far. *)
Lemma init_database_three_tables :
  dom (working example_conn) = {["sentences"; "dependencies"; "sqlite_sequence"]} ∧
  table_rows "sqlite_sequence" (working example_conn) = [[TEXT "sentences"; INTEGER 5]].
Proof.
  split; vm_compute; reflexivity.
Qed.

(** C3 on the example: after [init_database] on an empty file, a save and a
    statistics query, the tables are the same three. *)
Lemma tables_fixed_witness :
  dom (working (get_statistics
                  (save_to_database "The fox" example_results example_conn).2).2)
  = dom (∅ : database) ∪ {["sentences"; "dependencies"]} ∪ {["sqlite_sequence"]}.
Proof.
  destruct (tables_fixed ∅ example_clock
              (get_statistics
                 (save_to_database "The fox" example_results example_conn).2).2)
    as (Hdom & _ & _ & _ & Hsame & _).
  - eapply rtc_l; [left; by eexists _, _|].
    eapply rtc_l; [by right|]. apply rtc_refl.
  - rewrite Hsame. exact Hdom.
Defined.

(** C4: on the example the sentence row and both dependency rows reach the
    database file in one and the same commit. *)
Lemma save_to_database_one_commit :
  let c' := (save_to_database "The fox" example_results example_conn).2 in
  committed c' = working c' :: committed example_conn ∧
  table_rows "sentences" (working c')
  = table_rows "sentences" (durable example_conn)
    ++ [[INTEGER 6; TEXT "The fox"; TEXT "en"; TEXT "2024-01-01 00:00:00"]] ∧
  table_rows "dependencies" (working c')
  = table_rows "dependencies" (durable example_conn)
    ++ [ [INTEGER 1; INTEGER 6; TEXT "The"; TEXT "DET"; TEXT "det"; TEXT "fox";
          TEXT "NOUN"; TEXT "spaCy"; NULL];
         [INTEGER 2; INTEGER 6; TEXT "fox"; TEXT "NOUN"; TEXT "ROOT"; TEXT "fox";
          TEXT "NOUN"; TEXT "spaCy"; NULL] ].
Proof.
  cbv zeta. split; [|split; vm_compute; reflexivity].
  destruct (save_to_database_run "The fox" example_results example_conn
              example_conn_initialized) as (c' & Hrun & _ & Hcm & _).
  rewrite Hrun. cbn [snd]. rewrite Hcm. reflexivity.
Qed.

Lemma writes_committed_together_witness :
  ∃ r c',
    save_to_database "The fox" example_results example_conn = (r, c') ∧
    (returns r ∧ committed c' = working c' :: committed example_conn ∨
     (∃ e, r = Raise e) ∧ committed c' = committed example_conn).
Proof.
  destruct (proj1 writes_committed_together "The fox" example_results example_conn
              example_conn_initialized) as (r & c' & Hrun & _ & Hcommit).
  exists r, c'. split; [exact Hrun|exact Hcommit].
Defined.


(** C6: the module's own function builds two nodes and an edge from the
    records of its test. *)
Lemma create_visualization_constructs_graph :
  create_visualization test_dependencies
  = Return (json_dumps
      (PyDict
         [ ("nodes",
            PyList
              [ PyDict [ ("id", PyInt 0);
                         ("label", PyStr ("The" +:+ newline +:+ "(DET)"));
                         ("pos", PyStr "DET"); ("dep", PyStr "det") ];
                PyDict [ ("id", PyInt 1);
                         ("label", PyStr ("fox" +:+ newline +:+ "(NOUN)"));
                         ("pos", PyStr "NOUN"); ("dep", PyStr "nsubj") ] ]);
           ("edges",
            PyList [ PyDict [ ("from", PyInt 1); ("to", PyInt 0);
                              ("label", PyStr "det") ] ]) ])).
Proof. reflexivity. Qed.

Lemma visualization_sources_witness :
  main_visualization example_render example_parser "The fox"
  = components_html "<html>tree</html>".
Proof.
  apply (proj1 (visualization_sources example_render example_parser "The fox")
           (limited_model 10) example_doc); reflexivity.
Defined.


(** C8: with a model that refuses long texts the call raises. *)
Lemma parse_with_spacy_raises :
  parse_with_spacy example_parser "The quick brown fox jumps over the lazy dog."
  = Raise (Exn ValueError "[E088] Text exceeds maximum length").
Proof. reflexivity. Qed.

Lemma parse_error_dicts_witness :
  ∃ d, parse_with_spacy example_parser "The fox" = Return d ∧
       dict_get "model" d = Some (PyStr "spaCy").
Proof.
  destruct (proj2 (proj2 (proj2 (proj2
              (parse_error_dicts example_np_mean example_parser "The fox"))))
              (limited_model 10) example_doc) as (d & Hrun & _ & Hmodel);
    [reflexivity..|].
  exists d. split; [exact Hrun|exact Hmodel].
Defined.

(** C9: a result with dependency records but no 'model' key.  The sentence
    row is inserted, then [KeyError] leaves the call: no id is returned and
    the row is not committed. *)
Lemma save_to_database_no_model :
  let '(r, c') := save_to_database "The fox" [("dependencies", PyList example_records)]
                    example_conn in
  r = Raise (Exn KeyError "'model'") ∧
  table_rows "sentences" (working c')
  = table_rows "sentences" (working example_conn)
    ++ [[INTEGER 6; TEXT "The fox"; TEXT "en"; TEXT "2024-01-01 00:00:00"]] ∧
  committed c' = committed example_conn.
Proof.
  destruct (save_to_database_run "The fox" [("dependencies", PyList example_records)]
              example_conn example_conn_initialized) as (c' & Hrun & Hw & Hcm & _).
  rewrite Hrun, Hcm, Hw. split; [reflexivity|]. split; [|reflexivity].
  vm_compute. reflexivity.
Qed.

(** C9 on a transformer result. *)
Lemma save_to_database_sentence_only_witness :
  ∃ c', save_to_database "The fox" example_transformer_results example_conn
        = (Return (PyInt 6), c') ∧
        table_rows "dependencies" (working c')
        = table_rows "dependencies" (working example_conn) ∧
        durable c' = working c'.
Proof.
  destruct (save_to_database_sentence_only "The fox" example_transformer_results
              example_conn example_conn_initialized)
    as (r & c' & new & Hrun & _ & Hdeps & _ & _ & Hnone & _).
  destruct (Hnone eq_refl) as (-> & -> & Hdur).
  exists c'. split; [exact Hrun|]. split; [by rewrite Hdeps, app_nil_r|exact Hdur].
Defined.

(** C10 on the records of the repository's test. *)
Lemma create_visualization_tree_witness :
  ∃ nodes edges,
    create_visualization test_dependencies
    = Return (json_dumps (PyDict [("nodes", PyList nodes); ("edges", PyList edges)])) ∧
    length nodes = 2%nat ∧ length edges = 1%nat.
Proof.
  destruct (proj2 create_visualization_tree test_dependencies)
    as (nodes & edges & Hrun & Hlen & _ & -> & _).
  - done.
  - exact test_dependencies_wf.
  - eexists nodes, _. split; [exact Hrun|]. split; [exact Hlen|reflexivity].
Defined.


(** * Further properties of the store *)

(** ** [init_database] on a store that already has the tables *)

(** [sqlite_sequence] after the table [name] has been given ids up to [seq]. *)
Definition sequence_set (name : string) (seq : Z) (s : table) : table :=
  Table (tbl_columns s) (set_sequence name seq (tbl_rows s)) (tbl_seq s).

Lemma stored_sequence (name : string) (t : table) (w : database) :
  name ≠ "sqlite_sequence" →
  has_autoincrement (tbl_columns t) = true →
  stored name t w !! "sqlite_sequence"
  = sequence_set name (tbl_seq t) <$> w !! "sqlite_sequence".
Proof.
  intros Hn Hauto. unfold stored. rewrite Hauto.
  destruct (w !! "sqlite_sequence") as [s|] eqn:Hs.
  - by rewrite lookup_insert_eq.
  - by rewrite lookup_insert_ne, Hs.
Qed.

(** [init_database] on a database file that has the tables already. *)
Lemma init_database_again (file : database) (clk : nat → string) :
  initialized (connect file clk) →
  ∃ c',
    init_database (connect file clk) = (Return (), c') ∧
    table_rows "sentences" (working c')
    = table_rows "sentences" file
      ++ imap (λ k text, [ INTEGER (next_id "sentences" file + Z.of_nat k);
                           TEXT text; TEXT "en"; TEXT (clk (2 + k)%nat) ])
              sample_sentences ∧
    (∀ name, name ≠ "sentences" → name ≠ "sqlite_sequence" →
             working c' !! name = file !! name) ∧
    working c' !! "sqlite_sequence"
    = sequence_set "sentences" (next_id "sentences" file + 4)
      <$> file !! "sqlite_sequence" ∧
    initialized c' ∧
    committed c' = [working c'; file].
Proof.
  intros [Hs Hd]. unfold table_columns in Hs, Hd.
  change (working (connect file clk)) with file in Hs, Hd.
  destruct (file !! "sentences") as [ts|] eqn:Hts; [|done].
  destruct (file !! "dependencies") as [td|] eqn:Htd; [|done].
  injection Hs as Hs. injection Hd as Hd.
  unfold init_database, CREATE_SENTENCES, CREATE_DEPENDENCIES.
  rewrite db_bind_run. cbn [reconnect]. change (durable (connect file clk)) with file.
  change (Connection _ file false 0 _ _) with (connect file clk).
  rewrite db_bind_run, execute_create by done.
  change (working (connect file clk)) with file. rewrite Hts.
  rewrite db_bind_run, execute_create by done.
  change (working (tick (connect file clk))) with file. rewrite Htd.
  rewrite db_bind_run.
  destruct (for_each_insert_sample sample_sentences (tick (tick (connect file clk))) ts
              Hts Hs)
    as (t' & c' & Hrun & Hw & _ & Hc' & Hrows & Hnext & Hseq & Hcm & Htx).
  rewrite Hrun. unfold commit. rewrite Htx by by left.
  eexists. split; [done|]. cbn [working committed]. rewrite Hw, Hcm.
  cbn [sample_sentences].
  change (working (tick (tick (connect file clk)))) with file.
  change (committed (tick (tick (connect file clk)))) with [file].
  split; [|split; [|split; [|split]]].
  - unfold table_rows, next_id. rewrite stored_lookup, Hts by done. cbn [from_option].
    rewrite Hrows. f_equal.
  - intros name Hne Hnq. by apply stored_lookup_ne.
  - rewrite stored_sequence by (done || by rewrite Hc').
    rewrite Hseq by done. rewrite Hnext. unfold next_id. rewrite Hts.
    cbn [from_option length sample_sentences]. do 2 f_equal. lia.
  - unfold initialized, table_columns. cbn [working].
    rewrite stored_lookup, stored_lookup_ne, Htd by done. cbn. by rewrite Hc', Hd.
  - done.
Qed.

(** X1.  [init_database] does not recognise its sample data: on a database
    file that already has the two tables (every start of a parser but the
    first) it creates nothing, returns, and appends the five sample
    sentences once more under new ids (INSERT OR IGNORE finds no conflict,
    [text] being no key), committed in one step; SQLite notes the last of
    the new ids in the file's [sqlite_sequence]; the [dependencies] table
    and all other tables are left as they are. *)
Theorem init_database_repeats_samples (file : database) (clk : nat → string) :
  initialized (connect file clk) →
  ∃ c',
    init_database (connect file clk) = (Return (), c') ∧
    table_rows "sentences" (working c')
    = table_rows "sentences" file
      ++ imap (λ k text, [ INTEGER (next_id "sentences" file + Z.of_nat k);
                           TEXT text; TEXT "en"; TEXT (clk (2 + k)%nat) ])
              sample_sentences ∧
    (∀ name, name ≠ "sentences" → name ≠ "sqlite_sequence" →
             working c' !! name = file !! name) ∧
    working c' !! "sqlite_sequence"
    = sequence_set "sentences" (next_id "sentences" file + 4)
      <$> file !! "sqlite_sequence" ∧
    initialized c' ∧
    committed c' = [working c'; file].
Proof. apply init_database_again. Qed.

(** ** What a call of [save_to_database] leaves behind *)

Lemma saved_sentences (text : string) (results : pydict) (c : connection) (ts : table) :
  working c !! "sentences" = Some ts →
  saved text results c !! "sentences"
  = Some (add_row ts [TEXT text; TEXT "en"; TEXT (clock c (ticks c))]).
Proof.
  intros Hts. unfold saved, get_table. rewrite Hts.
  rewrite dependencies_stored_lookup_ne by done. by apply stored_lookup.
Qed.

Lemma saved_dependencies (text : string) (results : pydict) (c : connection)
    (td : table) :
  working c !! "dependencies" = Some td →
  saved text results c !! "dependencies"
  = Some (add_dependency_rows td
            (save_spec results
               (PyInt (next_rowid (get_table "sentences" (working c))))).1).
Proof.
  intros Htd. unfold saved. unfold get_table at 1. rewrite Htd.
  apply dependencies_stored_lookup. by rewrite stored_lookup_ne.
Qed.

Lemma saved_initialized (text : string) (results : pydict) (c : connection) :
  initialized c →
  table_columns "sentences" (saved text results c) = Some sentences_columns ∧
  table_columns "dependencies" (saved text results c) = Some dependencies_columns ∧
  next_id "sentences" (saved text results c) = next_id "sentences" (working c) + 1.
Proof.
  intros [Hs Hd]. unfold table_columns in Hs, Hd.
  destruct (working c !! "sentences") as [ts|] eqn:Hts; [|done].
  destruct (working c !! "dependencies") as [td|] eqn:Htd; [|done].
  injection Hs as Hs. injection Hd as Hd.
  unfold table_columns, next_id.
  rewrite (saved_sentences text results c ts Hts), (saved_dependencies text results c td Htd).
  rewrite Hts. cbn [fmap option_fmap option_map from_option].
  rewrite add_dependency_rows_columns. split; [by rewrite <- Hs|]. split; [by rewrite Hd|].
  unfold add_row. apply next_rowid_append. by apply sentences_key.
Qed.

(** X2.  Sentence ids are handed out one by one and never twice: a call of
    [save_to_database] that returns gives the store's next id, the call after
    it the one after that, whether or not the first call returned (a call
    that raises has used up its id); and the store stays initialized. *)
Theorem save_to_database_successive_ids (text1 text2 : string) (results1 results2 : pydict)
    (c : connection) :
  initialized c →
  let c1 := (save_to_database text1 results1 c).2 in
  let c2 := (save_to_database text2 results2 c1).2 in
  (∀ id1, (save_to_database text1 results1 c).1 = Return id1 →
          id1 = PyInt (next_id "sentences" (working c))) ∧
  (∀ id2, (save_to_database text2 results2 c1).1 = Return id2 →
          id2 = PyInt (next_id "sentences" (working c) + 1)) ∧
  initialized c1 ∧ initialized c2.
Proof.
  intros Hinit c1 c2.
  destruct (save_to_database_run text1 results1 c Hinit) as (c1' & Hrun1 & Hw1 & _).
  destruct (saved_initialized text1 results1 c Hinit) as (Hs1 & Hd1 & Hn1).
  assert (c1 = c1') as Hc1 by (unfold c1; by rewrite Hrun1).
  assert (initialized c1) as Hinit1.
  { rewrite Hc1. unfold initialized. by rewrite Hw1. }
  destruct (save_to_database_run text2 results2 c1 Hinit1) as (c2' & Hrun2 & Hw2 & _).
  destruct (saved_initialized text2 results2 c1 Hinit1) as (Hs2 & Hd2 & _).
  assert (c2 = c2') as Hc2 by (unfold c2; by rewrite Hrun2).
  split; [|split; [|split]].
  - intros id1 H. rewrite Hrun1 in H. cbn [fst] in H.
    destruct (save_spec results1 _).2; cbn [mbind outcome_bind] in H; congruence.
  - intros id2 H. rewrite Hrun2 in H. cbn [fst] in H.
    rewrite Hc1, Hw1, Hn1 in H.
    destruct (save_spec results2 (PyInt (next_id "sentences" (working c) + 1))).2;
      cbn [mbind outcome_bind] in H; congruence.
  - done.
  - rewrite Hc2. unfold initialized. by rewrite Hw2.
Qed.

Lemma loop_spec_returns (f : pyval → outcome (list sqlval)) (deps : list pyval) :
  returns (loop_spec f deps).2 → length (loop_spec f deps).1 = length deps.
Proof.
  induction deps as [|dep deps IH]; cbn [loop_spec]; [done|].
  destruct (f dep) as [vals|e]; [|by intros [? ?]].
  destruct (loop_spec f deps) as [vs r]. cbn [fst snd] in *.
  intros Hr. cbn. by rewrite IH.
Qed.

(** X3.  There is no rollback.  When a call of [save_to_database] raises, the
    rows it had written stay pending on the connection ([committed] is
    unchanged), and the [commit] of the next call that returns makes them
    durable together with that call's own rows. *)
Theorem failed_save_is_committed_later (text1 text2 : string)
    (results1 results2 : pydict) (c c1 c2 : connection) (e : exn) (id2 : pyval) :
  initialized c →
  save_to_database text1 results1 c = (Raise e, c1) →
  save_to_database text2 results2 c1 = (Return id2, c2) →
  committed c1 = committed c ∧
  durable c2 = working c2 ∧
  table_rows "sentences" (durable c2)
  = table_rows "sentences" (working c)
    ++ [ [ INTEGER (next_id "sentences" (working c)); TEXT text1; TEXT "en";
           TEXT (clock c (ticks c)) ];
         [ INTEGER (next_id "sentences" (working c) + 1); TEXT text2; TEXT "en";
           TEXT (clock c1 (ticks c1)) ] ] ∧
  table_rows "dependencies" (working c1) `prefix_of` table_rows "dependencies" (durable c2).
Proof.
  intros Hinit Hsave1 Hsave2.
  destruct (save_to_database_run text1 results1 c Hinit) as (c1' & Hrun1 & Hw1 & Hcm1 & _).
  destruct (saved_initialized text1 results1 c Hinit) as (Hs1 & Hd1 & Hn1).
  rewrite Hsave1 in Hrun1. injection Hrun1 as Hr1 <-.
  assert (initialized c1) as Hinit1 by (unfold initialized; by rewrite Hw1).
  destruct (save_to_database_run text2 results2 c1 Hinit1) as (c2' & Hrun2 & Hw2 & Hcm2 & _).
  rewrite Hsave2 in Hrun2. injection Hrun2 as Hr2 <-.
  destruct (save_spec results1 _).2 as [[]|e1]; [done|].
  destruct (save_spec results2 _).2 as [[]|e2] eqn:Hspec2; [|done].
  assert (durable c2 = working c2) as Hdur by (unfold durable; by rewrite Hcm2).
  split; [done|]. split; [done|]. rewrite Hdur, Hw2. split.
  - rewrite table_rows_saved_sentences.
    destruct (initialized_get_table _ _ _ (proj1 Hinit1)) as [-> ->].
    rewrite Hw1, table_rows_saved_sentences, Hn1.
    destruct (initialized_get_table _ _ _ (proj1 Hinit)) as [-> ->].
    by rewrite <- app_assoc.
  - rewrite table_rows_saved_dependencies by apply Hinit1.
    by apply prefix_app_r.
Qed.

(** ** Looking a saved sentence up again *)

Lemma filter_none {A} (P : A → Prop) `{∀ x, Decision (P x)} (l : list A) :
  Forall (λ x, ¬ P x) l → filter P l = [].
Proof.
  induction 1 as [|x l Hx _ IH]; [done|]. by rewrite filter_cons_False.
Qed.

Lemma no_row_has_next_id (t : table) (row : list sqlval) :
  key_index t = Some 0%nat →
  row ∈ tbl_rows t → row !! 0%nat ≠ Some (INTEGER (next_rowid t)).
Proof.
  intros Hk Hrow Hcell. apply (next_rowid_fresh t).
  unfold row_ids. rewrite Hk. apply list_elem_of_omap. exists row.
  split; [done|]. by rewrite Hcell.
Qed.

(** X4.  A sentence that was saved is found again under the id the call
    returned: whenever [save_to_database text results] returns an id on an
    initialized store, the lookup of [test_save_to_database] for that id
    yields exactly [text], and the store has exactly one row with that id. *)
Theorem saved_text_round_trip (text : string) (results : pydict)
    (c c' : connection) (sentence_id : pyval) :
  initialized c →
  save_to_database text results c = (Return sentence_id, c') →
  (saved_text sentence_id c').1 = Return (PyStr text) ∧
  ∃ sid, sentence_id = PyInt sid ∧
         filter (λ row, row !! 0%nat = Some (INTEGER sid))
                (table_rows "sentences" (working c'))
         = [[INTEGER sid; TEXT text; TEXT "en"; TEXT (clock c (ticks c))]].
Proof.
  intros Hinit Hsave.
  destruct (save_to_database_run text results c Hinit) as (c1 & Hrun & Hw & _).
  rewrite Hsave in Hrun. injection Hrun as Hr <-.
  destruct (saved_initialized text results c Hinit) as (Hs' & _ & _).
  destruct Hinit as [Hs Hd]. unfold table_columns in Hs.
  destruct (working c !! "sentences") as [ts|] eqn:Hts; [|done].
  injection Hs as Hs. unfold next_id in Hr. rewrite Hts in Hr. cbn [from_option] in Hr.
  assert (sentence_id = PyInt (next_rowid ts)) as ->.
  { destruct (save_spec results _).2; cbn [mbind outcome_bind] in Hr; congruence. }
  assert (table_rows "sentences" (working c')
          = tbl_rows ts ++ [sentence_row (next_rowid ts) text (clock c (ticks c))]) as Hrows.
  { rewrite Hw, table_rows_saved_sentences. unfold get_table. by rewrite Hts. }
  assert (∀ P : list sqlval → Prop, ∀ Hdec : ∀ row, Decision (P row),
            (∀ row, P row ↔ row !! 0%nat = Some (INTEGER (next_rowid ts))) →
            filter P (table_rows "sentences" (working c'))
            = [sentence_row (next_rowid ts) text (clock c (ticks c))]) as Hfilter.
  { intros P Hdec HP. rewrite Hrows, filter_app.
    rewrite (filter_none P (tbl_rows ts)).
    - cbn [app]. by rewrite filter_cons_True by by apply HP.
    - apply Forall_forall. intros row Hrow HProw. apply HP in HProw.
      by eapply (no_row_has_next_id ts row (sentences_key ts Hs)). }
  split.
  - unfold saved_text. rewrite db_bind_run. unfold select_where.
    change (working (tick c')) with (working c').
    unfold table_columns in Hs'. rewrite Hw in *.
    destruct (saved text results c !! "sentences") as [ts'|] eqn:Hts'; [|done].
    injection Hs' as Hs'. rewrite Hs'.
    assert (column_index "text" sentences_columns = Some 1%nat) as -> by done.
    assert (list_find (λ k, col_name k = "id") sentences_columns
            = Some (0%nat, Column "id" INTEGER_affinity false DEFAULT_NULL true)) as ->
      by done.
    unfold bindings. cbn [length bool_decide decide_rel adapt_all sqlite_adapt
                          mbind outcome_bind head default from_option id
                          apply_affinity col_type].
    rewrite bool_decide_eq_true_2 by done.
    cbn [adapt_all sqlite_adapt mbind outcome_bind head default from_option id
         apply_affinity col_type].
    unfold table_rows in Hfilter. rewrite Hts' in Hfilter.
    cbn [from_option] in Hfilter. rewrite Hfilter; [done|].
    intros row. split; [by intros [_ ?]|by intros ?].
  - exists (next_rowid ts). split; [done|]. by apply Hfilter.
Qed.

(** ** Statistics after a save *)

(** The four result rows of [get_statistics] on an initialized store. *)
Definition most_common (i : nat) (limit : nat) (db : database) : list (sqlval * nat) :=
  order_by_count_desc_limit limit
    (group_counts (column_values i (table_rows "dependencies" db))).

Lemma get_statistics_run (c : connection) :
  initialized c →
  get_statistics c
  = (Return [ ("sentence_count",
               PyInt (Z.of_nat (length (table_rows "sentences" (working c)))));
              ("dependency_count",
               PyInt (Z.of_nat (length (table_rows "dependencies" (working c)))));
              ("common_dependencies", PyList (count_tuple <$> most_common 4 10 (working c)));
              ("common_pos_tags", PyList (count_tuple <$> most_common 3 10 (working c))) ],
     tick (tick (tick (tick c)))).
Proof.
  intros [Hs Hd]. unfold table_columns in Hs, Hd. unfold most_common, table_rows.
  destruct (working c !! "sentences") as [ts|] eqn:Hts; [|done].
  destruct (working c !! "dependencies") as [td|] eqn:Htd; [|done].
  injection Hs as Hs. injection Hd as Hd. cbn [from_option].
  unfold get_statistics.
  rewrite db_bind_run, (execute_select_count "sentences" c ts Hts).
  rewrite db_bind_run. unfold db_lift at 1. cbn [fetchone pending_rows py_first fmap list_fmap].
  rewrite db_bind_run, (execute_select_count "dependencies" (tick c) td Htd).
  rewrite db_bind_run. unfold db_lift at 1. cbn [fetchone pending_rows py_first fmap list_fmap].
  rewrite db_bind_run.
  rewrite (execute_select_group_count "dependency_label" "dependencies" 10 4
             (tick (tick c)) td Htd) by by rewrite Hd.
  rewrite db_bind_run.
  rewrite (execute_select_group_count "token_pos" "dependencies" 10 3
             (tick (tick (tick c))) td Htd) by by rewrite Hd.
  unfold fetchall. cbn [pending_rows]. rewrite <- !list_fmap_compose.
  reflexivity.
Qed.

Lemma records_to_save_list (results : pydict) (deps : list pyval) :
  dict_get "dependencies" results = Some (PyList deps) ∨
  dict_get "dependencies" results = None ∧ deps = [] →
  records_to_save results = Return deps.
Proof.
  unfold records_to_save, dict_contains, dict_getitem.
  intros [H|[H ->]]; rewrite H.
  - by rewrite bool_decide_eq_true_2 by by eexists.
  - rewrite bool_decide_eq_false_2; [done|]. by intros [? ?].
Qed.

(** X5.  The counts of [get_statistics] follow the saves: after a call of
    [save_to_database] that returns, [sentence_count] is one more than before
    and [dependency_count] has grown by the number of entries of the
    'dependencies' list (by nothing when there is no such key). *)
Theorem statistics_after_save (text : string) (results : pydict) (deps : list pyval)
    (c c' : connection) (sentence_id : pyval) :
  initialized c →
  dict_get "dependencies" results = Some (PyList deps) ∨
  dict_get "dependencies" results = None ∧ deps = [] →
  save_to_database text results c = (Return sentence_id, c') →
  ∃ stats stats' ns nd,
    (get_statistics c).1 = Return stats ∧
    (get_statistics c').1 = Return stats' ∧
    dict_get "sentence_count" stats = Some (PyInt ns) ∧
    dict_get "dependency_count" stats = Some (PyInt nd) ∧
    dict_get "sentence_count" stats' = Some (PyInt (ns + 1)) ∧
    dict_get "dependency_count" stats' = Some (PyInt (nd + Z.of_nat (length deps))).
Proof.
  intros Hinit Hdeps Hsave.
  destruct (save_to_database_run text results c Hinit) as (c1 & Hrun & Hw & _).
  rewrite Hsave in Hrun. injection Hrun as Hr <-.
  destruct (saved_initialized text results c Hinit) as (Hs' & Hd' & _).
  assert (initialized c') as Hinit' by (unfold initialized; by rewrite Hw).
  rewrite (get_statistics_run c Hinit), (get_statistics_run c' Hinit').
  eexists _, _, _, _.
  split; [done|]. split; [done|]. split; [done|]. split; [done|].
  rewrite Hw, table_rows_saved_sentences.
  rewrite table_rows_saved_dependencies by apply Hinit.
  destruct (initialized_get_table _ _ _ (proj1 Hinit)) as [-> Hnext].
  rewrite Hnext in *. rewrite !length_app, length_imap. cbn [length].
  assert (length (save_spec results (PyInt (next_id "sentences" (working c)))).1
          = length deps) as ->.
  { unfold save_spec in *. rewrite (records_to_save_list results deps Hdeps) in *.
    apply loop_spec_returns.
    destruct (loop_spec _ deps).2 as [[]|e]; [by eexists|done]. }
  split; cbn; do 2 f_equal; lia.
Qed.

(** ** From [parse_with_spacy] to the store and to the tree *)

Definition token_record (doc : spacy.Doc) (token : spacy.Token) : pyval :=
  PyDict [ ("token", PyStr (spacy.text token));
           ("pos", PyStr (spacy.pos_ token));
           ("dep", PyStr (spacy.dep_ token));
           ("head", PyStr (spacy.text (spacy.head doc token)));
           ("head_pos", PyStr (spacy.pos_ (spacy.head doc token)));
           ("lemma", PyStr (spacy.lemma_ token));
           ("is_punct", PyBool (spacy.is_punct token));
           ("is_space", PyBool (spacy.is_space token)) ].

Lemma parse_with_spacy_cases (self : DependencyParser) (text : string) (results : pydict) :
  parse_with_spacy self text = Return results →
  nlp self = None ∧ results = [("error", PyStr "spaCy model not loaded")] ∨
  ∃ model doc sentences entities,
    nlp self = Some model ∧ model text = Return doc ∧
    results = [ ("model", PyStr "spaCy");
                ("dependencies", PyList (token_record doc <$> spacy.tokens doc));
                ("sentences", sentences); ("entities", entities) ].
Proof.
  unfold parse_with_spacy. destruct (nlp self) as [model|]; [|intros [= <-]; by left].
  destruct (model text) as [doc|e] eqn:Hdoc; [|done].
  intros [= <-]. right. by eexists model, doc, _, _.
Qed.

Lemma token_record_saved (doc : spacy.Doc) (token : spacy.Token) :
  dependency_record (token_record doc token).
Proof.
  intros k Hk. unfold saved_keys in Hk.
  repeat (apply elem_of_cons in Hk as [->|Hk]; [by eexists|]).
  by apply elem_of_nil in Hk.
Qed.

Lemma token_record_tree (doc : spacy.Doc) (token : spacy.Token) :
  tree_record (token_record doc token).
Proof.
  intros k Hk. unfold tree_keys in Hk.
  repeat (apply elem_of_cons in Hk as [->|Hk]; [by eexists|]).
  by apply elem_of_nil in Hk.
Qed.

(** [save_to_database] on what [parse_with_spacy] returned. *)
Lemma save_parsed_results (self : DependencyParser) (text : string)
    (results : pydict) (c : connection) :
  initialized c →
  parse_with_spacy self text = Return results →
  let sid := next_id "sentences" (working c) in
  ∃ c',
    save_to_database text results c = (Return (PyInt sid), c') ∧
    durable c' = working c' ∧
    (nlp self = None →
     table_rows "dependencies" (working c') = table_rows "dependencies" (working c)) ∧
    (∀ model doc,
       nlp self = Some model → model text = Return doc →
       table_rows "dependencies" (working c')
       = table_rows "dependencies" (working c)
         ++ imap (λ k token,
                    [ INTEGER (next_id "dependencies" (working c) + Z.of_nat k);
                      INTEGER sid;
                      TEXT (spacy.text token); TEXT (spacy.pos_ token);
                      TEXT (spacy.dep_ token);
                      TEXT (spacy.text (spacy.head doc token));
                      TEXT (spacy.pos_ (spacy.head doc token));
                      TEXT "spaCy"; NULL ]) (spacy.tokens doc)).
Proof.
  intros Hinit Hparse sid.
  destruct (save_to_database_run text results c Hinit) as (c' & Hrun & Hw & Hcm & _).
  destruct (initialized_get_table _ _ _ (proj1 Hinit)) as [_ Hnext].
  fold sid in Hrun, Hcm.
  pose proof (table_rows_saved_dependencies text results c (proj2 Hinit)) as Hrows.
  rewrite Hnext in Hrows. fold sid in Hrows.
  apply parse_with_spacy_cases in Hparse
    as [[Hnone ->]|(model & doc & sentences & entities & Hnlp & Hdoc & ->)].
  - assert (save_spec [("error", PyStr "spaCy model not loaded")] (PyInt sid)
            = ([], Return ())) as Hspec by done.
    rewrite Hspec in Hrun, Hcm, Hrows. cbn [fst snd] in *.
    exists c'. split; [done|]. split; [unfold durable; by rewrite Hcm|].
    split; [intros _; by rewrite Hw, Hrows, app_nil_r|].
    intros model doc Hnlp. by rewrite Hnone in Hnlp.
  - set (results := [("model", PyStr "spaCy"); _; _; _]) in *.
    assert (save_spec results (PyInt sid)
            = (bound_values sid "spaCy" <$> (token_record doc <$> spacy.tokens doc),
               Return ())) as Hspec.
    { unfold save_spec.
      rewrite (records_to_save_list results (token_record doc <$> spacy.tokens doc))
        by by left.
      apply loop_spec_records; [done|].
      apply Forall_fmap, Forall_forall. intros token _. apply token_record_saved. }
    rewrite Hspec in Hrun, Hcm, Hrows. cbn [fst snd] in *.
    exists c'. split; [done|]. split; [unfold durable; by rewrite Hcm|].
    split; [intros Hnone; by rewrite Hnone in Hnlp|].
    intros model' doc' Hnlp' Hdoc'. rewrite Hnlp in Hnlp'. injection Hnlp' as <-.
    rewrite Hdoc in Hdoc'. injection Hdoc' as <-.
    rewrite Hw, Hrows. f_equal. rewrite !imap_fmap. by apply imap_ext.
Qed.

(** X6.  Whatever [parse_with_spacy] returns, [save_to_database] stores
    without raising.  The error dict of a parser without model is stored as a
    sentence with no dependency rows; a parse result is stored with one row
    per token of the doc, in order, holding the token's text, tag and label,
    its head's text and tag and the model name 'spaCy' (the lemma and the
    punctuation and space flags are not stored). *)
Theorem parsed_results_are_saved (self : DependencyParser) (text : string)
    (results : pydict) (c : connection) :
  initialized c →
  parse_with_spacy self text = Return results →
  let sid := next_id "sentences" (working c) in
  ∃ c',
    save_to_database text results c = (Return (PyInt sid), c') ∧
    durable c' = working c' ∧
    (nlp self = None →
     table_rows "dependencies" (working c') = table_rows "dependencies" (working c)) ∧
    (∀ model doc,
       nlp self = Some model → model text = Return doc →
       table_rows "dependencies" (working c')
       = table_rows "dependencies" (working c)
         ++ imap (λ k token,
                    [ INTEGER (next_id "dependencies" (working c) + Z.of_nat k);
                      INTEGER sid;
                      TEXT (spacy.text token); TEXT (spacy.pos_ token);
                      TEXT (spacy.dep_ token);
                      TEXT (spacy.text (spacy.head doc token));
                      TEXT (spacy.pos_ (spacy.head doc token));
                      TEXT "spaCy"; NULL ]) (spacy.tokens doc)).
Proof. apply save_parsed_results. Qed.

Lemma omap_id_all_some {A} (l : list (option A)) :
  Forall is_Some l → length (omap id l) = length l.
Proof.
  induction 1 as [|o l [x ->] _ IH]; [done|]. cbn. by rewrite IH.
Qed.

(** X7.  Drawn from the records [parse_with_spacy] returns, the graph of
    [create_visualization] has an edge into every node: each token's head is
    a token of the same doc, so its text is found among the records, and the
    root, whose head is itself, gets an edge too.  The graph of a non-empty
    parse therefore has as many edges as nodes and is never a tree. *)
Theorem parsed_records_all_get_edges (self : DependencyParser) (text : string)
    (results : pydict) (records : list pyval) :
  parse_with_spacy self text = Return results →
  dict_get "dependencies" results = Some (PyList records) →
  records ≠ [] →
  ∃ nodes edges,
    create_visualization records
    = Return (json_dumps (PyDict [("nodes", PyList nodes); ("edges", PyList edges)])) ∧
    length nodes = length records ∧
    length edges = length records.
Proof.
  intros Hparse Hrecords Hne.
  apply parse_with_spacy_cases in Hparse
    as [[_ ->]|(model & doc & sentences & entities & _ & _ & ->)]; [done|].
  injection Hrecords as <-.
  assert (Forall tree_record (token_record doc <$> spacy.tokens doc)) as Hall.
  { apply Forall_fmap, Forall_forall. intros token _. apply token_record_tree. }
  eexists _, _. split; [by apply create_visualization_run|].
  split; [by rewrite length_imap|].
  rewrite omap_id_all_some; [by rewrite length_imap|].
  apply Forall_lookup. intros i o Hi.
  apply list_lookup_imap_Some in Hi as (record & Hrecord & ->).
  apply list_lookup_fmap_Some in Hrecord as (token & -> & Htoken).
  unfold edge_of.
  destruct (first_head _ _) as [j|] eqn:Hfirst; [by eexists|].
  exfalso. apply first_head_None in Hfirst.
  assert (spacy.head doc token ∈ spacy.tokens doc) as Hhead.
  { unfold spacy.head.
    destruct (spacy.tokens doc !! spacy.head_i token) as [h|] eqn:Hh; cbn.
    - by eapply list_elem_of_lookup_2.
    - by eapply list_elem_of_lookup_2. }
  rewrite Forall_fmap, Forall_forall in Hfirst.
  apply (Hfirst _ Hhead). unfold heads, field. cbn.
  by apply bool_decide_eq_true_2.
Qed.

(** ** When [create_visualization] returns *)

Lemma head_index_reads_head (j : nat) (dependencies : list pyval) (dep : pyval) :
  dependencies ≠ [] →
  returns (head_index j dependencies dep) →
  returns (py_getitem dep "head").
Proof.
  destruct dependencies as [|d rest]; [done|]. intros _. cbn [head_index].
  destruct (py_getitem d "token") as [token|e]; [|by intros [? ?]].
  destruct (py_getitem dep "head") as [head|e]; [by eexists|by intros [? ?]].
Qed.

Lemma build_tree_reads (dependencies todo nodes edges : list pyval) (i : nat) :
  dependencies ≠ [] →
  returns (build_tree dependencies i todo nodes edges) →
  Forall tree_record todo.
Proof.
  intros Hne. revert i nodes edges.
  induction todo as [|dep todo IH]; intros i nodes edges Hrun; [done|].
  cbn [build_tree] in Hrun.
  destruct (py_getitem dep "token") as [token|e] eqn:Htoken; [|by destruct Hrun].
  destruct (py_getitem dep "pos") as [pos|e] eqn:Hpos; [|by destruct Hrun].
  destruct (py_getitem dep "dep") as [label|e] eqn:Hlabel; [|by destruct Hrun].
  cbn [mbind outcome_bind] in Hrun.
  destruct (head_index 0 dependencies dep) as [head_idx|e] eqn:Hhead;
    [|by destruct Hrun].
  cbn [mbind outcome_bind] in Hrun.
  constructor.
  - intros k Hk. unfold tree_keys in Hk.
    apply elem_of_cons in Hk as [->|Hk]; [by eexists|].
    apply elem_of_cons in Hk as [->|Hk]; [by eexists|].
    apply elem_of_cons in Hk as [->|Hk]; [by eexists|].
    apply elem_of_cons in Hk as [->|Hk]; [|by apply elem_of_nil in Hk].
    apply (head_index_reads_head 0 dependencies dep Hne). by eexists.
  - destruct head_idx as [j|]; by eapply IH.
Qed.

(** X8.  On a non-empty list [create_visualization] returns exactly when
    every record can be read under each of 'token', 'pos', 'dep' and 'head':
    one record short of one of the four keys makes the whole call raise,
    wherever it stands in the list, and no other key is ever read. *)
Theorem create_visualization_returns_iff (dependencies : list pyval) :
  dependencies ≠ [] →
  returns (create_visualization dependencies) ↔ Forall tree_record dependencies.
Proof.
  intros Hne. split.
  - unfold create_visualization. rewrite bool_decide_eq_false_2 by done.
    intros Hrun. apply (build_tree_reads dependencies dependencies [] [] 0 Hne).
    destruct (build_tree dependencies 0 dependencies [] []) as [[nodes edges]|e];
      [by eexists|by destruct Hrun].
  - intros Hall. eexists. by apply create_visualization_run.
Qed.

(** ** [DependencyParser()] *)

(** The database file is new, or holds the parser's two tables already. *)
Definition fresh_or_initialized (file : database) : Prop :=
  file !! "sentences" = None ∧ file !! "dependencies" = None ∨
  table_columns "sentences" file = Some sentences_columns ∧
  table_columns "dependencies" file = Some dependencies_columns.

Lemma init_database_returns (file : database) (clk : nat → string) :
  fresh_or_initialized file →
  ∃ c', init_database (connect file clk) = (Return (), c') ∧
        initialized c' ∧ durable c' = working c' ∧
        length (table_rows "sentences" (working c'))
        = (length (table_rows "sentences" file) + 5)%nat ∧
        table_rows "dependencies" (working c') = table_rows "dependencies" file.
Proof.
  intros [[Hs Hd]|Hinit].
  - destruct (init_database_fresh file clk Hs Hd) as (c' & Hrun & Hcm & Hi & Hdeps & Hrows).
    exists c'. split; [done|]. split; [done|].
    split; [unfold durable; by rewrite Hcm|].
    unfold table_rows at 2 4. by rewrite Hs, Hd, Hrows, Hdeps.
  - destruct (init_database_again file clk Hinit)
      as (c' & Hrun & Hrows & Hothers & _ & Hi & Hcm).
    exists c'. split; [done|]. split; [done|].
    split; [unfold durable; by rewrite Hcm|].
    split; [rewrite Hrows, length_app, length_imap; done|].
    unfold table_rows. by rewrite Hothers.
Qed.

(** When [spacy.load] raises nothing but [OSError] and its subclasses, the
    parser is constructed, with the connection [init_database] leaves. *)
Lemma construction_returns
    (spacy_load : string → outcome (string → outcome spacy.Doc))
    (available : bool)
    (pipeline : string → string → string → outcome (string → outcome pyval))
    (file : database) (clk : nat → string) :
  fresh_or_initialized file →
  (∀ e, spacy_load "en_core_web_sm" = Raise e → is_OSError (exn_cls e) = true) →
  ∃ parser,
    __init__ spacy_load available pipeline file clk = Return parser ∧
    init_database (connect file clk) = (Return (), conn parser).
Proof.
  intros Hfile Hload.
  destruct (init_database_returns file clk Hfile) as (c' & Hrun & _).
  unfold __init__, load_models. rewrite Hrun.
  destruct (spacy_load "en_core_web_sm") as [model|e].
  - destruct available; [destruct (pipeline _ _ _)|]; by eexists.
  - rewrite (Hload _ eq_refl). by eexists.
Qed.

(** X9.  Constructing a parser on a new or already initialized database file
    fails only when [spacy.load] raises something that [except OSError] does
    not catch: an exception whose class is neither [OSError] nor one of its
    subclasses.  The parser it returns never has the transformer pipeline
    without the spaCy model, has the pipeline only when the transformers
    library is there, and lacks the spaCy model only after such an
    [OSError]; its store is initialized, all of it committed, with five
    sample sentences more than the file had. *)
Theorem parser_construction
    (spacy_load : string → outcome (string → outcome spacy.Doc))
    (available : bool)
    (pipeline : string → string → string → outcome (string → outcome pyval))
    (file : database) (clk : nat → string) :
  fresh_or_initialized file →
  (returns (__init__ spacy_load available pipeline file clk) ↔
   ∀ e, spacy_load "en_core_web_sm" = Raise e → is_OSError (exn_cls e) = true) ∧
  ∀ parser,
    __init__ spacy_load available pipeline file clk = Return parser →
    (is_Some (transformer_parser parser) → is_Some (nlp parser) ∧ available = true) ∧
    (nlp parser = None →
     ∃ e, spacy_load "en_core_web_sm" = Raise e ∧ is_OSError (exn_cls e) = true) ∧
    initialized (conn parser) ∧
    durable (conn parser) = working (conn parser) ∧
    length (table_rows "sentences" (working (conn parser)))
    = (length (table_rows "sentences" file) + 5)%nat.
Proof.
  intros Hfile.
  destruct (init_database_returns file clk Hfile)
    as (c' & Hrun & Hinit & Hdur & Hlen & _).
  unfold __init__, load_models. rewrite Hrun.
  destruct (spacy_load "en_core_web_sm") as [model|e] eqn:Hload.
  - split; [split; [done|intros _]|].
    + destruct available; [destruct (pipeline _ _ _)|]; by eexists.
    + intros parser Hparser.
      assert (nlp parser = Some model ∧ conn parser = c' ∧
              (is_Some (transformer_parser parser) → available = true))
        as (Hnlp & Hconn & Htr).
      { destruct available; [destruct (pipeline _ _ _)|];
          injection Hparser as <-; cbn; repeat split; try done;
          by intros [? [=]]. }
      rewrite Hnlp, Hconn. repeat split; eauto; try done; apply Hinit.
  - destruct (is_OSError (exn_cls e)) eqn:Hcls.
    + split; [split; [by intros _ e' [= <-]|intros _; by eexists]|].
      intros parser Hparser. injection Hparser as <-. cbn.
      repeat split; eauto; try done; try (by intros [? [=]]); apply Hinit.
    + split; [|done]. split.
      * by intros [parser Hparser].
      * intros Hcatch. specialize (Hcatch _ eq_refl). congruence.
Qed.

(** * The command-line demo *)

Section demo_properties.

Import demo.

(** [m] returns [a] after printing [out], and leaves the connection alone. *)
Definition emits {A} (m : io A) (a : A) (out : list line) : Prop :=
  ∀ w, m w = (Return a, World (stdout w ++ out) (db w)).

Lemma io_bind_run {A B} (m : io A) (f : A → io B) (w : world) :
  (m ≫= f) w = match m w with
               | (Return a, w') => f a w'
               | (Raise e, w') => (Raise e, w')
               end.
Proof. reflexivity. Qed.

Lemma emits_ret {A} (a : A) : emits (mret a) a [].
Proof. intros [out c]. cbn. by rewrite app_nil_r. Qed.

Lemma emits_lift {A} (a : A) : emits (lift (Return a)) a [].
Proof. intros [out c]. cbn. by rewrite app_nil_r. Qed.

Lemma emits_print (l : line) : emits (print l) () [l].
Proof. by intros w. Qed.

Lemma emits_bind {A B} (m : io A) (f : A → io B) (a : A) (b : B) (o1 o2 : list line) :
  emits m a o1 → emits (f a) b o2 → emits (m ≫= f) b (o1 ++ o2).
Proof.
  intros Hm Hf w. rewrite io_bind_run, Hm, Hf. cbn. by rewrite app_assoc.
Qed.

Lemma emits_for {A} (xs : list A) (body : A → io ()) (f : A → list line) :
  (∀ x, x ∈ xs → emits (body x) () (f x)) →
  emits (for_ xs body) () (concat (f <$> xs)).
Proof.
  induction xs as [|x xs IH]; intros Hbody; [apply emits_ret|].
  cbn [for_ fmap list_fmap concat].
  eapply emits_bind; [apply Hbody; by left|].
  apply IH. intros x' Hx'. apply Hbody. by right.
Qed.

(** The lines under a "Most common" header: nothing for an empty result,
    else the header and the first five counts. *)
Definition count_lines (header : line) (groups : list (sqlval * nat)) : list line :=
  match groups with
  | [] => []
  | _ => header :: ((λ g, count_line (py_str (py_of_sql g.1)) (pretty (Z.of_nat g.2)))
                    <$> take 5 groups)
  end.

Lemma show_counts_emits (header : line) (stats : pydict) (key : string)
    (groups : list (sqlval * nat)) :
  dict_get key stats = Some (PyList (count_tuple <$> groups)) →
  emits (show_counts header stats key) () (count_lines header groups).
Proof.
  intros Hkey. unfold show_counts, dict_getitem. rewrite Hkey.
  change (count_lines header groups) with ([] ++ count_lines header groups).
  eapply emits_bind; [apply emits_lift|]. cbn [py_truthy].
  destruct groups as [|g groups]; [apply emits_ret|].
  rewrite bool_decide_eq_false_2 by done. cbn [negb count_lines].
  change (header :: ?l) with ([header] ++ ([] ++ ([] ++ ([] ++ l)))).
  eapply emits_bind; [apply emits_print|].
  eapply emits_bind; [apply emits_lift|].
  eapply emits_bind; [apply emits_lift|]. cbn [py_take py_iter].
  eapply emits_bind; [apply emits_lift|].
  rewrite <- fmap_take.
  set (shown := take 5 (g :: groups)).
  assert ((λ g, count_line (py_str (py_of_sql g.1)) (pretty (Z.of_nat g.2))) <$> shown
          = concat ((λ item, match py_unpack2 item with
                             | Return (name, count) =>
                                 [count_line (py_str name) (py_str count)]
                             | Raise _ => []
                             end) <$> (count_tuple <$> shown))) as ->.
  { induction shown as [|g' shown IH]; [done|]. cbn. by rewrite IH. }
  apply emits_for. intros item Hitem.
  apply list_elem_of_fmap in Hitem as (g' & -> & _). cbn.
  change [?l] with ([] ++ [l]).
  eapply emits_bind; [apply emits_lift|]. apply emits_print.
Qed.

(** A run with [--stats]. *)
Lemma run_stats (np_mean : list pyval → outcome pyval)
    (input : outcome string) (dep_parser : DependencyParser) (args : Namespace)
    (w : world) :
  args.(stats) = true →
  initialized (db w) →
  let store := working (db w) in
  ∃ c',
    run np_mean input dep_parser args w
    = (Return (),
       World (stdout w
              ++ [ statistics_header;
                   total_sentences
                     (pretty (Z.of_nat (length (table_rows "sentences" store))));
                   total_dependencies
                     (pretty (Z.of_nat (length (table_rows "dependencies" store)))) ]
              ++ count_lines common_dependencies_header (most_common 4 10 store)
              ++ count_lines common_pos_tags_header (most_common 3 10 store))
             c') ∧
    working c' = store ∧
    committed c' = committed (db w) ∧
    (∀ i, take 5 (most_common i 10 store) = most_common i 5 store).
Proof.
  intros Hstats Hinit store. unfold run. rewrite Hstats. unfold show_statistics.
  eexists. split; [|split; [|split]].
  - rewrite io_bind_run. cbn [print stdout db].
    rewrite io_bind_run. unfold on_db at 1. cbn [db stdout].
    rewrite (get_statistics_run (db w) Hinit).
    set (stats := [("sentence_count", _); _; _; _]).
    rewrite io_bind_run. cbn [lift].
    assert (dict_getitem stats "sentence_count"
            = Return (PyInt (Z.of_nat (length (table_rows "sentences" store))))) as ->
      by done.
    rewrite io_bind_run. cbn [print stdout db].
    rewrite io_bind_run. cbn [lift].
    assert (dict_getitem stats "dependency_count"
            = Return (PyInt (Z.of_nat (length (table_rows "dependencies" store))))) as ->
      by done.
    rewrite io_bind_run. cbn [print stdout db].
    rewrite io_bind_run.
    rewrite (show_counts_emits common_dependencies_header stats "common_dependencies"
               (most_common 4 10 store)) by done.
    rewrite (show_counts_emits common_pos_tags_header stats "common_pos_tags"
               (most_common 3 10 store)) by done.
    cbn [stdout db py_str py_repr]. rewrite <- !app_assoc. reflexivity.
  - done.
  - done.
  - intros i. unfold most_common, order_by_count_desc_limit.
    by rewrite take_take.
Qed.

(** X10.  [--stats] on an initialized store prints the two totals and, under
    each "Most common" header, the five most frequent values of the ten that
    [get_statistics] returns, in SQLite's order: by descending count and,
    among equal counts, the greater value first (no header for an empty
    result); it returns, reads no text, calls no model and writes nothing,
    whatever the other arguments are. *)
Theorem demo_stats_top_five (np_mean : list pyval → outcome pyval)
    (input : outcome string) (dep_parser : DependencyParser) (args : Namespace)
    (w : world) :
  args.(stats) = true →
  initialized (db w) →
  let store := working (db w) in
  ∃ c',
    run np_mean input dep_parser args w
    = (Return (),
       World (stdout w
              ++ [ statistics_header;
                   total_sentences
                     (pretty (Z.of_nat (length (table_rows "sentences" store))));
                   total_dependencies
                     (pretty (Z.of_nat (length (table_rows "dependencies" store)))) ]
              ++ count_lines common_dependencies_header (most_common 4 10 store)
              ++ count_lines common_pos_tags_header (most_common 3 10 store))
             c') ∧
    working c' = store ∧
    committed c' = committed (db w) ∧
    (∀ i, take 5 (most_common i 10 store) = most_common i 5 store).
Proof. apply run_stats. Qed.

(** ** What a run leaves as it was *)

Section preserved.

Context (R : relation world) `{!PreOrder R}.

(** Whether it returns or raises, [m] ends in a world related to the one it
    started in. *)
Definition preserves {A} (m : io A) : Prop := ∀ w, R w (m w).2.

Lemma preserves_ret {A} (a : A) : preserves (mret a).
Proof. by intros w. Qed.

Lemma preserves_lift {A} (m : outcome A) : preserves (lift m).
Proof. by intros w. Qed.

Lemma preserves_bind {A B} (m : io A) (f : A → io B) :
  preserves m → (∀ a, preserves (f a)) → preserves (m ≫= f).
Proof.
  intros Hm Hf w. rewrite io_bind_run. specialize (Hm w).
  destruct (m w) as [[a|e] w']; [|done]. by etrans; [|apply Hf].
Qed.

Lemma preserves_for {A} (xs : list A) (body : A → io ()) :
  (∀ x, preserves (body x)) → preserves (for_ xs body).
Proof.
  intros Hbody. induction xs as [|x xs IH]; [apply preserves_ret|].
  by apply preserves_bind.
Qed.

End preserved.

(** The store is as it was: nothing written, nothing committed, no
    transaction opened or closed. *)
Definition same_store (w w' : world) : Prop :=
  working (db w') = working (db w) ∧
  committed (db w') = committed (db w) ∧
  in_transaction (db w') = in_transaction (db w).

#[local] Instance same_store_preorder : PreOrder same_store.
Proof.
  split; [done|]. intros w1 w2 w3 (? & ? & ?) (? & ? & ?).
  repeat split; congruence.
Qed.

Lemma print_same_store (l : line) : preserves same_store (print l).
Proof. by intros w. Qed.

(** The same of a connection. *)
Definition untouched (c c' : connection) : Prop :=
  working c' = working c ∧ committed c' = committed c ∧
  in_transaction c' = in_transaction c.

Definition reads {A} (m : db_m A) : Prop := ∀ c, untouched c (m c).2.

Lemma reads_bind {A B} (m : db_m A) (f : A → db_m B) :
  reads m → (∀ a, reads (f a)) → reads (m ≫= f).
Proof.
  intros Hm Hf c. rewrite db_bind_run. specialize (Hm c).
  destruct (m c) as [[a|e] c']; [|done]. cbn [snd] in Hm.
  destruct Hm as (? & ? & ?), (Hf a c') as (? & ? & ?).
  repeat split; congruence.
Qed.

Lemma reads_lift {A} (m : outcome A) : reads (db_lift m).
Proof. by intros c. Qed.

Lemma reads_ret {A} (a : A) : reads (mret a).
Proof. by intros c. Qed.

Lemma execute_select_reads (s : stmt) (params : list pyval) :
  match s with SELECT_COUNT _ | SELECT_GROUP_COUNT _ _ _ => True | _ => False end →
  reads (execute s params).
Proof. destruct s; [done..| |]; intros _ c; unfold execute; by repeat case_match. Qed.

Lemma get_statistics_reads : reads get_statistics.
Proof.
  unfold get_statistics.
  repeat (apply reads_bind;
          [first [by apply execute_select_reads | apply reads_lift]|intros ?]).
  apply reads_ret.
Qed.

Lemma get_statistics_same_store : preserves same_store (on_db get_statistics).
Proof.
  intros [out c]. unfold on_db, same_store. cbn [db].
  pose proof (get_statistics_reads c) as Hreads.
  by destruct (get_statistics c).
Qed.

Lemma show_counts_same_store (header : line) (stats : pydict) (key : string) :
  preserves same_store (show_counts header stats key).
Proof.
  unfold show_counts.
  apply (preserves_bind same_store); [apply (preserves_lift same_store)|]. intros counts.
  destruct (py_truthy counts); [|apply (preserves_ret same_store)].
  apply (preserves_bind same_store); [apply print_same_store|]. intros _.
  apply (preserves_bind same_store); [apply (preserves_lift same_store)|]. intros counts'.
  apply (preserves_bind same_store); [apply (preserves_lift same_store)|]. intros top.
  apply (preserves_bind same_store); [apply (preserves_lift same_store)|]. intros items.
  apply (preserves_for same_store). intros item.
  apply (preserves_bind same_store); [apply (preserves_lift same_store)|]. intros [name count].
  apply print_same_store.
Qed.

Lemma show_result_same_store (result : pydict) : preserves same_store (show_result result).
Proof.
  unfold show_result.
  repeat first
    [ apply print_same_store
    | apply (preserves_lift same_store)
    | apply (preserves_ret same_store)
    | apply (preserves_for same_store); intros ?
    | apply (preserves_bind same_store); [|intros ?]
    | match goal with
      | |- preserves _ (if ?b then _ else _) => destruct b
      | |- preserves _ (let '(_, _) := ?p in _) => destruct p
      | |- preserves _ (match ?p with (_, _) => _ end) => destruct p
      end ].
Qed.

Lemma parse_same_store (np_mean : list pyval → outcome pyval)
    (dep_parser : DependencyParser) (args : Namespace) (text : string) :
  preserves same_store (parse np_mean dep_parser args text).
Proof.
  unfold parse.
  apply (preserves_bind same_store).
  - destruct args.(model);
      repeat first
        [ apply print_same_store
        | apply (preserves_lift same_store)
        | apply (preserves_ret same_store)
        | apply (preserves_bind same_store); [|intros ?]
        | match goal with
          | |- preserves _ (if ?b then _ else _) => destruct b
          end ].
  - intros results. destruct args.(model);
      repeat first
        [ apply print_same_store
        | apply (preserves_lift same_store)
        | apply (preserves_ret same_store)
        | apply (preserves_bind same_store); [|intros ?]
        | match goal with
          | |- preserves _ (if ?b then _ else _) => destruct b
          end ].
Qed.

(** X12.  Without [--save], and always with [--stats], a run of the demo
    leaves the parser's store as the construction of the parser left it:
    whatever the text, the models and the input do, and whether the run
    returns or raises, nothing is written, nothing committed and no
    transaction opened. *)
Theorem demo_writes_only_to_save (np_mean : list pyval → outcome pyval)
    (input : outcome string) (dep_parser : DependencyParser) (args : Namespace)
    (w : world) :
  args.(save) = false ∨ args.(stats) = true →
  let w' := (run np_mean input dep_parser args w).2 in
  working (db w') = working (db w) ∧
  committed (db w') = committed (db w) ∧
  in_transaction (db w') = in_transaction (db w).
Proof.
  intros Hargs. revert w. change (preserves same_store (run np_mean input dep_parser args)).
  unfold run. destruct args.(stats) eqn:Hstats.
  - unfold show_statistics.
    apply (preserves_bind same_store); [apply print_same_store|]. intros _.
    apply (preserves_bind same_store); [apply get_statistics_same_store|]. intros stats.
    apply (preserves_bind same_store); [apply (preserves_lift same_store)|]. intros n.
    apply (preserves_bind same_store); [apply print_same_store|]. intros _.
    apply (preserves_bind same_store); [apply (preserves_lift same_store)|]. intros n'.
    apply (preserves_bind same_store); [apply print_same_store|]. intros _.
    apply (preserves_bind same_store); apply show_counts_same_store || intros _.
    apply show_counts_same_store.
  - destruct Hargs as [Hsave|?]; [|done]. rewrite Hsave.
    apply (preserves_bind same_store).
    { destruct args.(text) as [text|]; [destruct (py_truthy _)|];
        [apply (preserves_ret same_store)| |];
        (apply (preserves_bind same_store); [apply print_same_store|intros _; apply (preserves_lift same_store)]). }
    intros text. destruct (negb (py_truthy _)); [apply print_same_store|].
    apply (preserves_bind same_store); [apply print_same_store|]. intros _.
    apply (preserves_bind same_store); [apply print_same_store|]. intros _.
    apply (preserves_bind same_store); [apply parse_same_store|]. intros results.
    destruct (negb _); [|apply print_same_store].
    apply (preserves_bind same_store); [apply print_same_store|]. intros _.
    apply (preserves_bind same_store); [apply print_same_store|]. intros _.
    apply (preserves_bind same_store); [|intros _; apply (preserves_ret same_store)].
    apply (preserves_for same_store). intros [name result].
    apply (preserves_bind same_store); [apply print_same_store|]. intros _.
    apply (preserves_bind same_store); [apply print_same_store|]. intros _.
    apply show_result_same_store.
Qed.

(** ** Text that counts as none *)

(** Every character of the text is white space. *)
Definition blank (s : string) : Prop :=
  Forall (λ c, isspace c = true) (String.list_ascii_of_string s).

Lemma lstrip_empty (s : string) : lstrip s = EmptyString ↔ blank s.
Proof.
  unfold blank. induction s as [|c s IH]; cbn [lstrip String.list_ascii_of_string].
  - split; [constructor|done].
  - destruct (isspace c) eqn:Hc.
    + rewrite IH. split; [by constructor|by inversion 1].
    + split; [done|]. inversion 1; congruence.
Qed.

Lemma lstrip_head (s : string) :
  lstrip s = EmptyString ∨ ∃ c r, lstrip s = String c r ∧ isspace c = false.
Proof.
  induction s as [|c s IH]; cbn [lstrip]; [by left|].
  destruct (isspace c) eqn:Hc; [done|]. right. by eexists _, _.
Qed.

Lemma strip_empty (s : string) : strip s = EmptyString ↔ blank s.
Proof.
  rewrite <- lstrip_empty. unfold strip.
  destruct (lstrip_head s) as [->|(c & r & -> & Hc)]; [done|].
  cbn [rstrip]. by rewrite Hc.
Qed.

Lemma strip_truthy (s : string) : py_truthy (PyStr (strip s)) = false ↔ blank s.
Proof.
  rewrite <- strip_empty. cbn [py_truthy].
  rewrite negb_false_iff, bool_decide_eq_true. done.
Qed.

(** The text [main] goes on with and the prompt it prints for it: the
    argument, or without one (or with an empty one) what [input()] returns. *)
Definition entered (args : Namespace) (input : outcome string) (text : string)
    (asked : list line) : Prop :=
  args.(demo.text) = Some text ∧ text ≠ EmptyString ∧ asked = [] ∨
  (args.(demo.text) = None ∨ args.(demo.text) = Some EmptyString) ∧
  input = Return text ∧ asked = [prompt].

Lemma run_entered (np_mean : list pyval → outcome pyval) (input : outcome string)
    (dep_parser : DependencyParser) (args : Namespace) (text : string)
    (asked : list line) (w : world) :
  args.(stats) = false →
  entered args input text asked →
  run np_mean input dep_parser args w
  = (if negb (py_truthy (PyStr (strip text))) then print no_text_provided
     else
       _ ← print (parsing text);
       _ ← print (model_line (model_name args.(model)));
       results ← parse np_mean dep_parser args text;
       if negb (bool_decide (results = [])) then
         _ ← print results_header;
         _ ← print (rule "=" 60);
         _ ← for_ results (λ '(name, result),
               _ ← print (model_header name);
               _ ← print (rule "-" 40);
               show_result result);
         if args.(save) then
           _ ← print saving;
           for_ results (λ '(name, result),
             sentence_id ← on_db (save_to_database text result);
             print (saved_line name (py_str sentence_id)))
         else mret ()
       else print no_results) (World (stdout w ++ asked) (db w)).
Proof.
  intros Hstats Hentered. unfold run. rewrite Hstats. rewrite io_bind_run.
  destruct Hentered as [(-> & Hne & ->)|(Htext & -> & ->)].
  - cbn [py_truthy]. rewrite bool_decide_eq_false_2 by done. cbn [negb mret io_ret].
    rewrite app_nil_r. by destruct w.
  - by destruct Htext as [-> | ->].
Qed.

(** The message "No text provided" has not been printed. *)
Definition text_provided (w w' : world) : Prop :=
  no_text_provided ∉ stdout w → no_text_provided ∉ stdout w'.

#[local] Instance text_provided_preorder : PreOrder text_provided.
Proof.
  split; [intros w H; exact H|]. intros w1 w2 w3 H12 H23 H. apply H23, H12, H.
Qed.

Lemma print_text_provided (l : line) :
  l ≠ no_text_provided → preserves text_provided (print l).
Proof.
  intros Hl w Hw. cbn. rewrite elem_of_app, list_elem_of_singleton.
  intros [?|?]; [done|]. by apply Hl.
Qed.

Lemma on_db_text_provided {A} (m : db_m A) : preserves text_provided (on_db m).
Proof. intros w. unfold on_db. destruct (m (db w)). intros H. exact H. Qed.

Ltac text_provided :=
  repeat first
    [ apply print_text_provided; discriminate
    | apply on_db_text_provided
    | apply (preserves_lift text_provided)
    | apply (preserves_ret text_provided)
    | apply (preserves_for text_provided); intros ?
    | apply (preserves_bind text_provided); [|intros ?]
    | match goal with
      | |- preserves _ (if ?b then _ else _) => destruct b
      | |- preserves _ (match ?p with (_, _) => _ end) => destruct p
      | |- preserves _ (match ?m with model_spacy => _ | _ => _ end) => destruct m
      end ].

(** X11.  Text of white space only counts as no text.  When [--stats] is not
    given, the demo goes on with the [text] argument, or without one (or with
    an empty one) with what [input()] returns after the prompt; it prints
    "No text provided" exactly when every character of that text is white
    space, and then does nothing else: no model is called and the store is
    left alone. *)
Theorem demo_no_text_provided (np_mean : list pyval → outcome pyval)
    (input : outcome string) (dep_parser : DependencyParser) (args : Namespace)
    (text : string) (asked : list line) (w : world) :
  args.(stats) = false →
  entered args input text asked →
  no_text_provided ∉ stdout w →
  let r := run np_mean input dep_parser args w in
  (no_text_provided ∈ stdout r.2 ↔ blank text) ∧
  (blank text → r = (Return (), World (stdout w ++ asked ++ [no_text_provided]) (db w))).
Proof.
  intros Hstats Hentered Hw. cbv zeta.
  rewrite (run_entered np_mean input dep_parser args text asked w Hstats Hentered).
  assert (no_text_provided ∉ stdout w ++ asked) as Hw'.
  { rewrite elem_of_app. intros [?|Hasked]; [done|].
    destruct Hentered as [(_ & _ & ->)|(_ & _ & ->)]; [by apply elem_of_nil in Hasked|].
    by apply list_elem_of_singleton in Hasked. }
  destruct (py_truthy (PyStr (strip text))) eqn:Hblank; cbn [negb].
  - assert (¬ blank text) as Hnot.
    { rewrite <- strip_truthy. congruence. }
    split; [|done]. split; [|done]. intros Hin. exfalso. revert Hin.
    set (w0 := World _ _).
    change (no_text_provided ∉ stdout w0) in Hw'. revert Hw'.
    generalize w0. clear.
    change (preserves text_provided
              (_ ← print (parsing text);
               _ ← print (model_line (model_name args.(model)));
               results ← parse np_mean dep_parser args text;
               if negb (bool_decide (results = [])) then
                 _ ← print results_header;
                 _ ← print (rule "=" 60);
                 _ ← for_ results (λ '(name, result),
                       _ ← print (model_header name);
                       _ ← print (rule "-" 40);
                       show_result result);
                 if args.(save) then
                   _ ← print saving;
                   for_ results (λ '(name, result),
                     sentence_id ← on_db (save_to_database text result);
                     print (saved_line name (py_str sentence_id)))
                 else mret ()
               else print no_results)).
    unfold parse, show_result. text_provided.
  - apply strip_truthy in Hblank. unfold print. cbn [stdout db snd].
    rewrite <- app_assoc. split; [|done]. split; [done|]. intros _.
    rewrite !elem_of_app, list_elem_of_singleton. auto.
Qed.

(** ** A run that saves *)

(** [m] returns [a] after printing something, and leaves the connection
    alone. *)
Definition prints {A} (m : io A) (a : A) : Prop :=
  ∀ w, ∃ out, m w = (Return a, World (stdout w ++ out) (db w)).

Lemma emits_prints {A} (m : io A) (a : A) (out : list line) : emits m a out → prints m a.
Proof. intros Hm w. by exists out. Qed.

Lemma prints_bind {A B} (m : io A) (f : A → io B) (a : A) (b : B) :
  prints m a → prints (f a) b → prints (m ≫= f) b.
Proof.
  intros Hm Hf w. rewrite io_bind_run.
  destruct (Hm w) as [o1 ->]. destruct (Hf (World (stdout w ++ o1) (db w))) as [o2 ->].
  exists (o1 ++ o2). cbn. by rewrite app_assoc.
Qed.

Lemma prints_for {A} (xs : list A) (body : A → io ()) :
  (∀ x, x ∈ xs → prints (body x) ()) → prints (for_ xs body) ().
Proof.
  induction xs as [|x xs IH]; intros Hbody.
  - eapply emits_prints, emits_ret.
  - cbn [for_]. eapply prints_bind; [apply Hbody; by left|].
    apply IH. intros x' Hx'. apply Hbody. by right.
Qed.

Lemma prints_step {A B} (m : io A) (f : A → io B) (a : A) (w : world) :
  prints m a → ∃ out, (m ≫= f) w = f a (World (stdout w ++ out) (db w)).
Proof. intros Hm. rewrite io_bind_run. destruct (Hm w) as [out ->]. by exists out. Qed.

Ltac prints_step H :=
  match goal with
  | |- context [@mbind io _ _ _ ?f ?m ?w] =>
      let out := fresh "out" in
      destruct (prints_step m f _ w H) as [out ->]
  end.

Lemma prints_print (l : line) : prints (print l) ().
Proof. eapply emits_prints, emits_print. Qed.

(** What [parse_with_spacy] returns for a doc. *)
Definition spacy_results (doc : spacy.Doc) : pydict :=
  [ ("model", PyStr "spaCy");
    ("dependencies", PyList (token_record doc <$> spacy.tokens doc));
    ("sentences", PyList ((λ sent, PyStr (spacy.span_text sent)) <$> spacy.sents doc));
    ("entities", PyList ((λ ent, PyTuple [PyStr (spacy.span_text ent);
                                          PyStr (spacy.label_ ent)])
                         <$> spacy.ents doc)) ].

Lemma parse_with_spacy_doc (self : DependencyParser) (text : string)
    (model : string → outcome spacy.Doc) (doc : spacy.Doc) :
  nlp self = Some model → model text = Return doc →
  parse_with_spacy self text = Return (spacy_results doc).
Proof. intros Hnlp Hdoc. unfold parse_with_spacy. by rewrite Hnlp, Hdoc. Qed.

Lemma show_result_spacy (doc : spacy.Doc) : prints (show_result (spacy_results doc)) ().
Proof.
  unfold show_result.
  assert (dict_contains "dependencies" (spacy_results doc) = true) as -> by done.
  assert (dict_contains "entities" (spacy_results doc) = true) as -> by done.
  eapply prints_bind; [apply prints_print|].
  eapply prints_bind; [apply prints_print|].
  eapply prints_bind; [eapply emits_prints, (emits_lift (PyList _))|].
  eapply prints_bind; [eapply emits_prints, (emits_lift (token_record doc <$> _))|].
  eapply prints_bind.
  { apply prints_for. intros dep Hdep.
    apply list_elem_of_fmap in Hdep as (token & -> & _).
    intros w. eexists. reflexivity. }
  eapply prints_bind.
  { eapply prints_bind; [eapply emits_prints, (emits_lift (PyList _))|].
    eapply emits_prints, emits_ret. }
  destruct (py_truthy _); [|eapply emits_prints, emits_ret].
  eapply prints_bind; [apply prints_print|].
  eapply prints_bind; [eapply emits_prints, (emits_lift (PyList _))|].
  eapply prints_bind; [eapply emits_prints, (emits_lift (_ <$> spacy.ents doc))|].
  apply prints_for. intros item Hitem.
  apply list_elem_of_fmap in Hitem as (ent' & -> & _).
  intros w. eexists. reflexivity.
Qed.

(** A result of [parse_with_transformers] whose pipeline returned a list. *)
Definition transformer_results (items : list pyval) (confidence : pyval) : pydict :=
  [ ("model", PyStr "Transformers"); ("results", PyList items);
    ("confidence", confidence) ].

Lemma show_result_transformers (items : list pyval) (confidence : pyval) :
  prints (show_result (transformer_results items confidence)) ().
Proof.
  unfold show_result.
  assert (dict_contains "dependencies" (transformer_results items confidence) = false)
    as -> by done.
  assert (dict_contains "results" (transformer_results items confidence) = true)
    as -> by done.
  eapply prints_bind; [apply prints_print|].
  eapply prints_bind; [eapply emits_prints, (emits_lift (PyList items))|].
  eapply prints_bind; [eapply emits_prints, (emits_lift items)|].
  apply prints_for. intros item _. apply prints_print.
Qed.

(** A call of [save_to_database] whose loop binds the rows [rows] and
    returns. *)
Lemma save_returns (text : string) (results : pydict) (rows : list (list sqlval))
    (c : connection) :
  initialized c →
  let sid := next_id "sentences" (working c) in
  save_spec results (PyInt sid) = (rows, Return ()) →
  ∃ c',
    save_to_database text results c = (Return (PyInt sid), c') ∧
    initialized c' ∧
    durable c' = working c' ∧
    next_id "sentences" (working c') = sid + 1 ∧
    table_rows "sentences" (working c')
    = table_rows "sentences" (working c)
      ++ [[INTEGER sid; TEXT text; TEXT "en"; TEXT (clock c (ticks c))]] ∧
    table_rows "dependencies" (working c')
    = table_rows "dependencies" (working c)
      ++ imap (λ k vals, dependency_row (next_id "dependencies" (working c) + Z.of_nat k)
                                        vals) rows.
Proof.
  intros Hinit sid Hspec.
  destruct (save_to_database_run text results c Hinit) as (c' & Hrun & Hw & Hcm & _).
  destruct (saved_initialized text results c Hinit) as (Hs & Hd & Hn).
  destruct (initialized_get_table _ _ _ (proj1 Hinit)) as [Hrows Hnext].
  fold sid in Hrun, Hcm. rewrite Hspec in Hrun, Hcm. cbn [fst snd] in *.
  exists c'. split; [done|]. unfold initialized, durable. rewrite Hcm, Hw.
  split; [done|]. split; [done|]. split; [done|].
  split.
  - by rewrite table_rows_saved_sentences, Hrows, Hnext.
  - rewrite table_rows_saved_dependencies by apply Hinit.
    rewrite Hnext. fold sid. by rewrite Hspec.
Qed.

Lemma save_spec_spacy (doc : spacy.Doc) (sid : Z) :
  save_spec (spacy_results doc) (PyInt sid)
  = (bound_values sid "spaCy" <$> (token_record doc <$> spacy.tokens doc), Return ()).
Proof.
  unfold save_spec.
  rewrite (records_to_save_list (spacy_results doc) (token_record doc <$> spacy.tokens doc))
    by by left.
  apply loop_spec_records; [done|].
  apply Forall_fmap, Forall_forall. intros token _. apply token_record_saved.
Qed.

Lemma save_spec_no_dependencies (results : pydict) (sid : pyval) :
  dict_get "dependencies" results = None →
  save_spec results sid = ([], Return ()).
Proof.
  intros Hnone. unfold save_spec.
  by rewrite (records_to_save_list results []) by by right.
Qed.

(** X13.  [--model both --save] stores the text twice.  When the spaCy model
    returns a doc and the pipeline a list of results, the run returns and has
    added two rows to [sentences], both with the text, under two successive
    ids; the dependency rows, one for each token, all carry the first id, and
    the second row stands for the transformer result, of which nothing else
    is stored.  All of it is committed, and the last lines printed name the
    two ids. *)
Theorem demo_both_saves_twice (np_mean : list pyval → outcome pyval)
    (input : outcome string) (dep_parser : DependencyParser) (args : Namespace)
    (text : string) (asked : list line)
    (model : string → outcome spacy.Doc) (doc : spacy.Doc)
    (items : list pyval) (confidence : pyval) (w : world) :
  args.(stats) = false →
  args.(save) = true →
  args.(demo.model) = model_both →
  entered args input text asked →
  ¬ blank text →
  nlp dep_parser = Some model →
  model text = Return doc →
  parse_with_transformers np_mean dep_parser text
  = Return (transformer_results items confidence) →
  initialized (db w) →
  let sid := next_id "sentences" (working (db w)) in
  ∃ out c' created created',
    run np_mean input dep_parser args w
    = (Return (),
       World (stdout w ++ out
              ++ [ saving; saved_line "spaCy" (pretty sid);
                   saved_line "Transformers" (pretty (sid + 1)) ]) c') ∧
    table_rows "sentences" (working c')
    = table_rows "sentences" (working (db w))
      ++ [ [INTEGER sid; TEXT text; TEXT "en"; TEXT created];
           [INTEGER (sid + 1); TEXT text; TEXT "en"; TEXT created'] ] ∧
    table_rows "dependencies" (working c')
    = table_rows "dependencies" (working (db w))
      ++ imap (λ k token,
                 [ INTEGER (next_id "dependencies" (working (db w)) + Z.of_nat k);
                   INTEGER sid;
                   TEXT (spacy.text token); TEXT (spacy.pos_ token);
                   TEXT (spacy.dep_ token);
                   TEXT (spacy.text (spacy.head doc token));
                   TEXT (spacy.pos_ (spacy.head doc token));
                   TEXT "spaCy"; NULL ]) (spacy.tokens doc) ∧
    durable c' = working c'.
Proof.
  intros Hstats Hsave Hmodel Hentered Hblank Hnlp Hdoc Htr Hinit sid.
  rewrite (run_entered np_mean input dep_parser args text asked w Hstats Hentered).
  assert (py_truthy (PyStr (strip text)) = true) as ->.
  { apply not_false_is_true. by rewrite strip_truthy. }
  cbn [negb]. rewrite Hsave.
  set (results := [("spaCy", spacy_results doc);
                   ("Transformers", transformer_results items confidence)]).
  assert (prints (parse np_mean dep_parser args text) results) as Hparse.
  { unfold parse. rewrite Hmodel, (parse_with_spacy_doc _ _ _ _ Hnlp Hdoc), Htr.
    eapply prints_bind.
    { eapply prints_bind; [apply prints_print|].
      eapply prints_bind; [eapply emits_prints, (emits_lift (spacy_results doc))|].
      assert (dict_contains "error" (spacy_results doc) = false) as -> by done.
      cbn [negb].
      eapply prints_bind; [apply prints_print|]. eapply emits_prints, emits_ret. }
    eapply prints_bind; [apply prints_print|].
    eapply prints_bind;
      [eapply emits_prints, (emits_lift (transformer_results items confidence))|].
    assert (dict_contains "error" (transformer_results items confidence) = false)
      as -> by done.
    cbn [negb].
    eapply prints_bind; [apply prints_print|]. eapply emits_prints, emits_ret. }
  set (w0 := World (stdout w ++ asked) (db w)).
  prints_step (prints_print (parsing text)).
  prints_step (prints_print (model_line (model_name args.(demo.model)))).
  prints_step Hparse.
  cbn [stdout db w0]. rewrite bool_decide_eq_false_2 by done. cbn [negb].
  prints_step (prints_print results_header).
  prints_step (prints_print (rule "=" 60)).
  cbn [stdout db].
  assert (prints (for_ results (λ '(name, result),
                    _ ← print (model_header name);
                    _ ← print (rule "-" 40);
                    show_result result)) ()) as Hshow.
  { apply prints_for. intros [name result] Hin.
    eapply prints_bind; [apply prints_print|].
    eapply prints_bind; [apply prints_print|].
    unfold results in Hin.
    apply elem_of_cons in Hin as [[= -> ->]|Hin]; [apply show_result_spacy|].
    apply list_elem_of_singleton in Hin as [= -> ->]. apply show_result_transformers. }
  prints_step Hshow.
  cbn [stdout db].
  rewrite io_bind_run. unfold print at 1. cbn [stdout db].
  unfold results. cbn [for_].
  destruct (save_returns text (spacy_results doc) _ (db w) Hinit (save_spec_spacy doc _))
    as (c1 & Hrun1 & Hinit1 & _ & Hn1 & Hs1 & Hd1).
  rewrite io_bind_run, io_bind_run. unfold on_db at 1. cbn [db stdout]. rewrite Hrun1.
  unfold print at 1. cbn [stdout db].
  destruct (save_returns text (transformer_results items confidence) [] c1 Hinit1
              (save_spec_no_dependencies (transformer_results items confidence) _ eq_refl))
    as (c2 & Hrun2 & _ & Hdur2 & _ & Hs2 & Hd2).
  rewrite io_bind_run, io_bind_run. unfold on_db at 1. cbn [db stdout]. rewrite Hrun2.
  unfold print at 1. cbn [stdout db mret io_ret py_str py_repr].
  exists (asked ++ out ++ out0 ++ out1 ++ out2 ++ out3 ++ out4), c2. eexists _, _.
  split; [|split; [|split]].
  - rewrite Hn1. fold sid. do 2 f_equal. rewrite <- !app_assoc. reflexivity.
  - rewrite Hs2, Hs1, Hn1, <- app_assoc. reflexivity.
  - rewrite Hd2, Hd1. cbn [imap]. rewrite app_nil_r. f_equal.
    rewrite !imap_fmap. by apply imap_ext.
  - done.
Qed.

End demo_properties.

(** * The two front ends *)

Section front_ends.

Import demo.

(** The choice of the page that a [--model] of the demo stands for. *)
Definition choice_of (m : choices) : model_choice :=
  match m with
  | model_spacy => choice_spaCy
  | model_transformers => choice_Transformers
  | model_both => choice_Both
  end.

Lemma io_bind_returns {A B} (m : io A) (f : A → io B) (w w' : world) (b : B) :
  (m ≫= f) w = (Return b, w') →
  ∃ a w1, m w = (Return a, w1) ∧ f a w1 = (Return b, w').
Proof.
  rewrite io_bind_run. destruct (m w) as [[a|e] w1]; [|done]. by exists a, w1.
Qed.

(** The connection is the very same. *)
Definition same_db (w w' : world) : Prop := db w' = db w.

#[local] Instance same_db_preorder : PreOrder same_db.
Proof. split; [done|]. intros w1 w2 w3 H12 H23. unfold same_db in *. congruence. Qed.

Lemma print_same_db (l : line) : preserves same_db (print l).
Proof. by intros w. Qed.

Ltac same_db :=
  repeat first
    [ apply print_same_db
    | apply (preserves_lift same_db)
    | apply (preserves_ret same_db)
    | apply (preserves_for same_db); intros ?
    | apply (preserves_bind same_db); [|intros ?]
    | match goal with
      | |- preserves _ (if ?b then _ else _) => destruct b
      | |- preserves _ (match ?p with (_, _) => _ end) => destruct p
      | |- preserves _ (match ?m with model_spacy => _ | _ => _ end) => destruct m
      end ].

(** What [parse] of the demo collects is what the page collects when the
    transformers library is there. *)
Lemma parse_collects (np_mean : list pyval → outcome pyval)
    (dep_parser : DependencyParser) (args : Namespace) (text : string) (w : world) :
  ∃ w',
    parse np_mean dep_parser args text w
    = (main_parse_results true np_mean dep_parser (choice_of args.(model)) text, w') ∧
    db w' = db w.
Proof.
  unfold parse, main_parse_results, dict_contains, dict_getitem.
  destruct args.(model); cbn [choice_of andb];
    try destruct (parse_with_spacy dep_parser text) as [spacy_results|?];
    try destruct (parse_with_transformers np_mean dep_parser text)
      as [transformer_results|?];
    repeat (rewrite io_bind_run; cbn [print lift mret io_ret stdout db]);
    cbn [mbind outcome_bind];
    try (destruct (dict_get "error" spacy_results);
         [rewrite bool_decide_eq_true_2 by by eexists
         |rewrite bool_decide_eq_false_2 by by intros [? ?]]);
    cbn [negb];
    repeat (rewrite io_bind_run; cbn [print lift mret io_ret stdout db]);
    try (destruct (dict_get "error" transformer_results);
         [rewrite !bool_decide_eq_true_2 by by eexists
         |rewrite !bool_decide_eq_false_2 by by intros [? ?]]);
    cbn [negb];
    repeat (rewrite io_bind_run; cbn [print lift mret io_ret stdout db]);
    eexists; split; reflexivity.
Qed.

(** Without the library the pipeline is not loaded, and the page collects
    what it would with it. *)
Lemma main_parse_results_available (available : bool)
    (np_mean : list pyval → outcome pyval) (parser : DependencyParser)
    (choice : model_choice) (text : string) :
  (is_Some (transformer_parser parser) → available = true) →
  main_parse_results available np_mean parser choice text
  = main_parse_results true np_mean parser choice text.
Proof.
  intros Hloaded. destruct available; [done|].
  assert (transformer_parser parser = None) as Hnone.
  { destruct (transformer_parser parser); [|done]. by discriminate Hloaded. }
  unfold main_parse_results, parse_with_transformers. rewrite Hnone.
  destruct choice; cbn [andb mbind outcome_bind negb]; try done.
Qed.

Lemma save_loops_agree (text : string) (results : list (string * pydict)) (w : world) :
  ∃ out,
    for_ results (λ '(name, result),
      sentence_id ← on_db (save_to_database text result);
      print (saved_line name (py_str sentence_id))) w
    = let '(saved, c') :=
        for_each results (λ '(_, result),
          _ ← save_to_database text result; mret ()) (db w) in
      (saved, World (stdout w ++ out) c').
Proof.
  revert w. induction results as [|[name result] results IH]; intros w.
  - exists []. cbn. rewrite app_nil_r. by destruct w.
  - cbn [for_]. rewrite for_each_cons, !io_bind_run, !db_bind_run.
    unfold on_db at 1.
    destruct (save_to_database text result (db w)) as [[sentence_id|e] c1].
    + cbn [print stdout db mret db_ret].
      destruct (IH (World (stdout w ++ [saved_line name (py_str sentence_id)]) c1))
        as [out ->]. cbn [db stdout].
      destruct (for_each results _ c1) as [saved c'].
      eexists. by rewrite <- app_assoc.
    + exists []. by rewrite app_nil_r.
Qed.

(** X14.  The page and the demo store alike.  For a parser as its
    construction leaves it (no pipeline without the transformers library), a
    run of the demo with [--save] that returns leaves the connection exactly
    as the "Parse Text" block of the page does for the same text and model
    choice with saving on, and the block returns too: although the page asks
    [TRANSFORMERS_AVAILABLE] before it calls the pipeline and the demo does
    not, and the demo prints the results before it saves them. *)
Theorem front_ends_store_alike (available : bool) (np_mean : list pyval → outcome pyval)
    (input : outcome string) (dep_parser : DependencyParser) (args : Namespace)
    (text : string) (asked : list line) (state : session_state) (w w' : world) :
  (is_Some (transformer_parser dep_parser) → available = true) →
  args.(stats) = false →
  args.(save) = true →
  entered args input text asked →
  run np_mean input dep_parser args w = (Return (), w') →
  ∃ note state',
    main_parse_text available np_mean dep_parser (choice_of args.(model)) true text
                    state (db w)
    = (Return note, state', db w').
Proof.
  intros Hloaded Hstats Hsave Hentered.
  rewrite (run_entered np_mean input dep_parser args text asked w Hstats Hentered).
  unfold main_parse_text.
  rewrite (main_parse_results_available available np_mean dep_parser _ text Hloaded).
  destruct (py_truthy (PyStr (strip text))); cbn [negb].
  2: { intros [= <-]. by eexists _, _. }
  intros Hrun.
  apply io_bind_returns in Hrun as ([] & w1 & [= <-] & Hrun).
  apply io_bind_returns in Hrun as ([] & w2 & [= <-] & Hrun).
  apply io_bind_returns in Hrun as (results & w3 & Hparse & Hrun).
  destruct (parse_collects np_mean dep_parser args text
              (World ((stdout w ++ asked) ++ [parsing text]
                      ++ [model_line (model_name args.(model))]) (db w)))
    as (w3' & Hcollect & Hdb).
  cbn [stdout db] in Hparse. rewrite <- app_assoc in Hparse.
  rewrite Hcollect in Hparse. injection Hparse as -> <-. cbn [db] in Hdb.
  destruct (bool_decide (results = [])); cbn [negb] in *.
  { injection Hrun as <-. rewrite Hdb. by eexists _, _. }
  apply io_bind_returns in Hrun as ([] & w4 & [= <-] & Hrun).
  apply io_bind_returns in Hrun as ([] & w5 & [= <-] & Hrun).
  apply io_bind_returns in Hrun as ([] & w6 & Hshow & Hrun).
  assert (db w6 = db w) as Hdb6.
  { rewrite <- Hdb.
    assert (preserves same_db
              (for_ results (λ '(name, result),
                 _ ← print (model_header name);
                 _ ← print (rule "-" 40);
                 show_result result))) as Hsame
      by (unfold show_result; same_db).
    match type of Hshow with _ ?w5 = _ => specialize (Hsame w5) end.
    rewrite Hshow in Hsame. exact Hsame. }
  rewrite Hsave in Hrun.
  apply io_bind_returns in Hrun as ([] & w7 & [= <-] & Hrun).
  destruct (save_loops_agree text results (World (stdout w6 ++ [saving]) (db w6)))
    as [out Hloop].
  rewrite Hloop in Hrun. cbn [db] in Hrun. rewrite Hdb6 in Hrun.
  destruct (for_each results _ (db w)) as [saved c'].
  injection Hrun as -> <-. by eexists _, _.
Qed.

End front_ends.

(** * A whole run of the demo *)

Section whole_run.

Import demo.

(** X15.  Asking for the statistics changes them.  [main] constructs a
    parser before it looks at its arguments, and the construction adds the
    five sample sentences to whatever the database file holds: on a new or
    already initialized file, when [spacy.load] raises nothing but [OSError]
    (or a subclass of it), a run with [--stats] returns, reports five sentences more than the file
    had and the file's number of dependencies, and leaves these five rows
    committed. *)
Theorem demo_stats_counts_the_samples
    (spacy_load : string → outcome (string → outcome spacy.Doc))
    (available : bool)
    (pipeline : string → string → string → outcome (string → outcome pyval))
    (np_mean : list pyval → outcome pyval) (input : outcome string)
    (file : database) (clk : nat → string) (args : Namespace) :
  args.(stats) = true →
  fresh_or_initialized file →
  (∀ e, spacy_load "en_core_web_sm" = Raise e → is_OSError (exn_cls e) = true) →
  ∃ out c,
    main spacy_load available pipeline np_mean input file clk args
    = (Return (),
       [ initializing; statistics_header;
         total_sentences
           (pretty (Z.of_nat (length (table_rows "sentences" file) + 5)));
         total_dependencies
           (pretty (Z.of_nat (length (table_rows "dependencies" file)))) ] ++ out,
       Some c) ∧
    durable c = working c ∧
    length (table_rows "sentences" (durable c))
    = (length (table_rows "sentences" file) + 5)%nat.
Proof.
  intros Hstats Hfile Hload.
  destruct (construction_returns spacy_load available pipeline file clk Hfile Hload)
    as (dep_parser & Hparser & Hconn).
  destruct (init_database_returns file clk Hfile)
    as (c' & Hrun & Hinit & Hdur & Hlen & Hdeps).
  rewrite Hrun in Hconn. injection Hconn as ->.
  unfold main. rewrite Hparser.
  destruct (run_stats np_mean input dep_parser args
              (World [initializing] (conn dep_parser)) Hstats Hinit)
    as (c2 & -> & Hw & Hcm & _).
  cbn [stdout db] in *. rewrite Hlen, Hdeps.
  eexists _, c2. split; [reflexivity|].
  unfold durable in *. rewrite Hcm, Hw. split; [done|by rewrite Hdur].
Qed.

End whole_run.

(** * [setup.py] *)

Section setup_properties.

Import setup.

Variable version_info : Z * Z.
Variable shell : string → process.
Variable makedirs : string → outcome ().

Lemma too_old_spec (v : Z * Z) : too_old v = true ↔ v.1 < 3 ∨ v.1 = 3 ∧ v.2 < 8.
Proof. unfold too_old. destruct v as [major minor]. cbn [fst snd]. lia. Qed.

Ltac in_events :=
  repeat match goal with
         | H : _ ∈ _ ++ _ |- _ => apply elem_of_app in H as [H|H]
         | H : _ ∈ _ :: _ |- _ => apply elem_of_cons in H as [H|H]
         | H : _ ∈ [] |- _ => apply elem_of_nil in H; destruct H
         end.

Ltac setup_cases :=
  repeat split; intros;
  repeat match goal with
         | H : _ ∧ _ |- _ => destruct H
         | H : returns _ |- _ => destruct H
         end;
  in_events; simplify_eq; repeat split;
  try done; try (by eexists);
  try (by left); try (by right; left; eexists); try (by right; right; eexists);
  try (rewrite ?elem_of_app, ?elem_of_cons; by auto 10).

(** X16.  [main] of the setup script stops at the first step that fails.  It
    returns exactly when the interpreter is at least Python 3.8, both shell
    commands complete and both directories can be made; it never leaves with
    an exit status other than 1, and leaves with it exactly when the
    interpreter is older or a command fails with [CalledProcessError] (every
    other exception leaves [main] as it is); the model is downloaded only
    after the requirements were installed, and a directory is made only after
    both. *)
Theorem setup_stops_at_first_failure :
  let pip := "pip install -r requirements.txt" in
  let download := "python -m spacy download en_core_web_sm" in
  let events := (main version_info shell makedirs).1 in
  let ending := (main version_info shell makedirs).2 in
  (ending = returned ↔
   ¬ (version_info.1 < 3 ∨ version_info.1 = 3 ∧ version_info.2 < 8) ∧
   shell pip = CompletedProcess ∧ shell download = CompletedProcess ∧
   returns (makedirs "tests") ∧ returns (makedirs "data")) ∧
  (∀ code, ending = sys_exit code →
     code = 1 ∧
     ((version_info.1 < 3 ∨ version_info.1 = 3 ∧ version_info.2 < 8) ∨
      (∃ stderr, shell pip = CalledProcessError stderr) ∨
      (∃ stderr, shell download = CalledProcessError stderr))) ∧
  (subprocess_run download ∈ events → shell pip = CompletedProcess) ∧
  (∀ name, os_makedirs name ∈ events →
     shell pip = CompletedProcess ∧ shell download = CompletedProcess) ∧
  (print_complete ∈ events ↔ ending = returned).
Proof.
  cbv zeta. unfold main, run_command.
  pose proof (too_old_spec version_info) as Hold.
  destruct (too_old version_info).
  { assert (version_info.1 < 3 ∨ version_info.1 = 3 ∧ version_info.2 < 8) as Hv
      by by apply Hold.
    cbn [fst snd]. setup_cases. }
  assert (¬ (version_info.1 < 3 ∨ version_info.1 = 3 ∧ version_info.2 < 8)) as Hv.
  { intros Hv. by apply Hold in Hv. }
  clear Hold.
  destruct (shell "pip install -r requirements.txt") as [|stderr|e] eqn:Hpip;
    cbn [fst snd]; [|setup_cases..].
  destruct (shell "python -m spacy download en_core_web_sm") as [|stderr|e] eqn:Hdl;
    cbn [fst snd]; [|setup_cases..].
  destruct (makedirs "tests") as [[]|e] eqn:Htests; cbn [fst snd]; [|setup_cases].
  destruct (makedirs "data") as [[]|e] eqn:Hdata; cbn [fst snd]; setup_cases.
Qed.

End setup_properties.

(** * The "Parse Text" block of the page *)

(** [parse_with_transformers] always returns, and never a dict with a
    'dependencies' key. *)
Lemma parse_with_transformers_returns (np_mean : list pyval → outcome pyval)
    (self : DependencyParser) (text : string) :
  ∃ d, parse_with_transformers np_mean self text = Return d ∧
       dict_get "dependencies" d = None.
Proof.
  unfold parse_with_transformers.
  destruct (transformer_parser self) as [pipe|]; [|by eexists].
  destruct (pipe text) as [results|e]; cbn; [|by eexists].
  destruct (py_truthy results); [|by eexists].
  destruct (py_iter results ≫= _) as [scores|e]; cbn; [|by eexists].
  destruct (np_mean scores) as [confidence|e]; cbn; by eexists.
Qed.

(** A result that [save_to_database] stores without raising, under any id. *)
Definition storable (result : pydict) : Prop :=
  ∀ sid, ∃ rows, save_spec result (PyInt sid) = (rows, Return ()).

Lemma main_parse_results_cases (available : bool) (np_mean : list pyval → outcome pyval)
    (parser : DependencyParser) (choice : model_choice) (text : string) :
  match main_parse_results available np_mean parser choice text with
  | Return results => Forall (λ named, storable named.2) results
  | Raise e =>
      choice ≠ choice_Transformers ∧
      ∃ model, nlp parser = Some model ∧ model text = Raise e
  end.
Proof.
  assert (∀ results : list (string * pydict),
            Forall (λ named, storable named.2) results →
            match (if match choice with
                      | choice_Transformers | choice_Both => true
                      | choice_spaCy => false
                      end && available
                   then
                     transformer_results ← parse_with_transformers np_mean parser text;
                     Return (if negb (dict_contains "error" transformer_results)
                             then results ++ [("Transformers", transformer_results)]
                             else results)
                   else Return results) with
            | Return results => Forall (λ named, storable named.2) results
            | Raise e => False
            end) as Hsecond.
  { intros results Hresults. destruct (_ && _); [|done].
    destruct (parse_with_transformers_returns np_mean parser text) as (d & -> & Hd).
    cbn. destruct (negb _); [|done].
    apply Forall_app. split; [done|]. constructor; [|done].
    intros sid. exists []. by apply save_spec_no_dependencies. }
  unfold main_parse_results.
  assert (storable [("error", PyStr "spaCy model not loaded")]) as Herror.
  { intros sid. by exists []. }
  assert (∀ results : list (string * pydict),
            Forall (λ named, storable named.2) results →
            match (if match choice with
                      | choice_Transformers | choice_Both => true
                      | choice_spaCy => false
                      end && available
                   then
                     transformer_results ← parse_with_transformers np_mean parser text;
                     Return (if negb (dict_contains "error" transformer_results)
                             then results ++ [("Transformers", transformer_results)]
                             else results)
                   else Return results) with
            | Return results => Forall (λ named, storable named.2) results
            | Raise e =>
                choice ≠ choice_Transformers ∧
                ∃ model, nlp parser = Some model ∧ model text = Raise e
            end) as Hthen.
  { intros results Hresults. specialize (Hsecond results Hresults).
    by destruct (if _ && _ then _ else _). }
  clear Hsecond.
  destruct choice; unfold parse_with_spacy.
  - destruct (nlp parser) as [model|]; cbn [mbind outcome_bind];
      [|apply Hthen; by constructor].
    destruct (model text) as [doc|e] eqn:Hdoc; cbn [mbind outcome_bind].
    + apply Hthen. constructor; [|done]. intros sid. eexists. apply save_spec_spacy.
    + split; [done|]. by exists model.
  - cbn [mbind outcome_bind]. by apply Hthen.
  - destruct (nlp parser) as [model|]; cbn [mbind outcome_bind];
      [|apply Hthen; by constructor].
    destruct (model text) as [doc|e] eqn:Hdoc; cbn [mbind outcome_bind].
    + apply Hthen. constructor; [|done]. intros sid. eexists. apply save_spec_spacy.
    + split; [done|]. by exists model.
Qed.

Lemma for_each_save_returns (text : string) (results : list (string * pydict))
    (c : connection) :
  initialized c →
  Forall (λ named, storable named.2) results →
  ∃ c',
    for_each results (λ '(_, result), _ ← save_to_database text result; mret ()) c
    = (Return (), c') ∧
    initialized c' ∧
    length (table_rows "sentences" (working c'))
    = (length (table_rows "sentences" (working c)) + length results)%nat.
Proof.
  intros Hinit Hresults. revert c Hinit.
  induction Hresults as [|[name result] results Hresult _ IH]; intros c Hinit.
  - exists c. cbn. split; [done|]. split; [done|]. lia.
  - destruct (Hresult (next_id "sentences" (working c))) as [rows Hrows].
    destruct (save_returns text result rows c Hinit Hrows)
      as (c1 & Hrun & Hinit1 & _ & _ & Hs & _).
    destruct (IH c1 Hinit1) as (c' & Hloop & Hinit' & Hlen).
    exists c'. rewrite for_each_cons, !db_bind_run, Hrun. cbn [mret db_ret].
    split; [done|]. split; [done|].
    rewrite Hlen, Hs, length_app. cbn [length]. lia.
Qed.

(** X17.  On an initialized store the "Parse Text" block can fail in one
    place only: the call of the spaCy model.  [parse_with_transformers]
    catches what the pipeline raises, and whatever the two parse methods
    return is stored without an exception; so when the block raises, it is
    the exception of the spaCy model on this text, spaCy was among the chosen
    models, and neither the session state nor the store has changed.  When it
    returns with saving on, it has stored one sentence for each model that
    gave a result. *)
Theorem parse_text_fails_only_in_spacy (available : bool)
    (np_mean : list pyval → outcome pyval) (parser : DependencyParser)
    (choice : model_choice) (save_to_db : bool) (text : string)
    (state : session_state) (c : connection) :
  initialized c →
  let '(r, state', c') :=
    main_parse_text available np_mean parser choice save_to_db text state c in
  match r with
  | Raise e =>
      choice ≠ choice_Transformers ∧
      (∃ model, nlp parser = Some model ∧ model text = Raise e) ∧
      state' = state ∧ c' = c
  | Return note =>
      initialized c' ∧
      length (table_rows "sentences" (working c'))
      = (length (table_rows "sentences" (working c))
         + match note, last_results state' with
           | Some results_saved, Some results => length results
           | _, _ => 0
           end)%nat
  end.
Proof.
  intros Hinit. unfold main_parse_text.
  destruct (py_truthy (PyStr (strip text))).
  2: { split; [done|]. lia. }
  pose proof (main_parse_results_cases available np_mean parser choice text) as Hcases.
  destruct (main_parse_results available np_mean parser choice text) as [results|e].
  2: { by destruct Hcases. }
  destruct (bool_decide (results = [])); cbn [negb].
  { split; [done|]. lia. }
  destruct save_to_db.
  2: { split; [done|]. lia. }
  destruct (for_each_save_returns text results c Hinit Hcases) as (c' & -> & Hinit' & Hlen).
  cbn. by split.
Qed.

(** * The further properties on the examples *)

(** The records of [test_create_visualization] as a parse result: they lack
    'head_pos'. *)
Definition test_results : pydict :=
  [("model", PyStr "spaCy"); ("dependencies", PyList test_dependencies)].

(** A parser with both models; the pipeline finds nothing. *)
Definition example_full_parser : DependencyParser :=
  {| nlp := Some (limited_model 10);
     transformer_parser := Some (λ _, Return (PyList []));
     conn := example_conn |}.

(** [spacy.load] without the model installed. *)
Definition example_spacy_load : string → outcome (string → outcome spacy.Doc) :=
  λ _, Raise (Exn OSError "[E050] Can't find model 'en_core_web_sm'").

Definition example_pipeline
    : string → string → string → outcome (string → outcome pyval) :=
  λ _ _ _, Return (λ _, Return (PyList [])).

Definition example_args (model : demo.choices) (save stats : bool) : demo.Namespace :=
  {| demo.text := Some "The fox"; demo.model := model;
     demo.save := save; demo.stats := stats |}.

Definition example_world : demo.world := demo.World [demo.initializing] example_conn.

Definition example_state : session_state := {| last_results := None; last_text := None |}.

(** X1 on the example: a second parser on the file of the first leaves ten
    sentences, and [sqlite_sequence] at 10. *)
Lemma init_database_repeats_samples_witness :
  ∃ c', init_database (connect (durable example_conn) example_clock) = (Return (), c') ∧
        length (table_rows "sentences" (working c')) = 10%nat ∧
        table_rows "sqlite_sequence" (working c') = [[TEXT "sentences"; INTEGER 10]].
Proof.
  destruct (init_database_repeats_samples (durable example_conn) example_clock)
    as (c' & Hrun & Hrows & _ & Hseq & _).
  - split; reflexivity.
  - exists c'. split; [exact Hrun|]. split; [rewrite Hrows; reflexivity|].
    unfold table_rows. rewrite Hseq. reflexivity.
Defined.

(** X2 on the example: the ids 6 and 7 after the five samples. *)
Lemma save_to_database_successive_ids_witness :
  let c1 := (save_to_database "The fox" example_results example_conn).2 in
  (save_to_database "The fox" example_results example_conn).1 = Return (PyInt 6) ∧
  (save_to_database "A dog" example_transformer_results c1).1 = Return (PyInt 7).
Proof.
  destruct (save_to_database_successive_ids "The fox" "A dog" example_results
              example_transformer_results example_conn example_conn_initialized)
    as (H1 & H2 & _).
  cbv zeta in *. split.
  - destruct (save_to_database "The fox" example_results example_conn).1 as [id1|e] eqn:E.
    + by rewrite (H1 id1 eq_refl).
    + vm_compute in E. discriminate E.
  - destruct (save_to_database "A dog" example_transformer_results _).1 as [id2|e] eqn:E.
    + by rewrite (H2 id2 eq_refl).
    + vm_compute in E. discriminate E.
Defined.

(** X3 on the example: the sentence of the failed call is committed by the
    next one. *)
Lemma failed_save_is_committed_later_witness :
  let c1 := (save_to_database "The fox" test_results example_conn).2 in
  let c2 := (save_to_database "A dog" example_transformer_results c1).2 in
  committed c1 = committed example_conn ∧ durable c2 = working c2.
Proof.
  cbv zeta.
  destruct (failed_save_is_committed_later "The fox" "A dog" test_results
              example_transformer_results example_conn
              (save_to_database "The fox" test_results example_conn).2
              (save_to_database "A dog" example_transformer_results
                 (save_to_database "The fox" test_results example_conn).2).2
              (Exn KeyError "'head_pos'") (PyInt 7) example_conn_initialized)
    as (H1 & H2 & _).
  - vm_compute. reflexivity.
  - vm_compute. reflexivity.
  - by split.
Defined.

(** X4 on the example: the query of [test_save_to_database]. *)
Lemma saved_text_round_trip_witness :
  (saved_text (PyInt 6) (save_to_database "The fox" example_results example_conn).2).1
  = Return (PyStr "The fox").
Proof.
  destruct (saved_text_round_trip "The fox" example_results example_conn
              (save_to_database "The fox" example_results example_conn).2 (PyInt 6)
              example_conn_initialized) as [H _].
  - vm_compute. reflexivity.
  - exact H.
Defined.

(** X5 on the example: one sentence and two dependencies more. *)
Lemma statistics_after_save_witness :
  ∃ stats stats' ns nd,
    (get_statistics example_conn).1 = Return stats ∧
    (get_statistics (save_to_database "The fox" example_results example_conn).2).1
    = Return stats' ∧
    dict_get "sentence_count" stats = Some (PyInt ns) ∧
    dict_get "dependency_count" stats = Some (PyInt nd) ∧
    dict_get "sentence_count" stats' = Some (PyInt (ns + 1)) ∧
    dict_get "dependency_count" stats' = Some (PyInt (nd + 2)).
Proof.
  apply (statistics_after_save "The fox" example_results example_records example_conn
           (save_to_database "The fox" example_results example_conn).2 (PyInt 6)
           example_conn_initialized).
  - left. reflexivity.
  - vm_compute. reflexivity.
Defined.

(** X6 on the example: the parse of "The fox" is stored under id 6. *)
Lemma parsed_results_are_saved_witness :
  ∃ c', save_to_database "The fox" (spacy_results example_doc) example_conn
        = (Return (PyInt 6), c') ∧ durable c' = working c'.
Proof.
  destruct (parsed_results_are_saved example_parser "The fox" (spacy_results example_doc)
              example_conn example_conn_initialized eq_refl) as (c' & Hrun & Hdur & _).
  exists c'. split; [exact Hrun|exact Hdur].
Defined.

(** X7 on the example: two tokens, two nodes, two edges. *)
Lemma parsed_records_all_get_edges_witness :
  ∃ nodes edges,
    create_visualization (token_record example_doc <$> spacy.tokens example_doc)
    = Return (json_dumps (PyDict [("nodes", PyList nodes); ("edges", PyList edges)])) ∧
    length nodes = 2%nat ∧ length edges = 2%nat.
Proof.
  apply (parsed_records_all_get_edges example_parser "The fox" (spacy_results example_doc)
           (token_record example_doc <$> spacy.tokens example_doc) eq_refl eq_refl).
  discriminate.
Defined.

(** X8 on the records of the test: all four keys are there, the call
    returns. *)
Lemma create_visualization_returns_iff_witness :
  returns (create_visualization test_dependencies) ↔ Forall tree_record test_dependencies.
Proof. apply create_visualization_returns_iff. discriminate. Defined.

(** X9 on the example: without the spaCy model a parser is constructed all
    the same, with neither model. *)
Lemma parser_construction_witness :
  returns (__init__ example_spacy_load false example_pipeline ∅ example_clock).
Proof.
  destruct (parser_construction example_spacy_load false example_pipeline ∅ example_clock)
    as [[_ H] _].
  - left. split; reflexivity.
  - apply H. intros e [= <-]. reflexivity.
Defined.

(** X10 on the example, after "The fox" has been saved: the totals, and
    under each header the values in the order SQLite returns them, of equal
    counts the greater value first. *)
Lemma demo_stats_top_five_witness :
  ∃ c',
    demo.run example_np_mean (Return "The fox") example_parser
             (example_args demo.model_spacy false true)
             (demo.World [demo.initializing]
                (save_to_database "The fox" example_results example_conn).2)
    = (Return (),
       demo.World [ demo.initializing; demo.statistics_header;
                    demo.total_sentences "6"; demo.total_dependencies "2";
                    demo.common_dependencies_header;
                    demo.count_line "det" "1"; demo.count_line "ROOT" "1";
                    demo.common_pos_tags_header;
                    demo.count_line "NOUN" "1"; demo.count_line "DET" "1" ] c').
Proof.
  destruct (demo_stats_top_five example_np_mean (Return "The fox") example_parser
              (example_args demo.model_spacy false true)
              (demo.World [demo.initializing]
                 (save_to_database "The fox" example_results example_conn).2)
              eq_refl) as (c' & Hrun & _).
  - split; vm_compute; reflexivity.
  - exists c'. rewrite Hrun. vm_compute. reflexivity.
Defined.

(** X11 on the example: two spaces are no text. *)
Lemma demo_no_text_provided_witness :
  demo.run example_np_mean (Return "The fox") example_parser
           {| demo.text := Some "  "; demo.model := demo.model_spacy;
              demo.save := true; demo.stats := false |} example_world
  = (Return (), demo.World [demo.initializing; demo.no_text_provided] example_conn).
Proof.
  destruct (demo_no_text_provided example_np_mean (Return "The fox") example_parser
              {| demo.text := Some "  "; demo.model := demo.model_spacy;
                 demo.save := true; demo.stats := false |} "  " [] example_world)
    as [_ H].
  - reflexivity.
  - left. split; [reflexivity|]. split; [discriminate|reflexivity].
  - intros Hin. apply list_elem_of_singleton in Hin. discriminate Hin.
  - apply H. repeat constructor.
Defined.

(** X12 on the example: a run without [--save] leaves the store alone. *)
Lemma demo_writes_only_to_save_witness :
  let w' := (demo.run example_np_mean (Return "The fox") example_parser
                      (example_args demo.model_both false false) example_world).2 in
  working (demo.db w') = working example_conn ∧
  committed (demo.db w') = committed example_conn ∧
  in_transaction (demo.db w') = in_transaction example_conn.
Proof.
  apply (demo_writes_only_to_save example_np_mean (Return "The fox") example_parser
           (example_args demo.model_both false false) example_world).
  left. reflexivity.
Defined.

(** X13 on the example: "The fox" is stored under the ids 6 and 7. *)
Lemma demo_both_saves_twice_witness :
  ∃ out c' created created',
    demo.run example_np_mean (Return "The fox") example_full_parser
             (example_args demo.model_both true false) example_world
    = (Return (),
       demo.World ([demo.initializing] ++ out
                   ++ [ demo.saving; demo.saved_line "spaCy" "6";
                        demo.saved_line "Transformers" "7" ]) c') ∧
    table_rows "sentences" (working c')
    = table_rows "sentences" (working example_conn)
      ++ [ [INTEGER 6; TEXT "The fox"; TEXT "en"; TEXT created];
           [INTEGER 7; TEXT "The fox"; TEXT "en"; TEXT created'] ].
Proof.
  destruct (demo_both_saves_twice example_np_mean (Return "The fox") example_full_parser
              (example_args demo.model_both true false) "The fox" []
              (limited_model 10) example_doc [] (PyInt 0) example_world)
    as (out & c' & created & created' & Hrun & Hrows & _).
  - reflexivity.
  - reflexivity.
  - reflexivity.
  - left. split; [reflexivity|]. split; [discriminate|reflexivity].
  - intros Hblank. apply Forall_cons in Hblank as [Hblank _]. discriminate Hblank.
  - reflexivity.
  - reflexivity.
  - reflexivity.
  - exact example_conn_initialized.
  - assert (next_id "sentences" (working (demo.db example_world)) = 6) as Hsid
      by (vm_compute; reflexivity).
    cbv zeta in Hrun, Hrows. rewrite Hsid in Hrun, Hrows.
    exists out, c', created, created'. split; [exact Hrun|exact Hrows].
Defined.

(** X14 on the example: the page's block leaves the connection of the
    demo's run. *)
Lemma front_ends_store_alike_witness :
  ∃ note state',
    main_parse_text false example_np_mean example_parser choice_spaCy true "The fox"
                    example_state example_conn
    = (Return note, state',
       demo.db (demo.run example_np_mean (Return "The fox") example_parser
                         (example_args demo.model_spacy true false) example_world).2).
Proof.
  apply (front_ends_store_alike false example_np_mean (Return "The fox") example_parser
           (example_args demo.model_spacy true false) "The fox" [] example_state
           example_world).
  - intros [pipe Hpipe]. discriminate Hpipe.
  - reflexivity.
  - reflexivity.
  - left. split; [reflexivity|]. split; [discriminate|reflexivity].
  - vm_compute. reflexivity.
Defined.

(** X15 on the example: on a new file [--stats] reports the five samples. *)
Lemma demo_stats_counts_the_samples_witness :
  ∃ out c,
    demo.main example_spacy_load false example_pipeline example_np_mean
              (Return "The fox") ∅ example_clock
              (example_args demo.model_spacy false true)
    = (Return (),
       [ demo.initializing; demo.statistics_header;
         demo.total_sentences "5"; demo.total_dependencies "0" ] ++ out,
       Some c).
Proof.
  destruct (demo_stats_counts_the_samples example_spacy_load false example_pipeline
              example_np_mean (Return "The fox") ∅ example_clock
              (example_args demo.model_spacy false true))
    as (out & c & Hrun & _).
  - reflexivity.
  - left. split; reflexivity.
  - intros e [= <-]. reflexivity.
  - exists out, c. exact Hrun.
Defined.

(** X17 on the example: a text the model refuses makes the block raise the
    model's exception and change nothing. *)
Lemma parse_text_fails_only_in_spacy_witness :
  main_parse_text false example_np_mean example_parser choice_spaCy true
                  "The quick brown fox" example_state example_conn
  = (Raise (Exn ValueError "[E088] Text exceeds maximum length"),
     example_state, example_conn).
Proof.
  pose proof (parse_text_fails_only_in_spacy false example_np_mean example_parser
                choice_spaCy true "The quick brown fox" example_state example_conn
                example_conn_initialized) as H.
  destruct (main_parse_text _ _ _ _ _ _ _ _) as [[[note|e] state'] c'] eqn:E.
  - vm_compute in E. discriminate E.
  - destruct H as (_ & (model & Hnlp & Hmodel) & -> & ->).
    injection Hnlp as <-. vm_compute in Hmodel. injection Hmodel as <-. reflexivity.
Defined.

